(** * Stock Prices and Data Service: the tool handlers and their envelopes

    A shallow embedding of the three variants of the service
    ([src/stonks/src/index.ts], [src/unnamed/part_000], [src/unnamed/part_001])
    and the properties of the handlers' results.

    - JavaScript numbers are IEEE-754 binary64 values ([spec_float] with
      precision 53 and maximal exponent 1024), so that [-], [/], [*],
      [toFixed] and [parseFloat] behave as they do in the program.
    - A handler is a computation that issues requests to the data provider,
      writes console lines, and either returns or throws.
    - Objects that the program builds and hands out (the [data] of an
      envelope, the payload of a UI node) are JavaScript values [JsVal]. *)

From Stdlib Require Import ZArith String Ascii List Bool Lia QArith Qabs.
From Stdlib Require Import Floats.SpecFloat.
From Stdlib Require Import DecimalString.
Import ListNotations.

Local Open Scope string_scope.
Local Open Scope Z_scope.

Set Warnings "-register-all".

(** ** Numbers *)

Definition number : Type := spec_float.

Definition prec : Z := 53.
Definition emax : Z := 1024.

Definition NaN : number := S754_nan.
Definition Infinity : number := S754_infinity false.

(** An integer literal of the program. *)
Definition ofZ (z : Z) : number := binary_normalize prec emax z 0 false.

Definition num_sub : number -> number -> number := SFsub prec emax.
Definition num_div : number -> number -> number := SFdiv prec emax.
Definition num_mul : number -> number -> number := SFmul prec emax.

(** [x >= y] of JavaScript: false as soon as one side is NaN. *)
Definition num_ge (x y : number) : bool := SFleb y x.

(** [x == y] on numbers: [0] and [-0] are equal, [NaN] is equal to nothing. *)
Definition num_eq (x y : number) : bool := SFeqb x y.

(** [x < 0]. *)
Definition num_negative (x : number) : bool :=
  match x with
  | S754_finite s _ _ | S754_infinity s => s
  | _ => false
  end.

Definition isFinite (x : number) : bool :=
  match x with
  | S754_nan | S754_infinity _ => false
  | _ => true
  end.

(** ToBoolean on a number: [0], [-0] and [NaN] are falsy. *)
Definition num_truthy (x : number) : bool :=
  match x with
  | S754_zero _ | S754_nan => false
  | _ => true
  end.

(** ToBoolean on a field that may be missing. *)
Definition truthy (x : option number) : bool :=
  match x with
  | Some v => num_truthy v
  | None => false
  end.

(** ToNumber on a field that may be missing: [undefined] becomes [NaN]. *)
Definition toNumber (x : option number) : number :=
  match x with
  | Some v => v
  | None => NaN
  end.

(** The operator [??]. *)
Definition nullish {A : Type} (x : option A) (d : A) : A :=
  match x with
  | Some v => v
  | None => d
  end.

(** The rational that a finite number stands for. *)
Definition exact (x : number) : Q :=
  match x with
  | S754_finite s m (Zneg p) => (if s then Zneg m else Zpos m) # (2 ^ p)
  | S754_finite s m e => inject_Z ((if s then Zneg m else Zpos m) * 2 ^ e)
  | _ => 0%Q
  end.

(** ** Decimal strings *)

Definition decimal (n : Z) : string := NilZero.string_of_uint (N.to_uint (Z.to_N n)).

Fixpoint zeros (k : nat) : string :=
  match k with
  | O => ""
  | S k' => String "0" (zeros k')
  end.

Definition pow10 (k : nat) : Z := 10 ^ Z.of_nat k.

(** Number.prototype.toFixed, steps 8 to 10 of ECMA-262 21.1.3.3: for a finite
    [x = m * 2^e > 0], the integer [n] for which [n / 10^f - x] is as close to
    zero as possible, the larger one when there are two. *)
Definition scaledRound (f : nat) (m : positive) (e : Z) : Z :=
  match e with
  | Zneg p => (2 * Zpos m * pow10 f + 2 ^ Zpos p) / 2 ^ (Zpos p + 1)
  | _ => Zpos m * 2 ^ e * pow10 f
  end.

(** The digits of [n] with a point before the last [f] of them, padded with
    zeros on the left up to [f + 1] digits. *)
Definition fixedDigits (f : nat) (n : Z) : string :=
  let m := decimal n in
  let k := String.length m in
  let m := if (k <=? f)%nat then zeros (f + 1 - k) ++ m else m in
  let k := String.length m in
  if (f =? 0)%nat then m
  else substring 0 (k - f) m ++ "." ++ substring (k - f) f m.

(** [m * 2^e >= 10^21]. *)
Definition atLeast1e21 (m : positive) (e : Z) : bool :=
  match e with
  | Zneg p => 10 ^ 21 * 2 ^ Zpos p <=? Zpos m
  | _ => 10 ^ 21 <=? Zpos m * 2 ^ e
  end.

(** A finite number below [10^21] in magnitude: the range in which [toFixed]
    writes the digits itself. *)
Definition fixedRange (x : number) : bool :=
  match x with
  | S754_zero _ => true
  | S754_finite _ m e => negb (atLeast1e21 m e)
  | _ => false
  end.

(** ** Reading numbers from strings *)

Definition digitValue (c : ascii) : option Z :=
  let n := Z.of_nat (nat_of_ascii c) in
  if (48 <=? n) && (n <=? 57) then Some (n - 48) else None.

(** The longest run of decimal digits at the head of [s]: its value (on top
    of [acc]), the number of digits read (on top of [count]) and the rest. *)
Fixpoint spanDigits (s : string) (acc count : Z) : Z * Z * string :=
  match s with
  | String c r =>
      match digitValue c with
      | Some d => spanDigits r (10 * acc + d) (count + 1)
      | None => (acc, count, s)
      end
  | EmptyString => (acc, count, s)
  end.

Definition isWhiteSpace (c : ascii) : bool :=
  let n := nat_of_ascii c in
  ((9 <=? n) && (n <=? 13))%nat || (n =? 32)%nat.

Fixpoint trimStart (s : string) : string :=
  match s with
  | String c r => if isWhiteSpace c then trimStart r else s
  | EmptyString => s
  end.

(** When [s] starts with [p], what follows. *)
Fixpoint afterPrefix (p s : string) : option string :=
  match p, s with
  | EmptyString, _ => Some s
  | String a p', String b s' => if Ascii.eqb a b then afterPrefix p' s' else None
  | String _ _, EmptyString => None
  end.

(** The value [n * 10^e] rounded to the nearest binary64 number, ties to even. *)
Definition decimalToNumber (neg : bool) (n e : Z) : number :=
  match n with
  | Zpos p =>
      match e with
      | Zneg k =>
          let '(q, e', l) := SFdiv_core_binary prec emax (Zpos p) 0 (10 ^ Zpos k) 0 in
          binary_round_aux prec emax neg q e' l
      | _ => binary_normalize prec emax (if neg then - (Zpos p * 10 ^ e) else Zpos p * 10 ^ e) 0 neg
      end
  | _ => S754_zero neg
  end.

(** An optional exponent part [e[+-]ddd]; without digits it is not read. *)
Definition scanExponent (s : string) : Z * string :=
  match s with
  | String c r =>
      if Ascii.eqb c "e" || Ascii.eqb c "E" then
        let '(neg, r') :=
          match r with
          | String "-" r' => (true, r')
          | String "+" r' => (false, r')
          | _ => (false, r)
          end in
        let '(x, k, rest) := spanDigits r' 0 0 in
        if k =? 0 then (0, s) else ((if neg then - x else x), rest)
      else (0, s)
  | EmptyString => (0, s)
  end.

(** The longest prefix of [s] that is a StrDecimalLiteral (sign, [Infinity],
    or digits with an optional fraction and exponent), with what follows it. *)
Definition scanNumber (s : string) : option (number * string) :=
  let '(neg, s1) :=
    match s with
    | String "-" r => (true, r)
    | String "+" r => (false, r)
    | _ => (false, s)
    end in
  match afterPrefix "Infinity" s1 with
  | Some rest => Some (S754_infinity neg, rest)
  | None =>
      let '(i, ki, s2) := spanDigits s1 0 0 in
      let '(n, kf, s3) :=
        match s2 with
        | String "." r =>
            let '(n, kf, s3) := spanDigits r i 0 in
            if (ki =? 0) && (kf =? 0) then (i, 0, s2) else (n, kf, s3)
        | _ => (i, 0, s2)
        end in
      if (ki =? 0) && (kf =? 0) then None
      else
        let '(x, rest) := scanExponent s3 in
        Some (decimalToNumber neg n (x - kf), rest)
  end.

(** The global function [parseFloat]. *)
Definition parseFloat (s : string) : number :=
  match scanNumber (trimStart s) with
  | Some (x, _) => x
  | None => NaN
  end.

(** [Number(s)] on a string: the whole of it has to be a numeric literal, and
    the empty string is [0].  The hexadecimal, octal and binary literals are
    not read; no string of the program has that form. *)
Definition Number_of (s : string) : number :=
  match trimStart s with
  | EmptyString => S754_zero false
  | s' =>
      match scanNumber s' with
      | Some (x, rest) =>
          match trimStart rest with
          | EmptyString => x
          | _ => NaN
          end
      | None => NaN
      end
  end.

(** ** JavaScript values *)

Inductive JsVal : Type :=
| JUndefined
| JNull
| JBool (b : bool)
| JNum (x : number)
| JStr (s : string)
| JArr (items : list JsVal)
| JObj (props : list (string * JsVal)).

(** A field that may be missing, as a value. *)
Definition optNum (x : option number) : JsVal :=
  match x with
  | Some v => JNum v
  | None => JUndefined
  end.

Definition optStr (x : option string) : JsVal :=
  match x with
  | Some v => JStr v
  | None => JUndefined
  end.

Fixpoint getProp (k : string) (props : list (string * JsVal)) : JsVal :=
  match props with
  | [] => JUndefined
  | (k', v) :: rest => if String.eqb k k' then v else getProp k rest
  end.

(** Reading the property [k] of [v]. *)
Definition get (k : string) (v : JsVal) : JsVal :=
  match v with
  | JObj props => getProp k props
  | _ => JUndefined
  end.

(** The elements of an array value. *)
Definition elements (v : JsVal) : list JsVal :=
  match v with
  | JArr items => items
  | _ => []
  end.

(** [JSON.stringify], by the value that its text denotes (what [JSON.parse]
    reads back from it): a property whose value is [undefined] is left out,
    [NaN] and the infinities are written [null], [-0] is written [0], and an
    [undefined] array element is written [null].  The characters of the text
    are not modelled. *)
Fixpoint JSON_stringify (v : JsVal) : JsVal :=
  match v with
  | JNum x =>
      match x with
      | S754_nan | S754_infinity _ => JNull
      | S754_zero _ => JNum (S754_zero false)
      | S754_finite _ _ _ => v
      end
  | JArr items =>
      JArr (map (fun e => match e with
                          | JUndefined => JNull
                          | _ => JSON_stringify e
                          end) items)
  | JObj props =>
      JObj ((fix members (ps : list (string * JsVal)) : list (string * JsVal) :=
               match ps with
               | [] => []
               | (k, e) :: rest =>
                   match e with
                   | JUndefined => members rest
                   | _ => (k, JSON_stringify e) :: members rest
                   end
               end) props)
  | _ => v
  end.

(** A value that [JSON.stringify] writes as it is. *)
Fixpoint plain (v : JsVal) : bool :=
  match v with
  | JUndefined => false
  | JNum x =>
      match x with
      | S754_finite _ _ _ | S754_zero false => true
      | _ => false
      end
  | JArr items => forallb plain items
  | JObj props => forallb (fun kv => plain (snd kv)) props
  | _ => true
  end.

(** ** Errors, console lines and requests *)

Record Error : Type := mkError { error_name : string; message : string }.

(** Reading a property or calling a method of [undefined]. *)
Definition TypeError_undefined (prop : string) : Error :=
  mkError "TypeError" ("Cannot read properties of undefined (reading '" ++ prop ++ "')").

(** ** The data provider *)

Module Polygon.

(** One aggregate bar (the provider's [IAggsResults]); every field may be
    missing. *)
Record Bar : Type := mkBar {
  o : option number;
  c : option number;
  h : option number;
  l : option number;
  v : option number;
  vw : option number;
  t : option number
}.

Record Aggs : Type := mkAggs { results : option (list Bar) }.

Record Publisher : Type := mkPublisher { publisher_name : option string }.

Record NewsItem : Type := mkNewsItem {
  title : option string;
  publisher : option Publisher;
  published_utc : option string;
  article_url : option string
}.

Record News : Type := mkNews { news_results : option (list NewsItem) }.

Record Dividend : Type := mkDividend {
  ex_dividend_date : option string;
  cash_amount : option number;
  pay_date : option string
}.

Record Dividends : Type := mkDividends { dividends_results : option (list Dividend) }.

Record Split : Type := mkSplit {
  execution_date : option string;
  split_from : option number;
  split_to : option number
}.

Record Splits : Type := mkSplits { splits_results : option (list Split) }.

Record AggsQuery : Type := mkAggsQuery { sort : string; query_limit : Z }.

Record AggsRequest : Type := mkAggsRequest {
  aggs_ticker : string;
  multiplier : Z;
  timespan : string;
  from : string;
  to : string;
  query : option AggsQuery
}.

(** The argument [{ ticker, limit }] of the news, dividends and splits calls. *)
Record LimitQuery : Type := mkLimitQuery { ticker : string; limit : number }.

Inductive Request : Type :=
| stocks_aggregates (r : AggsRequest)
| stocks_previousClose (ticker : string)
| reference_tickerNews (q : LimitQuery)
| reference_dividends (q : LimitQuery)
| reference_stockSplits (q : LimitQuery).

(** The promise of a provider call either resolves or rejects. *)
Inductive Outcome (A : Type) : Type :=
| Resolves (body : A)
| Rejects (reason : Error).
Arguments Resolves {A} body.
Arguments Rejects {A} reason.

(** [restClient(process.env.POLYGON_API_KEY)]. *)
Record Provider : Type := mkProvider {
  aggregates : AggsRequest -> Outcome Aggs;
  previousClose : string -> Outcome Aggs;
  tickerNews : LimitQuery -> Outcome News;
  dividends : LimitQuery -> Outcome Dividends;
  stockSplits : LimitQuery -> Outcome Splits
}.

End Polygon.

(** What the host decides: the locale, the clock, the shortest decimal form
    of a number, and the moment at which the answer to a request arrives. *)
Record Host : Type := mkHost {
  (** Number::toString. *)
  Number_toString : number -> string;
  (** [x.toLocaleString()]. *)
  toLocaleString : number -> string;
  (** [x.toLocaleString(undefined, { minimumFractionDigits: 2, maximumFractionDigits: 2 })]. *)
  toLocaleString2 : number -> string;
  (** [new Date(d).toLocaleDateString()]. *)
  toLocaleDateString : JsVal -> string;
  (** [new Date(d).toLocaleDateString([], { month: 'short', day: 'numeric' })]. *)
  toLocaleDateShort : JsVal -> string;
  (** [new Date(d).toLocaleTimeString()]. *)
  toLocaleTimeString : JsVal -> string;
  (** [d = new Date(); d.setDate(d.getDate() - n); d.toISOString().split('T')[0]]. *)
  isoDateDaysAgo : Z -> string;
  (** [new Date(new Date().getTime() - ms).toISOString().split('T')[0]]. *)
  isoDateMillisAgo : Z -> string;
  (** The moment at which the promise of a request settles. *)
  settledAt : Polygon.Request -> nat
}.

(** Number.prototype.toFixed (ECMA-262 21.1.3.3). *)
Definition toFixed (host : Host) (fractionDigits : nat) (x : number) : string :=
  match x with
  | S754_nan => "NaN"
  | S754_infinity false => "Infinity"
  | S754_infinity true => "-Infinity"
  | S754_zero _ => fixedDigits fractionDigits 0
  | S754_finite s m e =>
      (if s then "-" else "") ++
      (if atLeast1e21 m e then Number_toString host (S754_finite false m e)
       else fixedDigits fractionDigits (scaledRound fractionDigits m e))
  end.

(** A value inside a template literal. *)
Definition interpolate (host : Host) (x : option number) : string :=
  match x with
  | Some n => Number_toString host n
  | None => "undefined"
  end.

(** ** Asynchronous computations *)

Inductive Event : Type :=
| Called (r : Polygon.Request)
| console_log_line (line : string)
| console_error_line (line : string) (e : Error).

Inductive Completion (A : Type) : Type :=
| Returns (a : A)
| Throws (e : Error).
Arguments Returns {A} a.
Arguments Throws {A} e.

(** An [async] function body: the events it produces, in order, and how it
    completes. *)
Definition Async (A : Type) : Type := list Event * Completion A.

Definition ret {A : Type} (a : A) : Async A := ([], Returns a).

Definition throw {A : Type} (e : Error) : Async A := ([], Throws e).

Definition bind {A B : Type} (m : Async A) (k : A -> Async B) : Async B :=
  match m with
  | (ev, Returns a) => let '(ev', r) := k a in ((ev ++ ev')%list, r)
  | (ev, Throws e) => (ev, Throws e)
  end.

(** [try { body } catch (error) { handler }]. *)
Definition try_catch {A : Type} (body : Async A) (handler : Error -> Async A) : Async A :=
  match body with
  | (ev, Returns a) => (ev, Returns a)
  | (ev, Throws e) => let '(ev', r) := handler e in ((ev ++ ev')%list, r)
  end.

Declare Scope async_scope.
Delimit Scope async_scope with async.
Notation "x <- m ;; k" := (bind m (fun x => k))
  (at level 100, m at next level, right associativity) : async_scope.
Notation "m ;; k" := (bind m (fun _ => k))
  (at level 100, right associativity) : async_scope.
Local Open Scope async_scope.

Definition console_log (line : string) : Async unit := ([console_log_line line], Returns tt).

Definition console_error (line : string) (e : Error) : Async unit :=
  ([console_error_line line e], Returns tt).

(** [await] on a provider call: the request goes out, then the promise
    settles. *)
Definition await {A : Type} (r : Polygon.Request) (answer : Polygon.Outcome A) : Async A :=
  ([Called r],
   match answer with
   | Polygon.Resolves body => Returns body
   | Polygon.Rejects reason => Throws reason
   end).

(** The requests of a run, in the order issued. *)
Fixpoint requests (events : list Event) : list Polygon.Request :=
  match events with
  | [] => []
  | Called r :: rest => r :: requests rest
  | _ :: rest => requests rest
  end.

(** The moment at which a task with the events [events] settles: that of the
    last request it has waited for. *)
Definition settles (time : Polygon.Request -> nat) (events : list Event) : nat :=
  last (map time (requests events)) 0%nat.

(** The rejection that comes first in time among [tasks], with its moment;
    of two that come at the same moment, the first in the list. *)
Fixpoint first_rejection {A : Type} (time : Polygon.Request -> nat) (tasks : list (Async A))
  : option (nat * Error) :=
  match tasks with
  | [] => None
  | (ev, r) :: rest =>
      match r, first_rejection time rest with
      | Returns _, later => later
      | Throws e, Some (t', e') =>
          if (t' <? settles time ev)%nat then Some (t', e') else Some (settles time ev, e)
      | Throws e, None => Some (settles time ev, e)
      end
  end.

(** The values of the tasks that return. *)
Fixpoint fulfilled {A : Type} (tasks : list (Async A)) : list A :=
  match tasks with
  | [] => []
  | (_, Returns a) :: rest => a :: fulfilled rest
  | (_, Throws _) :: rest => fulfilled rest
  end.

(** [await Promise.all(tasks)]: every task is started, so every request goes
    out; the result is the list of the values, or, when a task rejects, the
    rejection that comes first in time. *)
Definition Promise_all {A : Type} (time : Polygon.Request -> nat) (tasks : list (Async A))
  : Async (list A) :=
  (concat (map fst tasks),
   match first_rejection time tasks with
   | Some (_, e) => Throws e
   | None => Returns (fulfilled tasks)
   end).

(** A method call [x.method(...)] on a field that may be missing. *)
Definition method {A : Type} (name : string) (x : option number) (f : number -> A) : Async A :=
  match x with
  | Some n => ret (f n)
  | None => throw (TypeError_undefined name)
  end.

(** [xs.map(f)] on a [results] that may be missing. *)
Definition results_map {A B : Type} (xs : option (list A)) (f : A -> Async B) : Async (list B) :=
  match xs with
  | Some items =>
      fold_right (fun x acc => y <- f x ;; ys <- acc ;; ret (y :: ys)) (ret []) items
  | None => throw (TypeError_undefined "map")
  end.

(** ** UI nodes and envelopes *)

Inductive Children (N : Type) : Type :=
| NoChildren
| ChildNodes (nodes : list N)
| ChildText (content : string).
Arguments NoChildren {N}.
Arguments ChildNodes {N} nodes.
Arguments ChildText {N} content.

(** [{ type, uiData, children }]; [uiData] is [JUndefined] when the property
    is not there. *)
Inductive UINode : Type :=
| mkNode (type : string) (uiData : JsVal) (children : Children UINode).

Definition type (n : UINode) : string := let '(mkNode ty _ _) := n in ty.
Definition uiData (n : UINode) : JsVal := let '(mkNode _ d _) := n in d.
Definition children (n : UINode) : Children UINode := let '(mkNode _ _ ch) := n in ch.

Definition childNodes (n : UINode) : list UINode :=
  match children n with
  | ChildNodes nodes => nodes
  | _ => []
  end.

(** The child at position [i], counted from 0. *)
Definition child (i : nat) (n : UINode) : UINode :=
  nth i (childNodes n) (mkNode "" JUndefined NoChildren).

Record Envelope : Type := mkEnvelope {
  text : string;
  data : JsVal;
  ui : UINode
}.

Module AgentInfo.
Record t : Type := mk { id : string }.
End AgentInfo.

Record TickerInput : Type := mkTickerInput { input_ticker : string }.

(** [z.object({ ticker: z.string(), limit: z.number().optional() })]. *)
Record LimitInput : Type := mkLimitInput {
  limit_ticker : string;
  input_limit : option number
}.

(** [ToolConfig] and [ServicePinnable] of the service SDK, with the fields
    the configurations of the program fill in.  The [input] schema of a tool
    is the input type [I]; the [output] schema is [z.any()]. *)
Record ToolConfig (I : Type) : Type := mkToolConfig {
  tool_id : string;
  tool_name : string;
  tool_description : string;
  pricePerUse : Z;
  currency : string;
  handler : I -> AgentInfo.t -> Async Envelope
}.
Arguments mkToolConfig {I}.
Arguments tool_id {I}.
Arguments tool_name {I}.
Arguments tool_description {I}.
Arguments pricePerUse {I}.
Arguments currency {I}.
Arguments handler {I}.

Record ServicePinnable : Type := mkServicePinnable {
  pinnable_id : string;
  pinnable_name : string;
  pinnable_description : string;
  pinnable_type : string;
  label : string;
  icon : string;
  getWidget : Async Envelope
}.

(** A failure-shaped envelope: no data, and an alert for a view. *)
Definition isErrorEnvelope (env : Envelope) : Prop :=
  data env = JNull /\ type (ui env) = "alert".

(** ** The UI builders of [@dainprotocol/utils] *)

Module Utils.

(** Modelled from the spec: the error with which a builder of the UI Node
    Model (section 4.1) refuses an ill-formed node; the package
    [@dainprotocol/utils] is not part of the sources. *)
Definition SchemaError (msg : string) : Error := mkError "SchemaError" msg.

(** Modelled from the spec: the state of [TableUIBuilder], the builder behind
    [buildTable(columns, rows)] of section 4.1, absent from the sources. *)
Record TableUIBuilder : Type := mkTableUIBuilder {
  table_columns : list JsVal;
  table_rows : list JsVal
}.

(** Modelled from the spec: [new TableUIBuilder()], a builder that has
    accumulated nothing (section 4.1). *)
Definition new_TableUIBuilder : TableUIBuilder := mkTableUIBuilder [] [].

(** Modelled from the spec: [.addColumns(columns)] of [TableUIBuilder],
    which accumulates the ordered column descriptions (section 4.1). *)
Definition addColumns (columns : list JsVal) (b : TableUIBuilder) : TableUIBuilder :=
  mkTableUIBuilder (table_columns b ++ columns)%list (table_rows b).

(** Modelled from the spec: [.rows(rows)] of [TableUIBuilder] (section 4.1). *)
Definition rows (rs : list JsVal) (b : TableUIBuilder) : TableUIBuilder :=
  mkTableUIBuilder (table_columns b) rs.

(** Modelled from the spec: [.build()] of [TableUIBuilder]: a leaf node of
    kind [table] whose payload holds the columns and the rows; it fails with
    a SchemaError when there is no column (section 4.1). *)
Definition build_table (b : TableUIBuilder) : Async UINode :=
  match table_columns b with
  | [] => throw (SchemaError "a table needs at least one column")
  | _ =>
      ret (mkNode "table"
             (JObj [("columns", JArr (table_columns b)); ("rows", JArr (table_rows b))])
             (ChildNodes []))
  end.

(** Modelled from the spec: reading back the payload of a built table node
    (the round trip of section 8). *)
Definition table_payload (n : UINode) : list JsVal * list JsVal :=
  (elements (get "columns" (uiData n)), elements (get "rows" (uiData n))).

(** Modelled from the spec: the state of [ChartUIBuilder], the builder behind
    [buildChart(kind, title, description?, series, dataKeys, trend?, footer?)]
    of section 4.1, absent from the sources. *)
Record ChartUIBuilder : Type := mkChartUIBuilder {
  chart_type : option string;
  chart_title : option string;
  chart_description : option string;
  chart_series : list JsVal;
  chart_dataKeys : JsVal;
  chart_trend : option (number * string);
  chart_footer : option string
}.

(** Modelled from the spec: [new ChartUIBuilder()] (section 4.1). *)
Definition new_ChartUIBuilder : ChartUIBuilder :=
  mkChartUIBuilder None None None [] JUndefined None None.

(** Modelled from the spec: [.type(kind)] of [ChartUIBuilder] (section 4.1). *)
Definition chart_set_type (kind : string) (b : ChartUIBuilder) : ChartUIBuilder :=
  mkChartUIBuilder (Some kind) (chart_title b) (chart_description b) (chart_series b)
    (chart_dataKeys b) (chart_trend b) (chart_footer b).

(** Modelled from the spec: [.title(title)] of [ChartUIBuilder] (section 4.1). *)
Definition chart_set_title (s : string) (b : ChartUIBuilder) : ChartUIBuilder :=
  mkChartUIBuilder (chart_type b) (Some s) (chart_description b) (chart_series b)
    (chart_dataKeys b) (chart_trend b) (chart_footer b).

(** Modelled from the spec: [.description(text)] of [ChartUIBuilder]
    (section 4.1). *)
Definition chart_set_description (s : string) (b : ChartUIBuilder) : ChartUIBuilder :=
  mkChartUIBuilder (chart_type b) (chart_title b) (Some s) (chart_series b)
    (chart_dataKeys b) (chart_trend b) (chart_footer b).

(** Modelled from the spec: [.chartData(series)] of [ChartUIBuilder], the
    ordered data points (section 4.1). *)
Definition chartData (series : list JsVal) (b : ChartUIBuilder) : ChartUIBuilder :=
  mkChartUIBuilder (chart_type b) (chart_title b) (chart_description b) series
    (chart_dataKeys b) (chart_trend b) (chart_footer b).

(** Modelled from the spec: [.dataKeys(keys)] of [ChartUIBuilder], naming the
    point fields of the x axis, the y axis and the label (section 4.1). *)
Definition dataKeys (keys : JsVal) (b : ChartUIBuilder) : ChartUIBuilder :=
  mkChartUIBuilder (chart_type b) (chart_title b) (chart_description b) (chart_series b)
    keys (chart_trend b) (chart_footer b).

(** Modelled from the spec: [.trend(value, text)] of [ChartUIBuilder], a
    signed numeric delta and a display string (section 4.1). *)
Definition trend (value : number) (display : string) (b : ChartUIBuilder) : ChartUIBuilder :=
  mkChartUIBuilder (chart_type b) (chart_title b) (chart_description b) (chart_series b)
    (chart_dataKeys b) (Some (value, display)) (chart_footer b).

(** Modelled from the spec: [.footer(text)] of [ChartUIBuilder] (section 4.1). *)
Definition footer (s : string) (b : ChartUIBuilder) : ChartUIBuilder :=
  mkChartUIBuilder (chart_type b) (chart_title b) (chart_description b) (chart_series b)
    (chart_dataKeys b) (chart_trend b) (Some s).

(** Modelled from the spec: whether the point field that [dataKeys] names
    under [axis] is present in [point] (the shape check of section 4.1). *)
Definition keyPresent (axis : string) (keys point : JsVal) : bool :=
  match get axis keys with
  | JStr k =>
      match get k point with
      | JUndefined => false
      | _ => true
      end
  | _ => false
  end.

(** Modelled from the spec: [.build()] of [ChartUIBuilder]: a leaf node of
    kind [chart]; it fails with a SchemaError when the series is not empty
    and the x or y key is absent from its first point (section 4.1). *)
Definition build_chart (b : ChartUIBuilder) : Async UINode :=
  let payload :=
    JObj [("type", optStr (chart_type b));
          ("title", optStr (chart_title b));
          ("description", optStr (chart_description b));
          ("data", JArr (chart_series b));
          ("dataKeys", chart_dataKeys b);
          ("trend", match chart_trend b with
                    | Some (value, display) =>
                        JObj [("value", JNum value); ("text", JStr display)]
                    | None => JUndefined
                    end);
          ("footer", optStr (chart_footer b))] in
  match chart_series b with
  | first :: _ =>
      if keyPresent "x" (chart_dataKeys b) first && keyPresent "y" (chart_dataKeys b) first
      then ret (mkNode "chart" payload (ChildNodes []))
      else throw (SchemaError "the data keys are absent from the first point")
  | [] => ret (mkNode "chart" payload (ChildNodes []))
  end.

(** Modelled from the spec: the state of [CardUIBuilder], the builder behind
    [buildCard(title?, content?)] and [.addChild(node)] of section 4.1,
    absent from the sources. *)
Record CardUIBuilder : Type := mkCardUIBuilder {
  card_title : option string;
  card_content : option string;
  card_children : list UINode
}.

(** Modelled from the spec: [new CardUIBuilder()] (section 4.1). *)
Definition new_CardUIBuilder : CardUIBuilder := mkCardUIBuilder None None [].

(** Modelled from the spec: [.title(title)] of [CardUIBuilder] (section 4.1). *)
Definition title (s : string) (b : CardUIBuilder) : CardUIBuilder :=
  mkCardUIBuilder (Some s) (card_content b) (card_children b).

(** Modelled from the spec: [.content(content)] of [CardUIBuilder]
    (section 4.1). *)
Definition content (s : string) (b : CardUIBuilder) : CardUIBuilder :=
  mkCardUIBuilder (card_title b) (Some s) (card_children b).

(** Modelled from the spec: [.addChild(node)] of [CardUIBuilder]: the children
    are the nodes added, in call order (section 4.1). *)
Definition addChild (node : UINode) (b : CardUIBuilder) : CardUIBuilder :=
  mkCardUIBuilder (card_title b) (card_content b) (card_children b ++ [node])%list.

(** Modelled from the spec: [.build()] of [CardUIBuilder]: a composite node
    of kind [card] (section 4.1). *)
Definition build_card (b : CardUIBuilder) : UINode :=
  mkNode "card"
    (JObj [("title", optStr (card_title b)); ("content", optStr (card_content b))])
    (ChildNodes (card_children b)).

(** Modelled from the spec: the variants of an alert (section 4.1). *)
Inductive AlertVariant : Type := info | warning | error.

Definition variantName (x : AlertVariant) : string :=
  match x with
  | info => "info"
  | warning => "warning"
  | error => "error"
  end.

(** Modelled from the spec: the state of [AlertUIBuilder], the builder behind
    [buildAlert(variant, message)] of section 4.1, absent from the sources. *)
Record AlertUIBuilder : Type := mkAlertUIBuilder {
  alert_variant : option AlertVariant;
  alert_message : option string
}.

(** Modelled from the spec: [new AlertUIBuilder()] (section 4.1). *)
Definition new_AlertUIBuilder : AlertUIBuilder := mkAlertUIBuilder None None.

(** Modelled from the spec: [.withVariant(variant)] of [AlertUIBuilder]
    (section 4.1). *)
Definition withVariant (x : AlertVariant) (b : AlertUIBuilder) : AlertUIBuilder :=
  mkAlertUIBuilder (Some x) (alert_message b).

(** Modelled from the spec: [.withMessage(message)] of [AlertUIBuilder]
    (section 4.1). *)
Definition withMessage (s : string) (b : AlertUIBuilder) : AlertUIBuilder :=
  mkAlertUIBuilder (alert_variant b) (Some s).

(** Modelled from the spec: [.build()] of [AlertUIBuilder]: a leaf node of
    kind [alert] (section 4.1). *)
Definition build_alert (b : AlertUIBuilder) : UINode :=
  mkNode "alert"
    (JObj [("variant", optStr (option_map variantName (alert_variant b)));
           ("message", optStr (alert_message b))])
    (ChildNodes []).

End Utils.

(** ** The dispatcher of the service SDK *)

Module SDK.

(** Modelled from the spec: the text that describes a failure.  Sections 4.3
    and 7 ask for a descriptive, human-readable text and rule out an empty
    answer to a failure: the text is the message of the fault, or, for a
    fault that carries no message, its name, or [Error]. *)
Definition describe (e : Error) : string :=
  match message e, error_name e with
  | EmptyString, EmptyString => "Error"
  | EmptyString, name => name
  | text, _ => text
  end.

(** Modelled from the spec: the failure-shaped envelope of section 4.3
    (steps 2 and 4): a [text] describing the failure, [data: null] and
    [ui: alert(variant = error, message)]; the dispatcher is part of
    [@dainprotocol/service-sdk], absent from the sources. *)
Definition failureEnvelope (e : Error) : Envelope :=
  mkEnvelope (describe e) JNull
    (Utils.build_alert (Utils.withMessage (describe e)
                          (Utils.withVariant Utils.error Utils.new_AlertUIBuilder))).

(** Modelled from the spec: steps 3 to 5 of [invoke] in section 4.3: the
    handler runs on the input; when it fails the fault is caught, logged with
    the caller and the tool, and turned into the failure-shaped envelope;
    otherwise its envelope is returned unchanged.  The lookup by id and the
    validation of the raw input (steps 1 and 2) are not modelled: the input
    is already of the tool's input type. *)
Definition invoke {I : Type} (tool : ToolConfig I) (input : I) (context : AgentInfo.t)
  : Async Envelope :=
  try_catch (handler tool input context)
    (fun e =>
       console_error (AgentInfo.id context ++ " " ++ tool_id tool) e ;;
       ret (failureEnvelope e)).

(** Modelled from the spec: [invokeWidget] of section 4.3, the same contract
    as [invoke] without input. *)
Definition invokeWidget (widget : ServicePinnable) : Async Envelope :=
  try_catch (getWidget widget)
    (fun e =>
       console_error (pinnable_id widget) e ;;
       ret (failureEnvelope e)).

End SDK.

(** [arr.push(x)]. *)
Definition push {A : Type} (arr : list A) (x : A) : list A := (arr ++ [x])%list.

(** [xs?.[0]]. *)
Definition first {A : Type} (xs : option (list A)) : option A :=
  match xs with
  | Some (x :: _) => Some x
  | _ => None
  end.

(** One entry of the [results] of the market overview. *)
Module Result.
Record t : Type := mk {
  name : string;
  price : string;
  change : string;
  changePercent : string;
  isPositive : bool
}.
Definition toJs (r : t) : JsVal :=
  JObj [("name", JStr (name r));
        ("price", JStr (price r));
        ("change", JStr (change r));
        ("changePercent", JStr (changePercent r));
        ("isPositive", JBool (isPositive r))].
End Result.

(** The four indices of the market overview, [{ ticker, name }]. *)
Definition indices : list (string * string) :=
  [("DIA", "Dow Jones"); ("SPY", "S&P 500"); ("QQQ", "NASDAQ"); ("IWM", "Russell 2000")].

(** * [src/stonks/src/index.ts]: nodes written as object literals *)

Module Index.
Import Polygon.

Section Service.
Variable host : Host.
Variable polygon : Provider.

Definition column (key header ty width : string) : JsVal :=
  JObj [("key", JStr key); ("header", JStr header); ("type", JStr ty); ("width", JStr width)].

(** [const change = latestData.c - latestData.o]. *)
Definition change (latestData : Bar) : number :=
  num_sub (toNumber (c latestData)) (toNumber (o latestData)).

(** [const changePercent = ((change) / latestData.o * 100).toFixed(2)]. *)
Definition changePercent (latestData : Bar) : string :=
  toFixed host 2 (num_mul (num_div (change latestData) (toNumber (o latestData))) (ofZ 100)).

Definition chartData (ticker : string) (aggs : Aggs) (changePercent : string) : JsVal :=
  JObj [("type", JStr "line");
        ("title", JStr (ticker ++ " 5-Day Price History"));
        ("description", JStr "Price movement over the last 5 trading days");
        ("data", JArr (map (fun bar =>
                              JObj [("time", JStr (toLocaleDateString host (optNum (t bar))));
                                    ("price", optNum (c bar))])
                         (rev (nullish (results aggs) []))));
        ("config", JObj [("height", JNum (ofZ 350));
                         ("colors", JArr [JStr "#3B82F6"]);
                         ("margin", JObj [("left", JNum (ofZ 12)); ("right", JNum (ofZ 12))])]);
        ("dataKeys", JObj [("x", JStr "time"); ("y", JStr "price")]);
        ("trend", JObj [("value", JNum (parseFloat changePercent));
                        ("text", JStr (changePercent ++ "% change"))])].

Definition metricRow (metric value : string) : JsVal :=
  JObj [("metric", JStr metric); ("value", JStr value)].

Definition tableData (volume open high low vwap : string) : JsVal :=
  JObj [("columns", JArr [column "metric" "Metric" "text" "40%";
                          column "value" "Value" "text" "60%"]);
        ("rows", JArr [metricRow "Volume" volume;
                       metricRow "Open" ("$" ++ open);
                       metricRow "High" ("$" ++ high);
                       metricRow "Low" ("$" ++ low);
                       metricRow "VWAP" ("$" ++ vwap)])].

(** The arguments of [client.stocks.aggregates(ticker, 1, 'day', from, to,
    { sort: 'desc', limit: 10 })]. *)
Definition priceRequest (ticker : string) : AggsRequest :=
  mkAggsRequest ticker 1 "day" (isoDateDaysAgo host 7) (isoDateDaysAgo host 0)
    (Some (mkAggsQuery "desc" 10)).

Definition getStockPrice_handler (input : TickerInput) (agentInfo : AgentInfo.t)
  : Async Envelope :=
  let ticker := input_ticker input in
  console_log ("User / Agent " ++ AgentInfo.id agentInfo ++ " requested price for " ++ ticker) ;;
  let to := isoDateDaysAgo host 0 in
  let from := isoDateDaysAgo host 7 in
  console_log ("Fetching daily data from " ++ from ++ " to " ++ to ++ " for " ++ ticker) ;;
  aggs <- await (stocks_aggregates (priceRequest ticker))
            (aggregates polygon (priceRequest ticker)) ;;
  match first (results aggs) with
  | None => throw (mkError "Error" ("No data available for " ++ ticker))
  | Some latestData =>
      let changePercent := changePercent latestData in
      let chartData := chartData ticker aggs changePercent in
      volume <- method "toLocaleString" (v latestData) (toLocaleString host) ;;
      open <- method "toFixed" (o latestData) (toFixed host 2) ;;
      high <- method "toFixed" (h latestData) (toFixed host 2) ;;
      low <- method "toFixed" (l latestData) (toFixed host 2) ;;
      vwap <- method "toFixed" (vw latestData) (toFixed host 2) ;;
      let tableData := tableData volume open high low vwap in
      close <- method "toFixed" (c latestData) (toFixed host 2) ;;
      let summary :=
        ticker ++ " is trading at $" ++ close ++ ". Today's change: " ++ changePercent ++ "%" in
      ret (mkEnvelope summary
             (JObj [("price", optNum (c latestData));
                    ("high", optNum (h latestData));
                    ("low", optNum (l latestData));
                    ("volume", optNum (v latestData));
                    ("change", JNum (change latestData));
                    ("changePercent", JNum (parseFloat changePercent))])
             (mkNode "div"
                (JSON_stringify
                   (JObj [("title", JStr (ticker ++ " Stock Price and Stats"));
                          ("content", JStr summary)]))
                (ChildNodes [mkNode "chart" (JSON_stringify chartData) NoChildren;
                             mkNode "table" (JSON_stringify tableData) NoChildren])))
  end.

Definition getStockPriceConfig : ToolConfig TickerInput :=
  mkToolConfig "get-stock-price" "Get Stock Price"
    "Fetches current stock price, daily stats, and 24h price history for a ticker symbol"
    0 "USD" getStockPrice_handler.

(** [{ title, publisher, timestamp, url }] of one article. *)
Definition article (item : NewsItem) : Async (list (string * JsVal)) :=
  match publisher item with
  | Some p =>
      ret [("title", optStr (title item));
           ("publisher", optStr (publisher_name p));
           ("timestamp", optStr (published_utc item));
           ("url", optStr (article_url item))]
  | None => throw (TypeError_undefined "name")
  end.

(** [{ ...article, url: { text, url }, timestamp: ... }]: the two properties
    are overwritten in place. *)
Definition articleRow (a : list (string * JsVal)) : JsVal :=
  JObj [("title", getProp "title" a);
        ("publisher", getProp "publisher" a);
        ("timestamp", JStr (toLocaleDateString host (getProp "timestamp" a)));
        ("url", JObj [("text", JStr "Read More"); ("url", getProp "url" a)])].

(** [async ({ ticker, limit = 5 }, agentInfo) => ...]. *)
Definition getStockNews_handler (input : LimitInput) (agentInfo : AgentInfo.t)
  : Async Envelope :=
  let ticker := limit_ticker input in
  let limit := nullish (input_limit input) (ofZ 5) in
  console_log ("User / Agent " ++ AgentInfo.id agentInfo ++ " requested news for " ++ ticker) ;;
  let q := mkLimitQuery ticker limit in
  response <- await (reference_tickerNews q) (tickerNews polygon q) ;;
  articles <- results_map (news_results response) article ;;
  let table :=
    JObj [("columns", JArr [column "publisher" "Source" "text" "20%";
                            column "title" "Title" "text" "50%";
                            column "url" "Link" "link" "15%";
                            column "timestamp" "Published" "text" "15%"]);
          ("rows", JArr (map articleRow articles))] in
  ret (mkEnvelope
         ("Found " ++ decimal (Z.of_nat (List.length articles)) ++ " news articles for " ++ ticker)
         (JObj [("articles", JArr (map JObj articles))])
         (mkNode "table" (JSON_stringify table) NoChildren)).

Definition getStockNewsConfig : ToolConfig LimitInput :=
  mkToolConfig "get-stock-news" "Get Stock News"
    "Fetches latest news articles for a ticker symbol"
    0 "USD" getStockNews_handler.

(** A dividend record as the provider hands it out, with the fields that the
    program reads. *)
Definition dividendJs (d : Dividend) : JsVal :=
  JObj [("ex_dividend_date", optStr (ex_dividend_date d));
        ("cash_amount", optNum (cash_amount d));
        ("pay_date", optStr (pay_date d))].

Definition dividendRow (d : Dividend) : Async JsVal :=
  amount <- method "toFixed" (cash_amount d) (toFixed host 2) ;;
  ret (JObj [("date", JStr (toLocaleDateString host (optStr (ex_dividend_date d))));
             ("amount", JStr ("$" ++ amount));
             ("payDate", JStr (toLocaleDateString host (optStr (pay_date d))))]).

(** [async ({ ticker, limit = 10 }, agentInfo) => ...]. *)
Definition getStockDividends_handler (input : LimitInput) (agentInfo : AgentInfo.t)
  : Async Envelope :=
  let ticker := limit_ticker input in
  let limit := nullish (input_limit input) (ofZ 10) in
  console_log ("User / Agent " ++ AgentInfo.id agentInfo ++ " requested dividends for " ++ ticker) ;;
  let q := mkLimitQuery ticker limit in
  response <- await (reference_dividends q) (dividends polygon q) ;;
  rows <- results_map (dividends_results response) dividendRow ;;
  let tableData :=
    JObj [("columns", JArr [column "date" "Ex-Dividend Date" "text" "30%";
                            column "amount" "Amount" "text" "30%";
                            column "payDate" "Pay Date" "text" "40%"]);
          ("rows", JArr rows)] in
  ret (mkEnvelope
         ("Retrieved last " ++ decimal (Z.of_nat (List.length rows))
            ++ " dividend records for " ++ ticker)
         (JArr (map dividendJs (nullish (dividends_results response) [])))
         (mkNode "table" (JSON_stringify tableData) NoChildren)).

Definition getStockDividendsConfig : ToolConfig LimitInput :=
  mkToolConfig "get-stock-dividends" "Get Stock Dividends"
    "Fetches dividend history for a ticker symbol"
    0 "USD" getStockDividends_handler.

(** A split record as the provider hands it out, with the fields that the
    program reads. *)
Definition splitJs (s : Split) : JsVal :=
  JObj [("execution_date", optStr (execution_date s));
        ("split_from", optNum (split_from s));
        ("split_to", optNum (split_to s))].

Definition splitRow (s : Split) : Async JsVal :=
  ret (JObj [("date", JStr (toLocaleDateString host (optStr (execution_date s))));
             ("ratio", JStr (interpolate host (split_to s) ++ ":"
                               ++ interpolate host (split_from s)))]).

(** [async ({ ticker, limit = 5 }, agentInfo) => ...]. *)
Definition getStockSplits_handler (input : LimitInput) (agentInfo : AgentInfo.t)
  : Async Envelope :=
  let ticker := limit_ticker input in
  let limit := nullish (input_limit input) (ofZ 5) in
  console_log ("User / Agent " ++ AgentInfo.id agentInfo ++ " requested splits for " ++ ticker) ;;
  let q := mkLimitQuery ticker limit in
  response <- await (reference_stockSplits q) (stockSplits polygon q) ;;
  rows <- results_map (splits_results response) splitRow ;;
  let tableData :=
    JObj [("columns", JArr [column "date" "Execution Date" "text" "40%";
                            column "ratio" "Split Ratio" "text" "60%"]);
          ("rows", JArr rows)] in
  ret (mkEnvelope
         ("Retrieved last " ++ decimal (Z.of_nat (List.length rows))
            ++ " stock splits for " ++ ticker)
         (JArr (map splitJs (nullish (splits_results response) [])))
         (mkNode "table" (JSON_stringify tableData) NoChildren)).

Definition getStockSplitsConfig : ToolConfig LimitInput :=
  mkToolConfig "get-stock-splits" "Get Stock Splits"
    "Fetches stock split history for a ticker symbol"
    0 "USD" getStockSplits_handler.

(** [const change = data.c ? data.c - data.o : 0]. *)
Definition indexChange (data : Bar) : number :=
  if truthy (c data) then num_sub (toNumber (c data)) (toNumber (o data)) else ofZ 0.

(** The divisor [(data.o ?? 1)]. *)
Definition indexDenominator (data : Bar) : number := nullish (o data) (ofZ 1).

(** [const changePercent = ((change) / (data.o ?? 1) * 100).toFixed(2)]. *)
Definition indexChangePercent (data : Bar) : string :=
  toFixed host 2 (num_mul (num_div (indexChange data) (indexDenominator data)) (ofZ 100)).

(** What the callback of [indices.map] returns once the previous close has
    arrived. *)
Definition quote (name : string) (prevClose : Aggs) : Result.t :=
  match first (results prevClose) with
  | None => Result.mk name "N/A" "0.00" "0.00" true
  | Some data =>
      let change := indexChange data in
      let changePercent := indexChangePercent data in
      Result.mk name
        (nullish (option_map (toFixed host 2) (c data)) "N/A")
        (toFixed host 2 change)
        changePercent
        (num_ge change (ofZ 0))
  end.

(** The body of [indices.map(async ({ ticker, name }) => ...)]. *)
Definition indexResult (index : string * string) : Async Result.t :=
  let '(ticker, name) := index in
  prevClose <- await (stocks_previousClose ticker) (previousClose polygon ticker) ;;
  ret (quote name prevClose).

Definition overviewRow (result : Result.t) : JsVal :=
  let sign := if Result.isPositive result then "+" else "" in
  let color := if Result.isPositive result then "#22C55E" else "#EF4444" in
  JObj [("name", JStr (Result.name result));
        ("price", JStr (if String.eqb (Result.price result) "N/A" then "N/A"
                        else "$" ++ toLocaleString2 host (Number_of (Result.price result))));
        ("change", JStr (sign ++ "$" ++ toLocaleString2 host (Number_of (Result.change result))));
        ("changePercent",
          JStr (sign ++ toLocaleString2 host (Number_of (Result.changePercent result)) ++ "%"));
        ("style", JObj [("change", JObj [("color", JStr color)]);
                        ("changePercent", JObj [("color", JStr color)])])].

Definition overviewTable (results : list Result.t) : JsVal :=
  JObj [("columns", JArr [column "name" "Index" "text" "30%";
                          column "price" "Price" "text" "25%";
                          column "change" "Change" "text" "25%";
                          column "changePercent" "%" "text" "20%"]);
        ("rows", JArr (map overviewRow results))].

(** [Number(Number(bar.c).toFixed(2))]. *)
Definition roundedClose (bar : Bar) : number :=
  Number_of (toFixed host 2 (toNumber (c bar))).

Definition overviewPoint (bar : Bar) : JsVal :=
  JObj [("time", JStr (toLocaleDateShort host (optNum (t bar))));
        ("price", JNum (roundedClose bar));
        ("label", JStr ("$" ++ toLocaleString host (roundedClose bar)))].

(** [(aggs.results ?? []).map(...).filter(point => point.price)]. *)
Definition overviewSeries (aggs : Aggs) : list JsVal :=
  map overviewPoint (filter (fun bar => num_truthy (roundedClose bar)) (nullish (results aggs) [])).

(** The [format] function of the y axis is a property that [JSON.stringify]
    leaves out, as it does an [undefined] one. *)
Definition overviewChart (aggs : Aggs) : JsVal :=
  JObj [("type", JStr "line");
        ("title", JStr "S&P 500");
        ("description", JStr "30-day price history");
        ("data", JArr (overviewSeries aggs));
        ("config", JObj [("height", JNum (ofZ 200));
                         ("colors", JArr [JStr "#3B82F6"]);
                         ("margin", JObj [("left", JNum (ofZ 8)); ("right", JNum (ofZ 8));
                                          ("top", JNum (ofZ 20)); ("bottom", JNum (ofZ 20))]);
                         ("yAxis", JObj [("minPadding", JNum (parseFloat "0.1"));
                                         ("maxPadding", JNum (parseFloat "0.1"));
                                         ("format", JUndefined)])]);
        ("dataKeys", JObj [("x", JStr "time"); ("y", JStr "price"); ("tooltip", JStr "label")])].

Definition overviewStyle : JsVal :=
  JObj [("style", JObj [("padding", JStr "12px");
                        ("backgroundColor", JStr "#ffffff");
                        ("borderRadius", JStr "8px");
                        ("boxShadow", JStr "0 1px 3px rgba(0,0,0,0.12)")])].

(** What the [catch] block of the widget returns. *)
Definition overviewFailure : Envelope :=
  mkEnvelope "Failed to load market overview" JNull
    (mkNode "p" JUndefined
       (ChildText "Unable to load market data at this time. Please check your Polygon.io API key and permissions.")).

(** The arguments of [client.stocks.aggregates('SPY', 1, 'day', from, to)],
    [from] being 30 days back. *)
Definition historyRequest : AggsRequest :=
  mkAggsRequest "SPY" 1 "day" (isoDateDaysAgo host 30) (isoDateDaysAgo host 0) None.

(** The [try] block of the widget. *)
Definition overviewBody : Async Envelope :=
  results <- Promise_all (settledAt host) (map indexResult indices) ;;
  let tableData := overviewTable results in
  aggs <- await (stocks_aggregates historyRequest) (aggregates polygon historyRequest) ;;
  let chartData := overviewChart aggs in
  let children := [mkNode "table" (JSON_stringify tableData) NoChildren] in
  let children :=
    if (0 <? Z.of_nat (List.length (overviewSeries aggs)))
    then push children (mkNode "chart" (JSON_stringify chartData) NoChildren)
    else children in
  match nth_error results 1 with
  | Some sp500 =>
      ret (mkEnvelope
             ("Market Overview - S&P 500: " ++ Result.changePercent sp500 ++ "%")
             (JArr (map Result.toJs results))
             (mkNode "div" (JSON_stringify overviewStyle) (ChildNodes children)))
  | None => throw (TypeError_undefined "changePercent")
  end.

Definition getMarketOverview_getWidget : Async Envelope :=
  try_catch overviewBody
    (fun error =>
       console_error "Error fetching market overview:" error ;;
       ret overviewFailure).

Definition getMarketOverviewWidget : ServicePinnable :=
  mkServicePinnable "marketOverview" "Market Overview"
    "Shows current status of major market indices"
    "widget" "Markets" "chart-line" getMarketOverview_getWidget.

End Service.
End Index.

(** * [src/unnamed/part_000]: nodes assembled with the UI builders *)

Module Part000.
Import Polygon.

Section Service.
Variable host : Host.
Variable polygon : Provider.

Definition column (key header ty : string) : JsVal :=
  JObj [("key", JStr key); ("header", JStr header); ("type", JStr ty)].

(** [const change = latestData.c - latestData.o]. *)
Definition change (latestData : Bar) : number :=
  num_sub (toNumber (c latestData)) (toNumber (o latestData)).

(** [const changePercent = ((change) / latestData.o * 100).toFixed(2)]. *)
Definition changePercent (latestData : Bar) : string :=
  toFixed host 2 (num_mul (num_div (change latestData) (toNumber (o latestData))) (ofZ 100)).

Definition chartBuilder (ticker : string) (aggs : Aggs) (changePercent : string)
  : Utils.ChartUIBuilder :=
  Utils.trend (parseFloat changePercent) (changePercent ++ "% change")
    (Utils.dataKeys (JObj [("x", JStr "time"); ("y", JStr "price"); ("name", JStr "Price")])
       (Utils.chartData
          (map (fun bar =>
                  JObj [("time", JStr (toLocaleDateString host (optNum (t bar))));
                        ("price", optNum (c bar))])
             (rev (nullish (results aggs) [])))
          (Utils.chart_set_description "Price movement over the last 5 trading days"
             (Utils.chart_set_title (ticker ++ " 5-Day Price History")
                (Utils.chart_set_type "line" Utils.new_ChartUIBuilder))))).

Definition metricRow (metric value : string) : JsVal :=
  JObj [("metric", JStr metric); ("value", JStr value)].

Definition tableBuilder (volume open high low vwap : string) : Utils.TableUIBuilder :=
  Utils.rows [metricRow "Volume" volume;
              metricRow "Open" ("$" ++ open);
              metricRow "High" ("$" ++ high);
              metricRow "Low" ("$" ++ low);
              metricRow "VWAP" ("$" ++ vwap)]
    (Utils.addColumns [column "metric" "Metric" "text"; column "value" "Value" "text"]
       Utils.new_TableUIBuilder).

(** The arguments of [client.stocks.aggregates(ticker, 1, 'day', from, to,
    { sort: 'desc', limit: 10 })]. *)
Definition priceRequest (ticker : string) : AggsRequest :=
  mkAggsRequest ticker 1 "day" (isoDateDaysAgo host 7) (isoDateDaysAgo host 0)
    (Some (mkAggsQuery "desc" 10)).

Definition getStockPrice_handler (input : TickerInput) (agentInfo : AgentInfo.t)
  : Async Envelope :=
  let ticker := input_ticker input in
  console_log ("User / Agent " ++ AgentInfo.id agentInfo ++ " requested price for " ++ ticker) ;;
  let to := isoDateDaysAgo host 0 in
  let from := isoDateDaysAgo host 7 in
  console_log ("Fetching daily data from " ++ from ++ " to " ++ to ++ " for " ++ ticker) ;;
  aggs <- await (stocks_aggregates (priceRequest ticker))
            (aggregates polygon (priceRequest ticker)) ;;
  match first (results aggs) with
  | None => throw (mkError "Error" ("No data available for " ++ ticker))
  | Some latestData =>
      let changePercent := changePercent latestData in
      let chartBuilder := chartBuilder ticker aggs changePercent in
      volume <- method "toLocaleString" (v latestData) (toLocaleString host) ;;
      open <- method "toFixed" (o latestData) (toFixed host 2) ;;
      high <- method "toFixed" (h latestData) (toFixed host 2) ;;
      low <- method "toFixed" (l latestData) (toFixed host 2) ;;
      vwap <- method "toFixed" (vw latestData) (toFixed host 2) ;;
      let tableBuilder := tableBuilder volume open high low vwap in
      close <- method "toFixed" (c latestData) (toFixed host 2) ;;
      let summary :=
        ticker ++ " is trading at $" ++ close ++ ". Today's change: " ++ changePercent ++ "%" in
      chart <- Utils.build_chart chartBuilder ;;
      table <- Utils.build_table tableBuilder ;;
      let cardBuilder :=
        Utils.addChild table
          (Utils.addChild chart
             (Utils.content summary
                (Utils.title (ticker ++ " Stock Price and Stats") Utils.new_CardUIBuilder))) in
      ret (mkEnvelope summary
             (JObj [("price", optNum (c latestData));
                    ("high", optNum (h latestData));
                    ("low", optNum (l latestData));
                    ("volume", optNum (v latestData));
                    ("change", JNum (change latestData));
                    ("changePercent", JNum (parseFloat changePercent))])
             (Utils.build_card cardBuilder))
  end.

Definition getStockPriceConfig : ToolConfig TickerInput :=
  mkToolConfig "get-stock-price" "Get Stock Price"
    "Fetches current stock price, daily stats, and 24h price history for a ticker symbol"
    0 "USD" getStockPrice_handler.

(** [const change = data.c ? data.c - data.o : 0]. *)
Definition indexChange (data : Bar) : number :=
  if truthy (c data) then num_sub (toNumber (c data)) (toNumber (o data)) else ofZ 0.

(** The divisor [(data.o ?? 1)]. *)
Definition indexDenominator (data : Bar) : number := nullish (o data) (ofZ 1).

(** [const changePercent = ((change) / (data.o ?? 1) * 100).toFixed(2)]. *)
Definition indexChangePercent (data : Bar) : string :=
  toFixed host 2 (num_mul (num_div (indexChange data) (indexDenominator data)) (ofZ 100)).

(** What the callback of [indices.map] returns once the previous close has
    arrived. *)
Definition quote (name : string) (prevClose : Aggs) : Result.t :=
  match first (results prevClose) with
  | None => Result.mk name "N/A" "0.00" "0.00" true
  | Some data =>
      let change := indexChange data in
      let changePercent := indexChangePercent data in
      Result.mk name
        (nullish (option_map (toFixed host 2) (c data)) "N/A")
        (toFixed host 2 change)
        changePercent
        (num_ge change (ofZ 0))
  end.

(** The body of [indices.map(async ({ ticker, name }) => ...)]. *)
Definition indexResult (index : string * string) : Async Result.t :=
  let '(ticker, name) := index in
  prevClose <- await (stocks_previousClose ticker) (previousClose polygon ticker) ;;
  ret (quote name prevClose).

Definition overviewRow (result : Result.t) : JsVal :=
  let sign := if Result.isPositive result then "+" else "" in
  JObj [("name", JStr (Result.name result));
        ("price", JStr (if String.eqb (Result.price result) "N/A" then "N/A"
                        else "$" ++ toLocaleString2 host (Number_of (Result.price result))));
        ("change", JStr (sign ++ "$" ++ toLocaleString2 host (Number_of (Result.change result))));
        ("changePercent",
          JStr (sign ++ toLocaleString2 host (Number_of (Result.changePercent result)) ++ "%"))].

Definition overviewTableBuilder (results : list Result.t) : Utils.TableUIBuilder :=
  Utils.rows (map overviewRow results)
    (Utils.addColumns [column "name" "Index" "text";
                       column "price" "Price" "text";
                       column "change" "Change" "text";
                       column "changePercent" "%" "text"]
       Utils.new_TableUIBuilder).

Definition overviewChartBuilder (results : list Result.t) : Utils.ChartUIBuilder :=
  Utils.dataKeys (JObj [("x", JStr "time"); ("y", JStr "price"); ("name", JStr "S&P 500 Price")])
    (Utils.chartData
       (map (fun result =>
               JObj [("time", JStr (Result.name result));
                     ("price", JNum (Number_of (Result.price result)))])
          (filter (fun result => negb (String.eqb (Result.price result) "N/A")) results))
       (Utils.chart_set_description "30-day price history"
          (Utils.chart_set_title "S&P 500"
             (Utils.chart_set_type "line" Utils.new_ChartUIBuilder)))).

(** What the [catch] block of the widget returns. *)
Definition overviewFailure : Envelope :=
  mkEnvelope "Failed to load market overview" JNull
    (Utils.build_alert
       (Utils.withMessage
          "Unable to load market data at this time. Please check your Polygon.io API key and permissions."
          (Utils.withVariant Utils.error Utils.new_AlertUIBuilder))).

(** The [try] block of the widget. *)
Definition overviewBody : Async Envelope :=
  results <- Promise_all (settledAt host) (map indexResult indices) ;;
  let tableBuilder := overviewTableBuilder results in
  let chartBuilder := overviewChartBuilder results in
  table <- Utils.build_table tableBuilder ;;
  chart <- Utils.build_chart chartBuilder ;;
  let cardBuilder := Utils.addChild chart (Utils.addChild table Utils.new_CardUIBuilder) in
  match nth_error results 1 with
  | Some sp500 =>
      ret (mkEnvelope
             ("Market Overview - S&P 500: " ++ Result.changePercent sp500 ++ "%")
             (JArr (map Result.toJs results))
             (Utils.build_card cardBuilder))
  | None => throw (TypeError_undefined "changePercent")
  end.

Definition getMarketOverview_getWidget : Async Envelope :=
  try_catch overviewBody
    (fun error =>
       console_error "Error fetching market overview:" error ;;
       ret overviewFailure).

Definition getMarketOverviewWidget : ServicePinnable :=
  mkServicePinnable "marketOverview" "Market Overview"
    "Shows current status of major market indices"
    "widget" "Markets" "chart-line" getMarketOverview_getWidget.

End Service.
End Part000.

(** * [src/unnamed/part_001]: the price read from the previous close *)

Module Part001.
Import Polygon.

Section Service.
Variable host : Host.
Variable polygon : Provider.

Definition column (key header ty width : string) : JsVal :=
  JObj [("key", JStr key); ("header", JStr header); ("type", JStr ty); ("width", JStr width)].

(** [const change = prevCloseData.c ? prevCloseData.c - prevCloseData.o : 0]. *)
Definition change (prevCloseData : Bar) : number :=
  if truthy (c prevCloseData)
  then num_sub (toNumber (c prevCloseData)) (toNumber (o prevCloseData))
  else ofZ 0.

(** The divisor [(prevCloseData.o ?? 1)]. *)
Definition denominator (prevCloseData : Bar) : number := nullish (o prevCloseData) (ofZ 1).

(** [const changePercent = ((change) / (prevCloseData.o ?? 1) * 100).toFixed(2)]. *)
Definition changePercent (prevCloseData : Bar) : string :=
  toFixed host 2
    (num_mul (num_div (change prevCloseData) (denominator prevCloseData)) (ofZ 100)).

Definition chartData (ticker : string) (aggs : Aggs) (changePercent : string) : JsVal :=
  JObj [("type", JStr "line");
        ("title", JStr (ticker ++ " 24 Hour Price History"));
        ("description", JStr "Price movement over the last 24 hours");
        ("data", JArr (map (fun bar =>
                              JObj [("time", JStr (toLocaleTimeString host (optNum (t bar))));
                                    ("price", JNum (nullish (c bar) (ofZ 0)))])
                         (nullish (results aggs) [])));
        ("config", JObj [("height", JNum (ofZ 350));
                         ("colors", JArr [JStr "#3B82F6"]);
                         ("margin", JObj [("left", JNum (ofZ 12)); ("right", JNum (ofZ 12))])]);
        ("dataKeys", JObj [("x", JStr "time"); ("y", JStr "price")]);
        ("trend", JObj [("value", JNum (parseFloat changePercent));
                        ("text", JStr (changePercent ++ "% change"))])].

Definition metricRow (metric value : string) : JsVal :=
  JObj [("metric", JStr metric); ("value", JStr value)].

(** [x?.toFixed(2) ?? 0] inside a template literal. *)
Definition fixedOrZero (x : option number) : string :=
  nullish (option_map (toFixed host 2) x) "0".

(** The table is built, and the node that would carry it is commented out
    of [children]. *)
Definition tableData (prevCloseData : Bar) : JsVal :=
  JObj [("columns", JArr [column "metric" "Metric" "text" "40%";
                          column "value" "Value" "text" "60%"]);
        ("rows", JArr [metricRow "Volume"
                         (toLocaleString host (nullish (v prevCloseData) (ofZ 0)));
                       metricRow "Open" ("$" ++ fixedOrZero (o prevCloseData));
                       metricRow "High" ("$" ++ fixedOrZero (h prevCloseData));
                       metricRow "Low" ("$" ++ fixedOrZero (l prevCloseData));
                       metricRow "VWAP" ("$" ++ fixedOrZero (vw prevCloseData))])].

(** [prevClose.results[0]]. *)
Definition element0 {A : Type} (xs : option (list A)) : Async (option A) :=
  match xs with
  | Some items => ret (first (Some items))
  | None => throw (TypeError_undefined "0")
  end.

(** The arguments of [client.stocks.aggregates(ticker, 30, 'minute', from, to)],
    [to] being now and [from] 24 hours before. *)
Definition priceRequest (ticker : string) : AggsRequest :=
  mkAggsRequest ticker 30 "minute" (isoDateMillisAgo host (24 * 60 * 60 * 1000))
    (isoDateMillisAgo host 0) None.

Definition getStockPrice_handler (input : TickerInput) (agentInfo : AgentInfo.t)
  : Async Envelope :=
  let ticker := input_ticker input in
  console_log ("User / Agent " ++ AgentInfo.id agentInfo ++ " requested price for " ++ ticker) ;;
  prevClose <- await (stocks_previousClose ticker) (previousClose polygon ticker) ;;
  prevCloseData <- element0 (results prevClose) ;;
  aggs <- await (stocks_aggregates (priceRequest ticker))
            (aggregates polygon (priceRequest ticker)) ;;
  match prevCloseData with
  | None => throw (TypeError_undefined "c")
  | Some prevCloseData =>
      let changePercent := changePercent prevCloseData in
      let chartData := chartData ticker aggs changePercent in
      let summary :=
        ticker ++ " is trading at $"
          ++ nullish (option_map (toFixed host 2) (c prevCloseData)) "undefined"
          ++ ". Today's change: " ++ changePercent ++ "%" in
      ret (mkEnvelope summary
             (JObj [("price", JNum (nullish (c prevCloseData) (ofZ 0)));
                    ("high", JNum (nullish (h prevCloseData) (ofZ 0)));
                    ("low", JNum (nullish (l prevCloseData) (ofZ 0)));
                    ("volume", JNum (nullish (v prevCloseData) (ofZ 0)));
                    ("change", JNum (change prevCloseData));
                    ("changePercent", JNum (parseFloat changePercent))])
             (mkNode "div"
                (JSON_stringify
                   (JObj [("title", JStr (ticker ++ " Stock Price and Stats"));
                          ("content", JStr summary)]))
                (ChildNodes [mkNode "chart" (JSON_stringify chartData) NoChildren])))
  end.

Definition getStockPriceConfig : ToolConfig TickerInput :=
  mkToolConfig "get-stock-price" "Get Stock Price"
    "Fetches current stock price, daily stats, and 24h price history for a ticker symbol"
    0 "USD" getStockPrice_handler.

End Service.
End Part001.

(** * Sample hosts, providers and bars *)

Module Sample.
Import Polygon.

(** A host with a fixed clock that prints every date the same way. *)
Definition fixedHost : Host :=
  mkHost (fun _ => "1e+21") (fun _ => "1e+21") (fun _ => "1e+21")
    (fun _ => "1/2/2026") (fun _ => "Jan 2") (fun _ => "9:30:00 AM")
    (fun _ => "2026-01-02") (fun _ => "2026-01-02") (fun _ => 0%nat).

(** The same host, printing a number without digit grouping. *)
Definition plainHost : Host :=
  mkHost (Number_toString fixedHost) (toFixed fixedHost 0) (toFixed fixedHost 2)
    (toLocaleDateString fixedHost) (toLocaleDateShort fixedHost)
    (toLocaleTimeString fixedHost) (isoDateDaysAgo fixedHost) (isoDateMillisAgo fixedHost)
    (settledAt fixedHost).

Definition num (s : string) : option number := Some (parseFloat s).

(** The bar [{ o: 150, c: 157.5, h: 158, l: 149, v: 1000000 }]. *)
Definition bar_AAPL : Bar :=
  mkBar (num "150") (num "157.5") (num "158") (num "149") (num "1000000") None None.

(** The same bar with a volume weighted price and a time stamp. *)
Definition bar_AAPL_full : Bar :=
  mkBar (num "150") (num "157.5") (num "158") (num "149") (num "1000000")
    (num "155.2") (num "1767312000000").

(** Open 100 and close 105; open 100 and close 95. *)
Definition bar_up : Bar :=
  mkBar (num "100") (num "105") (num "106") (num "99") (num "5000") (num "103") (num "0").
Definition bar_down : Bar :=
  mkBar (num "100") (num "95") (num "101") (num "94") (num "5000") (num "97") (num "0").

(** A bar that opens at zero. *)
Definition bar_zero_open : Bar :=
  mkBar (num "0") (num "5") (num "6") (num "0") (num "5000") (num "3") (num "0").


(** A bar with neither an open nor a close price. *)
Definition bar_empty : Bar := mkBar None None None None None None None.

(** A bar that closes where it opened. *)
Definition bar_flat : Bar :=
  mkBar (num "100") (num "100") (num "101") (num "99") (num "5000") (num "100") (num "0").

(** A provider that answers every price request with the bars [bars], and
    every other request with no record. *)
Definition serving (bars : list Bar) : Provider :=
  mkProvider (fun _ => Resolves (mkAggs (Some bars)))
    (fun _ => Resolves (mkAggs (Some bars)))
    (fun _ => Resolves (mkNews (Some [])))
    (fun _ => Resolves (mkDividends (Some [])))
    (fun _ => Resolves (mkSplits (Some []))).

(** A provider whose every call is rejected. *)
Definition unreachable : Provider :=
  let fault := mkError "Error" "Unknown API Key" in
  mkProvider (fun _ => Rejects fault) (fun _ => Rejects fault) (fun _ => Rejects fault)
    (fun _ => Rejects fault) (fun _ => Rejects fault).

(** A previous close for every index but the NASDAQ one. *)
Definition answerWithoutQQQ (ticker : string) : Aggs :=
  mkAggs (Some (if String.eqb ticker "QQQ" then [] else [bar_up])).

(** A provider with those previous closes. *)
Definition withoutQQQ : Provider :=
  mkProvider (fun _ => Resolves (mkAggs (Some [bar_AAPL_full])))
    (fun ticker => Resolves (answerWithoutQQQ ticker))
    (fun _ => Resolves (mkNews (Some [])))
    (fun _ => Resolves (mkDividends (Some [])))
    (fun _ => Resolves (mkSplits (Some []))).


Definition agent : AgentInfo.t := AgentInfo.mk "agent-1".

Definition AAPL : TickerInput := mkTickerInput "AAPL".

End Sample.

(** * [src/stonks/src/index.ts]: the chart and the details tools

    The two handlers below call the provider with arguments that the requests
    above do not cover (a multiplier that is any number, the reference
    details of a ticker).  They take the way the promise of their one call
    settles as an argument, and that call is not among their events. *)

Module IndexTools.
Import Polygon.

(** [z.enum(["minute", "hour", "day", "week", "month", "quarter", "year"])]. *)
Inductive Timespan : Type := minute | hour | day | week | month | quarter | year.

Definition timespanName (x : Timespan) : string :=
  match x with
  | minute => "minute"
  | hour => "hour"
  | day => "day"
  | week => "week"
  | month => "month"
  | quarter => "quarter"
  | year => "year"
  end.

Record ChartInput : Type := mkChartInput {
  chart_ticker : string;
  chart_multiplier : number;
  chart_timespan : Timespan;
  chart_from : string;
  chart_to : string
}.

(** The reference details of a ticker, with the fields that the program
    reads; every field may be missing. *)
Record Details : Type := mkDetails {
  name : option string;
  description : option string;
  market_cap : option number;
  primary_exchange : option string;
  sic_description : option string;
  homepage_url : option string
}.

Record TickerDetails : Type := mkTickerDetails { details_results : option Details }.

(** [await promise], for a promise that is already on its way. *)
Definition settle {A : Type} (answer : Outcome A) : Async A :=
  ([], match answer with
       | Resolves body => Returns body
       | Rejects reason => Throws reason
       end).

(** A string, or [undefined], inside a template literal. *)
Definition interpolateStr (x : option string) : string :=
  match x with
  | Some s => s
  | None => "undefined"
  end.

Section Service.
Variable host : Host.

(** A bar as the provider hands it out. *)
Definition barJs (bar : Bar) : JsVal :=
  JObj [("o", optNum (o bar)); ("c", optNum (c bar)); ("h", optNum (h bar));
        ("l", optNum (l bar)); ("v", optNum (v bar)); ("vw", optNum (vw bar));
        ("t", optNum (t bar))].

Definition chartPoint (result : Bar) : JsVal :=
  JObj [("date", JStr (toLocaleDateString host (optNum (t result))));
        ("price", optNum (c result))].

Definition chartData (input : ChartInput) (points : list JsVal) : JsVal :=
  JObj [("type", JStr "line");
        ("title", JStr (chart_ticker input ++ " Price History"));
        ("description", JStr ("From " ++ chart_from input ++ " to " ++ chart_to input));
        ("data", JArr points);
        ("config", JObj [("height", JNum (ofZ 350));
                         ("colors", JArr [JStr "#3B82F6"]);
                         ("margin", JObj [("left", JNum (ofZ 12)); ("right", JNum (ofZ 12))])]);
        ("dataKeys", JObj [("x", JStr "date"); ("y", JStr "price")]);
        ("footer", JStr (timespanName (chart_timespan input) ++ "ly price data with multiplier "
                           ++ Number_toString host (chart_multiplier input)))].

(** The handler of [getStockChartConfig]; [settled] is how the promise of
    [client.stocks.aggregates(ticker, multiplier, timespan, from, to)]
    settles. *)
Definition getStockChart_handler (settled : Outcome Aggs) (input : ChartInput)
    (agentInfo : AgentInfo.t) : Async Envelope :=
  let ticker := chart_ticker input in
  console_log ("User / Agent " ++ AgentInfo.id agentInfo ++ " requested chart for " ++ ticker) ;;
  response <- settle settled ;;
  points <- results_map (results response) (fun result => ret (chartPoint result)) ;;
  let chartData := chartData input points in
  ret (mkEnvelope
         ("Retrieved historical data for " ++ ticker ++ " from " ++ chart_from input
            ++ " to " ++ chart_to input)
         (JObj [("results", JArr (map barJs (nullish (results response) [])))])
         (mkNode "chart" (JSON_stringify chartData) NoChildren)).

Definition getStockChartConfig (settled : Outcome Aggs) : ToolConfig ChartInput :=
  mkToolConfig "get-stock-chart" "View Stock Chart"
    "View historical price chart for a ticker symbol"
    0 "USD" (getStockChart_handler settled).

(** The details as the provider hands them out. *)
Definition detailsJs (details : Details) : JsVal :=
  JObj [("name", optStr (name details));
        ("description", optStr (description details));
        ("market_cap", optNum (market_cap details));
        ("primary_exchange", optStr (primary_exchange details));
        ("sic_description", optStr (sic_description details));
        ("homepage_url", optStr (homepage_url details))].

Definition fieldRow (field : string) (value : option string) : JsVal :=
  JObj [("field", JStr field); ("value", optStr value)].

Definition detailsTable (details : Details) : JsVal :=
  JObj [("columns", JArr [Index.column "field" "Field" "text" "40%";
                          Index.column "value" "Value" "text" "60%"]);
        ("rows", JArr [fieldRow "Name" (name details);
                       fieldRow "Description" (description details);
                       fieldRow "Market Cap"
                         (option_map (toLocaleString host) (market_cap details));
                       fieldRow "Exchange" (primary_exchange details);
                       fieldRow "Industry" (sic_description details);
                       fieldRow "Homepage" (homepage_url details)])].

(** The handler of [getStockTickerDetailsConfig]; [settled] is how the
    promise of [client.reference.tickerDetails(ticker)] settles. *)
Definition getStockTickerDetails_handler (settled : Outcome TickerDetails)
    (input : TickerInput) (agentInfo : AgentInfo.t) : Async Envelope :=
  let ticker := input_ticker input in
  console_log ("User / Agent " ++ AgentInfo.id agentInfo ++ " requested details for " ++ ticker) ;;
  response <- settle settled ;;
  match details_results response with
  | None => throw (TypeError_undefined "name")
  | Some details =>
      let tableData := detailsTable details in
      ret (mkEnvelope
             (ticker ++ " (" ++ interpolateStr (name details) ++ ") is listed on "
                ++ interpolateStr (primary_exchange details))
             (detailsJs details)
             (mkNode "table" (JSON_stringify tableData) NoChildren))
  end.

Definition getStockTickerDetailsConfig (settled : Outcome TickerDetails)
  : ToolConfig TickerInput :=
  mkToolConfig "get-stock-details" "Get Stock Details"
    "Fetches detailed information about a stock ticker including name, market cap, exchange"
    0 "USD" (getStockTickerDetails_handler settled).

End Service.
End IndexTools.

(** * More sample data *)

Module Sample2.
Import Polygon.

(** A bar that has a close price and nothing else. *)
Definition bar_close_only : Bar :=
  mkBar None (Sample.num "5") None None None None None.

(** Three bars as the provider sorts them, the latest first. *)
Definition threeBars : list Bar := [Sample.bar_AAPL_full; Sample.bar_up; Sample.bar_down].

(** An article with a publisher, and one without. *)
Definition article1 : NewsItem :=
  mkNewsItem (Some "Apple rises") (Some (mkPublisher (Some "The Wire")))
    (Some "2026-01-02T10:00:00Z") (Some "https://example.com/a").
Definition article_no_publisher : NewsItem :=
  mkNewsItem (Some "Apple falls") None (Some "2026-01-02T11:00:00Z") None.

(** A provider that has the articles [items] for every ticker. *)
Definition withNews (items : option (list NewsItem)) : Provider :=
  mkProvider (aggregates Sample.unreachable) (previousClose Sample.unreachable)
    (fun _ => Resolves (mkNews items))
    (dividends Sample.unreachable) (stockSplits Sample.unreachable).

(** A dividend with an amount, and one without. *)
Definition dividend1 : Dividend :=
  mkDividend (Some "2026-01-02") (Sample.num "0.25") (Some "2026-01-09").
Definition dividend_no_amount : Dividend :=
  mkDividend (Some "2026-01-02") None None.

Definition withDividends (records : option (list Dividend)) : Provider :=
  mkProvider (aggregates Sample.unreachable) (previousClose Sample.unreachable)
    (tickerNews Sample.unreachable)
    (fun _ => Resolves (mkDividends records))
    (stockSplits Sample.unreachable).

(** A split of four for one, and one with no ratio. *)
Definition split1 : Split := mkSplit (Some "2020-08-31") (Sample.num "1") (Sample.num "4").
Definition split_empty : Split := mkSplit None None None.

Definition withSplits (records : option (list Split)) : Provider :=
  mkProvider (aggregates Sample.unreachable) (previousClose Sample.unreachable)
    (tickerNews Sample.unreachable) (dividends Sample.unreachable)
    (fun _ => Resolves (mkSplits records)).

(** A provider that rejects the previous close of the NASDAQ index only. *)
Definition rejectingQQQ : Provider :=
  mkProvider (aggregates Sample.withoutQQQ)
    (fun ticker =>
       if String.eqb ticker "QQQ" then Rejects (mkError "Error" "timeout")
       else Resolves (mkAggs (Some [Sample.bar_up])))
    (tickerNews Sample.withoutQQQ) (dividends Sample.withoutQQQ)
    (stockSplits Sample.withoutQQQ).

(** A host that prints a whole number below 1e21 as its digits. *)
Definition wholeHost : Host :=
  mkHost (toFixed Sample.fixedHost 0) (toFixed Sample.fixedHost 0) (toFixed Sample.fixedHost 2)
    (toLocaleDateString Sample.fixedHost) (toLocaleDateShort Sample.fixedHost)
    (toLocaleTimeString Sample.fixedHost) (isoDateDaysAgo Sample.fixedHost)
    (isoDateMillisAgo Sample.fixedHost) (settledAt Sample.fixedHost).

Definition news_AAPL : LimitInput := mkLimitInput "AAPL" None.

Definition chart_AAPL : IndexTools.ChartInput :=
  IndexTools.mkChartInput "AAPL" (ofZ 1) IndexTools.day "2026-01-01" "2026-01-31".

(** Details with a name and an exchange only. *)
Definition details_AAPL : IndexTools.Details :=
  IndexTools.mkDetails (Some "Apple Inc.") None None (Some "XNAS") None None.

End Sample2.

(** * Properties *)

(** ** How computations complete *)

Lemma bind_Returns {A B : Type} (m : Async A) (k : A -> Async B) ev b :
  bind m k = (ev, Returns b) ->
  exists ev1 a ev2,
    m = (ev1, Returns a) /\ k a = (ev2, Returns b) /\ ev = (ev1 ++ ev2)%list.
Proof.
  destruct m as [ev1 [a | e]]; simpl; intros H.
  - destruct (k a) as [ev2 r] eqn:Hk. inversion H; subst.
    exists ev1, a, ev2. auto.
  - discriminate.
Qed.

Lemma method_Returns {A : Type} name x (f : number -> A) ev r :
  method name x f = (ev, Returns r) -> exists n, x = Some n /\ r = f n /\ ev = [].
Proof.
  destruct x as [n |]; simpl; intros H; inversion H; subst.
  exists n. auto.
Qed.

Lemma await_Returns {A : Type} r (answer : Polygon.Outcome A) ev a :
  await r answer = (ev, Returns a) -> answer = Polygon.Resolves a /\ ev = [Called r].
Proof.
  destruct answer; simpl; intros H; inversion H; subst; auto.
Qed.

Lemma ret_Returns {A : Type} (a b : A) ev :
  ret a = (ev, Returns b) -> a = b /\ ev = [].
Proof.
  unfold ret. intros H. inversion H. split; reflexivity.
Qed.

Lemma try_catch_Returns {A : Type} (body : Async A) handler ev a :
  body = (ev, Returns a) -> try_catch body handler = (ev, Returns a).
Proof.
  intros ->. reflexivity.
Qed.

Lemma try_catch_Throws {A : Type} (body : Async A) handler ev e :
  body = (ev, Throws e) ->
  try_catch body handler = ((ev ++ fst (handler e))%list, snd (handler e)).
Proof.
  intros ->. simpl. destruct (handler e); reflexivity.
Qed.

(** Splits a run that returned into the runs of its steps. *)
Ltac run_returns H :=
  repeat match type of H with
  | bind _ _ = (_, Returns _) =>
      let ev1 := fresh "ev" in
      let a := fresh "a" in
      let ev2 := fresh "ev" in
      let H1 := fresh "Hrun" in
      let He := fresh "Hev" in
      apply bind_Returns in H; destruct H as (ev1 & a & ev2 & H1 & H & He);
      first [ apply method_Returns in H1; destruct H1 as (? & ? & ? & ?)
            | apply await_Returns in H1; destruct H1 as (? & ?)
            | idtac ]
  end.

(** Reads the fields of a bar that is given by its constructor. *)
Ltac bar_fields :=
  cbn [Polygon.o Polygon.c Polygon.h Polygon.l Polygon.v Polygon.vw Polygon.t] in *.

(** Runs the steps of a handler whose provider answers are known, leaving
    the numbers as they are. *)
Ltac run_handler :=
  cbn [bind console_log await ret throw method first Polygon.results
       Polygon.o Polygon.c Polygon.h Polygon.l Polygon.v Polygon.vw Polygon.t app
       Part001.element0].

(** The dispatcher hands out an envelope whatever the handler does. *)
Lemma invoke_Throws {I : Type} (tool : ToolConfig I) input context ev e :
  handler tool input context = (ev, Throws e) ->
  SDK.invoke tool input context =
    ((ev ++ [console_error_line (AgentInfo.id context ++ " " ++ tool_id tool) e])%list,
     Returns (SDK.failureEnvelope e)).
Proof.
  intros H. unfold SDK.invoke. rewrite (try_catch_Throws _ _ _ _ H). reflexivity.
Qed.

Lemma invoke_Returns {I : Type} (tool : ToolConfig I) input context ev env :
  handler tool input context = (ev, Returns env) ->
  SDK.invoke tool input context = (ev, Returns env).
Proof.
  intros H. unfold SDK.invoke. apply try_catch_Returns. exact H.
Qed.

Lemma describe_nonempty e : SDK.describe e <> "".
Proof.
  unfold SDK.describe. destruct (message e), (error_name e); discriminate.
Qed.

Lemma describe_message e : message e <> "" -> SDK.describe e = message e.
Proof.
  unfold SDK.describe. destruct (message e); [contradiction | reflexivity].
Qed.

Lemma failureEnvelope_shape e :
  text (SDK.failureEnvelope e) = SDK.describe e /\ isErrorEnvelope (SDK.failureEnvelope e).
Proof.
  repeat split.
Qed.

(** ** Strings of digits *)

Lemma length_append (s1 s2 : string) :
  String.length (s1 ++ s2) = (String.length s1 + String.length s2)%nat.
Proof.
  induction s1 as [| a s1 IH]; simpl; [reflexivity | now rewrite IH].
Qed.

Lemma length_zeros k : String.length (zeros k) = k.
Proof.
  induction k as [| k IH]; simpl; [reflexivity | now rewrite IH].
Qed.

Lemma length_substring n m s :
  (n + m <= String.length s)%nat -> String.length (substring n m s) = m.
Proof.
  revert n m. induction s as [| a s IH]; intros n m H; simpl in H.
  - destruct n, m; simpl; try reflexivity; lia.
  - destruct n as [| n]; simpl.
    + destruct m as [| m]; simpl; [reflexivity |].
      rewrite (IH 0%nat m); [reflexivity | simpl; lia].
    + apply IH. lia.
Qed.

Lemma decimal_nonempty n : (1 <= String.length (decimal n))%nat.
Proof.
  unfold decimal, NilZero.string_of_uint.
  destruct (N.to_uint (Z.to_N n)); simpl; lia.
Qed.

(** With at least one fraction digit, what is printed is an integer part, a
    point, and exactly [f] digits. *)
Lemma fixedDigits_shape f n :
  (0 < f)%nat ->
  exists a b, fixedDigits f n = a ++ "." ++ b /\ String.length b = f.
Proof.
  intros Hf. unfold fixedDigits.
  pose proof (decimal_nonempty n) as Hd.
  set (m := if (String.length (decimal n) <=? f)%nat
            then zeros (f + 1 - String.length (decimal n)) ++ decimal n
            else decimal n).
  assert (Hm : (f + 1 <= String.length m)%nat).
  { subst m. destruct (Nat.leb_spec (String.length (decimal n)) f).
    - rewrite length_append, length_zeros. lia.
    - lia. }
  destruct (Nat.eqb_spec f 0) as [-> | _]; [lia |].
  eexists _, _. split; [reflexivity |].
  apply length_substring. lia.
Qed.

(** The integer that [toFixed] prints is the nearest one to the scaled
    value. *)
Lemma scaledRound_nearest f m e :
  (Qabs (exact (S754_finite false m e) * inject_Z (pow10 f) - inject_Z (scaledRound f m e))
   <= 1 # 2)%Q.
Proof.
  apply Qabs_Qle_condition.
  destruct e as [| p | p]; unfold exact, scaledRound.
  - unfold Qle, Qminus, Qplus, Qmult, Qopp, inject_Z; cbn [Qnum Qden]. split; lia.
  - unfold Qle, Qminus, Qplus, Qmult, Qopp, inject_Z; cbn [Qnum Qden]. split; lia.
  - assert (HD : 0 < 2 ^ Z.pos p) by (apply Z.pow_pos_nonneg; lia).
    replace (2 ^ (Z.pos p + 1)) with (2 * 2 ^ Z.pos p) by (rewrite Z.pow_add_r; lia).
    set (D := 2 ^ Z.pos p) in *.
    set (N := 2 * Z.pos m * pow10 f + D).
    pose proof (Z.mul_div_le N (2 * D) ltac:(lia)) as Hlo.
    pose proof (Z.mul_succ_div_gt N (2 * D) ltac:(lia)) as Hhi.
    set (n := N / (2 * D)) in *.
    unfold Qle, Qminus, Qplus, Qmult, Qopp, inject_Z; cbn [Qnum Qden].
    rewrite !Pos.mul_1_r, !Z.mul_1_r, Pos2Z.inj_pow. fold D.
    subst N. split; nia.
Qed.

(** [toFixed(2)] on a finite number below [10^21]: the sign, then the nearest
    number of hundredths, written with two decimals. *)
Lemma toFixed_two_decimals host s m e :
  atLeast1e21 m e = false ->
  exists n a b,
    toFixed host 2 (S754_finite s m e) = (if s then "-" else "") ++ a ++ "." ++ b /\
    String.length b = 2%nat /\
    fixedDigits 2 n = a ++ "." ++ b /\
    (Qabs (exact (S754_finite false m e) * 100 - inject_Z n) <= 1 # 2)%Q.
Proof.
  intros Hsmall.
  destruct (fixedDigits_shape 2 (scaledRound 2 m e)) as (a & b & Hab & Hb); [lia |].
  exists (scaledRound 2 m e), a, b.
  unfold toFixed. rewrite Hsmall, Hab.
  repeat split; try assumption.
  exact (scaledRound_nearest 2 m e).
Qed.

Lemma magnitude_finite s m e :
  Qabs (exact (S754_finite s m e)) = exact (S754_finite false m e).
Proof.
  assert (Hpow : forall k, 0 <= k -> Z.abs (2 ^ k) = 2 ^ k).
  { intros k Hk. apply Z.abs_eq. apply Z.pow_nonneg. lia. }
  destruct s, e as [| p | p]; cbn [exact]; try reflexivity;
    unfold Qabs, inject_Z; rewrite Z.abs_mul, Hpow by lia; reflexivity.
Qed.

(** [toFixed(2)] on a number that is finite and below [10^21], zero included:
    a minus sign when the number is negative, then the nearest number of
    hundredths to its magnitude, written with two decimals. *)
Lemma toFixed_fixedRange host x :
  fixedRange x = true ->
  exists n a b,
    toFixed host 2 x = (if num_negative x then "-" else "") ++ a ++ "." ++ b /\
    String.length b = 2%nat /\
    fixedDigits 2 n = a ++ "." ++ b /\
    (Qabs (Qabs (exact x) * 100 - inject_Z n) <= 1 # 2)%Q.
Proof.
  destruct x as [z | z | | s m e]; cbn [fixedRange]; try discriminate.
  - intros _. exists 0, "0", "00". repeat split. discriminate.
  - intros Hsmall. apply negb_true_iff in Hsmall.
    destruct (toFixed_two_decimals host s m e Hsmall) as (n & a & b & H1 & H2 & H3 & H4).
    exists n, a, b. rewrite magnitude_finite. repeat split; assumption.
Qed.

(** What [JSON.stringify] writes for a number: an equal number when it is
    finite, [null] otherwise. *)
Lemma JSON_stringify_finite x :
  isFinite x = true ->
  exists y, JSON_stringify (JNum x) = JNum y /\ num_eq x y = true.
Proof.
  destruct x as [z | z | | s m e]; cbn [isFinite]; try discriminate; intros _.
  - exists (S754_zero false). split; [reflexivity |]. destruct z; reflexivity.
  - exists (S754_finite s m e). split; [reflexivity |].
    unfold num_eq, SFeqb, SFcompare.
    destruct s; rewrite Z.compare_refl, Pos.compare_cont_refl; reflexivity.
Qed.

Lemma JSON_stringify_not_finite x :
  isFinite x = false -> JSON_stringify (JNum x) = JNull.
Proof.
  destruct x; cbn [isFinite]; try discriminate; reflexivity.
Qed.

(** ** The price tool *)

(** What a run of the price handler of [index.ts] that returns has gone
    through, and the envelope it returns. *)
Lemma Index_price_returns host polygon input agent ev env :
  Index.getStockPrice_handler host polygon input agent = (ev, Returns env) ->
  exists aggs latestData open close high low volume vwap,
    Polygon.aggregates polygon (Index.priceRequest host (input_ticker input)) =
      Polygon.Resolves aggs /\
    first (Polygon.results aggs) = Some latestData /\
    latestData = Polygon.mkBar (Some open) (Some close) (Some high) (Some low) (Some volume)
                   (Some vwap) (Polygon.t latestData) /\
    let ticker := input_ticker input in
    let changePercent := Index.changePercent host latestData in
    let summary :=
      ticker ++ " is trading at $" ++ toFixed host 2 close
        ++ ". Today's change: " ++ changePercent ++ "%" in
    text env = summary /\
    data env = JObj [("price", JNum close); ("high", JNum high); ("low", JNum low);
                     ("volume", JNum volume);
                     ("change", JNum (Index.change latestData));
                     ("changePercent", JNum (parseFloat changePercent))] /\
    ui env =
      mkNode "div"
        (JSON_stringify (JObj [("title", JStr (ticker ++ " Stock Price and Stats"));
                               ("content", JStr summary)]))
        (ChildNodes
           [mkNode "chart" (JSON_stringify (Index.chartData host ticker aggs changePercent))
              NoChildren;
            mkNode "table"
              (JSON_stringify
                 (Index.tableData (toLocaleString host volume) (toFixed host 2 open)
                    (toFixed host 2 high) (toFixed host 2 low) (toFixed host 2 vwap)))
              NoChildren]).
Proof.
  unfold Index.getStockPrice_handler. intros H.
  run_returns H.
  destruct (first (Polygon.results _)) as [latestData |] eqn:Hfirst; [| discriminate].
  run_returns H.
  inversion H; subst; clear H.
  destruct latestData as [o c h l v vw t]. bar_fields. subst.
  do 8 eexists.
  split; [eassumption |]. split; [eassumption |]. repeat split.
Qed.

(** The same for the handler of [part_000], whose nodes come out of the
    builders. *)
Lemma Part000_price_returns host polygon input agent ev env :
  Part000.getStockPrice_handler host polygon input agent = (ev, Returns env) ->
  exists aggs latestData open close high low volume vwap chart table,
    Polygon.aggregates polygon (Part000.priceRequest host (input_ticker input)) =
      Polygon.Resolves aggs /\
    first (Polygon.results aggs) = Some latestData /\
    latestData = Polygon.mkBar (Some open) (Some close) (Some high) (Some low) (Some volume)
                   (Some vwap) (Polygon.t latestData) /\
    let ticker := input_ticker input in
    let changePercent := Part000.changePercent host latestData in
    let summary :=
      ticker ++ " is trading at $" ++ toFixed host 2 close
        ++ ". Today's change: " ++ changePercent ++ "%" in
    Utils.build_chart (Part000.chartBuilder host ticker aggs changePercent) =
      ([], Returns chart) /\
    Utils.build_table
      (Part000.tableBuilder (toLocaleString host volume) (toFixed host 2 open)
         (toFixed host 2 high) (toFixed host 2 low) (toFixed host 2 vwap)) =
      ([], Returns table) /\
    text env = summary /\
    data env = JObj [("price", JNum close); ("high", JNum high); ("low", JNum low);
                     ("volume", JNum volume);
                     ("change", JNum (Part000.change latestData));
                     ("changePercent", JNum (parseFloat changePercent))] /\
    ui env =
      Utils.build_card
        (Utils.addChild table
           (Utils.addChild chart
              (Utils.content summary
                 (Utils.title (ticker ++ " Stock Price and Stats") Utils.new_CardUIBuilder)))).
Proof.
  unfold Part000.getStockPrice_handler. intros H.
  run_returns H.
  destruct (first (Polygon.results _)) as [latestData |] eqn:Hfirst; [| discriminate].
  run_returns H.
  inversion H; subst; clear H.
  destruct latestData as [o c h l v vw t]. bar_fields. subst.
  assert (Hchart : forall b n evs, Utils.build_chart b = (evs, Returns n) -> evs = []).
  { intros b n evs. unfold Utils.build_chart.
    destruct (Utils.chart_series b); [| destruct (_ && _)];
      unfold ret, throw; intros E; now inversion E. }
  assert (Htable : forall b n evs, Utils.build_table b = (evs, Returns n) -> evs = []).
  { intros b n evs. unfold Utils.build_table.
    destruct (Utils.table_columns b); unfold ret, throw; intros E; now inversion E. }
  match goal with
  | Hc : Utils.build_chart _ = (?e1, Returns _), Ht : Utils.build_table _ = (?e2, Returns _) |- _ =>
      pose proof (Hchart _ _ _ Hc); pose proof (Htable _ _ _ Ht); subst e1 e2
  end.
  do 10 eexists.
  split; [eassumption |]. split; [eassumption |]. split; [reflexivity |].
  split; [eassumption |]. split; [eassumption |]. repeat split.
Qed.

(** A bar that opens at zero and closes at five: the price handler of
    [index.ts] returns an envelope whose [data.changePercent] is [Infinity]
    and whose text reads [Infinity%], while the chart node carries [null] for
    [trend.value]. *)
Lemma zero_open_percent_values_differ :
  exists ev env,
    Index.getStockPrice_handler Sample.plainHost (Sample.serving [Sample.bar_zero_open])
      Sample.AAPL Sample.agent = (ev, Returns env) /\
    get "changePercent" (data env) = JNum Infinity /\
    get "value" (get "trend" (uiData (child 0 (ui env)))) = JNull /\
    text env = "AAPL is trading at $5.00. Today's change: Infinity%".
Proof.
  eexists _, _. split; [vm_compute; reflexivity |].
  repeat split; vm_compute; reflexivity.
Qed.

(** C10 (amended): in every envelope that the price tool returns
    ([index.ts] and [part_000]), [data.changePercent] and the [trend.value]
    of the chart are the number that one string [s] reads as, and the text
    embeds [s]; [s] is [(close - open) / open * 100] printed by [toFixed(2)].
    When that value is finite and below [10^21], [s] is its rounding to two
    decimals, sign included.  The chart node of [index.ts] holds the chart as
    JSON: its [trend.value] is equal to [data.changePercent] when that number
    is finite, and is [null] when it is not. *)
Theorem price_percent_values_agree host polygon input agent :
  (forall ev env,
     Index.getStockPrice_handler host polygon input agent = (ev, Returns env) ->
     exists aggs latestData open close chart,
       Polygon.aggregates polygon (Index.priceRequest host (input_ticker input)) =
         Polygon.Resolves aggs /\
       first (Polygon.results aggs) = Some latestData /\
       Polygon.o latestData = Some open /\
       Polygon.c latestData = Some close /\
       let pct := num_mul (num_div (num_sub close open) open) (ofZ 100) in
       let s := toFixed host 2 pct in
       let chartData := Index.chartData host (input_ticker input) aggs s in
       get "changePercent" (data env) = JNum (parseFloat s) /\
       get "value" (get "trend" chartData) = JNum (parseFloat s) /\
       text env =
         input_ticker input ++ " is trading at $" ++ toFixed host 2 close
           ++ ". Today's change: " ++ s ++ "%" /\
       nth_error (childNodes (ui env)) 0 = Some chart /\
       chart = mkNode "chart" (JSON_stringify chartData) NoChildren /\
       get "text" (get "trend" (uiData chart)) = JStr (s ++ "% change") /\
       (isFinite (parseFloat s) = true ->
        exists y,
          get "value" (get "trend" (uiData chart)) = JNum y /\
          num_eq (parseFloat s) y = true) /\
       (isFinite (parseFloat s) = false ->
        get "value" (get "trend" (uiData chart)) = JNull) /\
       (fixedRange pct = true ->
        exists n a b,
          s = (if num_negative pct then "-" else "") ++ a ++ "." ++ b /\
          String.length b = 2%nat /\
          fixedDigits 2 n = a ++ "." ++ b /\
          (Qabs (Qabs (exact pct) * 100 - inject_Z n) <= 1 # 2)%Q)) /\
  (forall ev env,
     Part000.getStockPrice_handler host polygon input agent = (ev, Returns env) ->
     exists aggs latestData open close chart,
       Polygon.aggregates polygon (Part000.priceRequest host (input_ticker input)) =
         Polygon.Resolves aggs /\
       first (Polygon.results aggs) = Some latestData /\
       Polygon.o latestData = Some open /\
       Polygon.c latestData = Some close /\
       let pct := num_mul (num_div (num_sub close open) open) (ofZ 100) in
       let s := toFixed host 2 pct in
       get "changePercent" (data env) = JNum (parseFloat s) /\
       nth_error (childNodes (ui env)) 0 = Some chart /\
       type chart = "chart" /\
       get "value" (get "trend" (uiData chart)) = JNum (parseFloat s) /\
       text env =
         input_ticker input ++ " is trading at $" ++ toFixed host 2 close
           ++ ". Today's change: " ++ s ++ "%" /\
       (fixedRange pct = true ->
        exists n a b,
          s = (if num_negative pct then "-" else "") ++ a ++ "." ++ b /\
          String.length b = 2%nat /\
          fixedDigits 2 n = a ++ "." ++ b /\
          (Qabs (Qabs (exact pct) * 100 - inject_Z n) <= 1 # 2)%Q)).
Proof.
  split; intros ev env H.
  - apply Index_price_returns in H.
    destruct H as (aggs & bar & op & cl & hi & lo & vol & vwap & Hcall & Hfirst & Hbar & H).
    cbv zeta in H. destruct H as (Htext & Hdata & Hui).
    exists aggs, bar, op, cl, (mkNode "chart"
                                 (JSON_stringify
                                    (Index.chartData host (input_ticker input) aggs
                                       (Index.changePercent host bar))) NoChildren).
    rewrite Hbar in *. bar_fields. cbv zeta.
    set (pct := num_mul (num_div (num_sub cl op) op) (ofZ 100)).
    change (Index.changePercent host
              (Polygon.mkBar (Some op) (Some cl) (Some hi) (Some lo) (Some vol) (Some vwap)
                 (Polygon.t bar))) with (toFixed host 2 pct) in *.
    split; [exact Hcall |]. split; [exact Hfirst |].
    split; [reflexivity |]. split; [reflexivity |].
    split; [rewrite Hdata; reflexivity |].
    split; [reflexivity |].
    split; [exact Htext |].
    split; [rewrite Hui; reflexivity |].
    split; [reflexivity |].
    split; [reflexivity |].
    assert (Hnode : get "value"
                      (get "trend"
                         (uiData
                            (mkNode "chart"
                               (JSON_stringify
                                  (Index.chartData host (input_ticker input) aggs
                                     (toFixed host 2 pct))) NoChildren))) =
                    JSON_stringify (JNum (parseFloat (toFixed host 2 pct))))
      by reflexivity.
    rewrite Hnode.
    split; [apply JSON_stringify_finite |].
    split; [apply JSON_stringify_not_finite |].
    apply toFixed_fixedRange.
  - apply Part000_price_returns in H.
    destruct H as (aggs & bar & op & cl & hi & lo & vol & vwap & chart & table
                   & Hcall & Hfirst & Hbar & H).
    cbv zeta in H. destruct H as (Hchart & Htable & Htext & Hdata & Hui).
    exists aggs, bar, op, cl, chart.
    rewrite Hbar in *. bar_fields. cbv zeta.
    set (pct := num_mul (num_div (num_sub cl op) op) (ofZ 100)).
    change (Part000.changePercent host
              (Polygon.mkBar (Some op) (Some cl) (Some hi) (Some lo) (Some vol) (Some vwap)
                 (Polygon.t bar))) with (toFixed host 2 pct) in *.
    assert (Hnode : type chart = "chart" /\
                    get "value" (get "trend" (uiData chart)) =
                      JNum (parseFloat (toFixed host 2 pct))).
    { revert Hchart. unfold Utils.build_chart.
      destruct (Utils.chart_series _); [| destruct (_ && _)];
        unfold ret, throw; intros E; inversion E; split; reflexivity. }
    destruct Hnode as (Hkind & Hvalue).
    split; [exact Hcall |]. split; [exact Hfirst |].
    split; [reflexivity |]. split; [reflexivity |].
    split; [rewrite Hdata; reflexivity |].
    split; [rewrite Hui; reflexivity |].
    split; [exact Hkind |]. split; [exact Hvalue |].
    split; [exact Htext |].
    apply toFixed_fixedRange.
Qed.

(** The statement above at the bar of Apple, on both handlers. *)
Lemma price_percent_values_agree_witness :
  (exists ev env,
     Index.getStockPrice_handler Sample.plainHost (Sample.serving [Sample.bar_AAPL_full])
       Sample.AAPL Sample.agent = (ev, Returns env) /\
     get "changePercent" (data env) = JNum (ofZ 5) /\
     get "value" (get "trend" (uiData (child 0 (ui env)))) = JNum (ofZ 5) /\
     text env = "AAPL is trading at $157.50. Today's change: 5.00%") /\
  (exists ev env,
     Part000.getStockPrice_handler Sample.plainHost (Sample.serving [Sample.bar_AAPL_full])
       Sample.AAPL Sample.agent = (ev, Returns env) /\
     get "changePercent" (data env) = JNum (ofZ 5) /\
     text env = "AAPL is trading at $157.50. Today's change: 5.00%").
Proof.
  pose proof (price_percent_values_agree Sample.plainHost
                (Sample.serving [Sample.bar_AAPL_full]) Sample.AAPL Sample.agent) as [H1 H2].
  split.
  - destruct (Index.getStockPrice_handler Sample.plainHost
                (Sample.serving [Sample.bar_AAPL_full]) Sample.AAPL Sample.agent)
      as [ev [env | e]] eqn:Hrun; [| vm_compute in Hrun; discriminate].
    exists ev, env. split; [reflexivity |].
    destruct (H1 ev env eq_refl)
      as (aggs & bar & op & cl & chart & Hcall & Hfirst & Ho & Hc & H).
    vm_compute in Hcall. inversion Hcall; subst aggs.
    vm_compute in Hfirst. inversion Hfirst; subst bar.
    vm_compute in Ho. inversion Ho; subst op.
    vm_compute in Hc. inversion Hc; subst cl.
    cbv zeta in H. destruct H as (Hd & _ & Ht & _).
    split; [rewrite Hd; vm_compute; reflexivity |].
    split; [vm_compute in Hrun; inversion Hrun; vm_compute; reflexivity |].
    rewrite Ht. vm_compute. reflexivity.
  - destruct (Part000.getStockPrice_handler Sample.plainHost
                (Sample.serving [Sample.bar_AAPL_full]) Sample.AAPL Sample.agent)
      as [ev [env | e]] eqn:Hrun; [| vm_compute in Hrun; discriminate].
    exists ev, env. split; [reflexivity |].
    destruct (H2 ev env eq_refl)
      as (aggs & bar & op & cl & chart & Hcall & Hfirst & Ho & Hc & H).
    vm_compute in Hcall. inversion Hcall; subst aggs.
    vm_compute in Hfirst. inversion Hfirst; subst bar.
    vm_compute in Ho. inversion Ho; subst op.
    vm_compute in Hc. inversion Hc; subst cl.
    cbv zeta in H. destruct H as (Hd & _ & _ & _ & Ht & _).
    split; [rewrite Hd | rewrite Ht]; vm_compute; reflexivity.
Defined.

(** A bar that opens at zero and closes at five: its percent change is
    printed [Infinity], in [index.ts] and in [part_000], and the trend of the
    chart reads [Infinity% change]. *)
Lemma zero_open_percent_is_not_rounded :
  Polygon.o Sample.bar_zero_open = Some (ofZ 0) /\
  Polygon.c Sample.bar_zero_open = Some (ofZ 5) /\
  Index.changePercent Sample.plainHost Sample.bar_zero_open = "Infinity" /\
  Part000.changePercent Sample.plainHost Sample.bar_zero_open = "Infinity" /\
  exists ev env,
    Index.getStockPrice_handler Sample.plainHost (Sample.serving [Sample.bar_zero_open])
      Sample.AAPL Sample.agent = (ev, Returns env) /\
    get "text" (get "trend" (uiData (child 0 (ui env)))) = JStr "Infinity% change".
Proof.
  split; [vm_compute; reflexivity |]. split; [vm_compute; reflexivity |].
  split; [vm_compute; reflexivity |]. split; [vm_compute; reflexivity |].
  eexists _, _. split; vm_compute; reflexivity.
Qed.

(** C3 (amended): for every bar with an open and a close price for which
    [(close - open) / open * 100], in the arithmetic of JavaScript numbers,
    is finite and below [10^21] in magnitude, the percent change of the price
    tool ([index.ts] and [part_000]) is that value rounded to two decimals
    with its sign: a minus when it is negative, nothing otherwise, then the
    nearest number of hundredths to its magnitude, written with exactly two
    decimals; the trend text is that string followed by [% change].  Open
    100 and close 105 give [5.00% change]; open 100 and close 95 give
    [-5.00% change]. *)
Theorem percent_change_two_decimals host ticker aggs bar open close :
  Polygon.o bar = Some open ->
  Polygon.c bar = Some close ->
  let pct := num_mul (num_div (num_sub close open) open) (ofZ 100) in
  fixedRange pct = true ->
  (exists n a b,
     Index.changePercent host bar = (if num_negative pct then "-" else "") ++ a ++ "." ++ b /\
     String.length b = 2%nat /\
     fixedDigits 2 n = a ++ "." ++ b /\
     (Qabs (Qabs (exact pct) * 100 - inject_Z n) <= 1 # 2)%Q) /\
  Part000.changePercent host bar = Index.changePercent host bar /\
  get "text" (get "trend" (Index.chartData host ticker aggs (Index.changePercent host bar))) =
    JStr (Index.changePercent host bar ++ "% change") /\
  Utils.chart_trend (Part000.chartBuilder host ticker aggs (Part000.changePercent host bar)) =
    Some (parseFloat (Part000.changePercent host bar),
          Part000.changePercent host bar ++ "% change") /\
  (open = ofZ 100 -> close = ofZ 105 ->
   Index.changePercent host bar ++ "% change" = "5.00% change") /\
  (open = ofZ 100 -> close = ofZ 95 ->
   Index.changePercent host bar ++ "% change" = "-5.00% change").
Proof.
  intros Ho Hc pct Hrange.
  assert (H1 : Index.changePercent host bar = toFixed host 2 pct).
  { unfold Index.changePercent, Index.change. rewrite Ho, Hc. reflexivity. }
  assert (H2 : Part000.changePercent host bar = toFixed host 2 pct).
  { unfold Part000.changePercent, Part000.change. rewrite Ho, Hc. reflexivity. }
  split; [rewrite H1; apply toFixed_fixedRange; exact Hrange |].
  split; [rewrite H1, H2; reflexivity |].
  split; [reflexivity |].
  split; [reflexivity |].
  rewrite H1. clear Hrange. split.
  - intros -> ->. subst pct. vm_compute. reflexivity.
  - intros -> ->. subst pct. vm_compute. reflexivity.
Qed.

(** The statement above at a bar that gains five percent, and at a bar that
    closes where it opened. *)
Lemma percent_change_two_decimals_witness :
  Polygon.o Sample.bar_up = Some (ofZ 100) /\
  Polygon.c Sample.bar_up = Some (ofZ 105) /\
  get "text"
    (get "trend"
       (Index.chartData Sample.plainHost "AAPL" (Polygon.mkAggs (Some [Sample.bar_up]))
          (Index.changePercent Sample.plainHost Sample.bar_up))) =
    JStr "5.00% change" /\
  (exists n a b,
     Index.changePercent Sample.plainHost Sample.bar_flat = a ++ "." ++ b /\
     String.length b = 2%nat /\
     fixedDigits 2 n = a ++ "." ++ b) /\
  Index.changePercent Sample.plainHost Sample.bar_flat = "0.00".
Proof.
  assert (Ho : Polygon.o Sample.bar_up = Some (ofZ 100)) by (vm_compute; reflexivity).
  assert (Hc : Polygon.c Sample.bar_up = Some (ofZ 105)) by (vm_compute; reflexivity).
  split; [exact Ho |]. split; [exact Hc |].
  split.
  - destruct (percent_change_two_decimals Sample.plainHost "AAPL"
                (Polygon.mkAggs (Some [Sample.bar_up])) Sample.bar_up (ofZ 100) (ofZ 105)
                Ho Hc ltac:(vm_compute; reflexivity))
      as (_ & _ & Htext & _ & Hup & _).
    rewrite Htext. rewrite (Hup eq_refl eq_refl). reflexivity.
  - destruct (percent_change_two_decimals Sample.plainHost "AAPL"
                (Polygon.mkAggs (Some [Sample.bar_flat])) Sample.bar_flat (ofZ 100) (ofZ 100)
                ltac:(vm_compute; reflexivity) ltac:(vm_compute; reflexivity)
                ltac:(vm_compute; reflexivity))
      as ((n & a & b & Hs & Hb & Hn & _) & _).
    split; [| vm_compute; reflexivity].
    exists n, a, b. split; [exact Hs |]. split; assumption.
Defined.

(** ** No data, and other failures *)

(** With no bar in the answer, the handlers of [index.ts] and [part_000]
    throw their own error. *)
Lemma Index_price_no_data host polygon input agent body :
  Polygon.aggregates polygon (Index.priceRequest host (input_ticker input)) =
    Polygon.Resolves body ->
  first (Polygon.results body) = None ->
  exists ev,
    Index.getStockPrice_handler host polygon input agent =
      (ev, Throws (mkError "Error" ("No data available for " ++ input_ticker input))).
Proof.
  intros Hcall Hnone. unfold Index.getStockPrice_handler. cbv zeta.
  rewrite Hcall. cbn [bind console_log await]. rewrite Hnone.
  eexists. reflexivity.
Qed.

Lemma Part000_price_no_data host polygon input agent body :
  Polygon.aggregates polygon (Part000.priceRequest host (input_ticker input)) =
    Polygon.Resolves body ->
  first (Polygon.results body) = None ->
  exists ev,
    Part000.getStockPrice_handler host polygon input agent =
      (ev, Throws (mkError "Error" ("No data available for " ++ input_ticker input))).
Proof.
  intros Hcall Hnone. unfold Part000.getStockPrice_handler. cbv zeta.
  rewrite Hcall. cbn [bind console_log await]. rewrite Hnone.
  eexists. reflexivity.
Qed.

(** With no bar in the previous close, the handler of [part_001] throws:
    a TypeError when it reads the missing record, or the rejection of the
    history request that comes first. *)
Lemma Part001_price_no_data host polygon input agent body :
  Polygon.previousClose polygon (input_ticker input) = Polygon.Resolves body ->
  first (Polygon.results body) = None ->
  exists ev e, Part001.getStockPrice_handler host polygon input agent = (ev, Throws e).
Proof.
  intros Hcall Hnone. unfold Part001.getStockPrice_handler. cbv zeta.
  rewrite Hcall. cbn [bind console_log await].
  destruct (Polygon.results body) as [[| bar bars] |];
    cbn [Part001.element0 first ret throw bind] in *.
  - destruct (Polygon.aggregates polygon _) as [aggs | reason];
      cbn [await bind throw]; eexists _, _; reflexivity.
  - discriminate.
  - eexists _, _. reflexivity.
Qed.

(** C4: when the provider has no bar for the symbol, invoking the price tool
    yields a failure-shaped envelope ([data: null], a [ui] node of kind
    [alert]) and no fault leaves the dispatcher; in [index.ts] and [part_000]
    the text is the message of the error that the handler throws.  The
    handlers throw; the envelope is made by the dispatcher of section 4.3. *)
Theorem no_bars_error_envelope host polygon input agent body :
  first (Polygon.results body) = None ->
  (Polygon.aggregates polygon (Index.priceRequest host (input_ticker input)) =
     Polygon.Resolves body ->
   exists ev env,
     SDK.invoke (Index.getStockPriceConfig host polygon) input agent = (ev, Returns env) /\
     isErrorEnvelope env /\
     text env = "No data available for " ++ input_ticker input) /\
  (Polygon.aggregates polygon (Part000.priceRequest host (input_ticker input)) =
     Polygon.Resolves body ->
   exists ev env,
     SDK.invoke (Part000.getStockPriceConfig host polygon) input agent = (ev, Returns env) /\
     isErrorEnvelope env /\
     text env = "No data available for " ++ input_ticker input) /\
  (Polygon.previousClose polygon (input_ticker input) = Polygon.Resolves body ->
   exists ev env,
     SDK.invoke (Part001.getStockPriceConfig host polygon) input agent = (ev, Returns env) /\
     isErrorEnvelope env).
Proof.
  intros Hnone. split; [| split]; intros H.
  - destruct (Index_price_no_data host polygon input agent body H Hnone) as (ev & Hrun).
    eexists _, _. split; [| split].
    + apply (invoke_Throws (Index.getStockPriceConfig host polygon)). exact Hrun.
    + apply failureEnvelope_shape.
    + reflexivity.
  - destruct (Part000_price_no_data host polygon input agent body H Hnone) as (ev & Hrun).
    eexists _, _. split; [| split].
    + apply (invoke_Throws (Part000.getStockPriceConfig host polygon)). exact Hrun.
    + apply failureEnvelope_shape.
    + reflexivity.
  - destruct (Part001_price_no_data host polygon input agent body H Hnone) as (ev & e & Hrun).
    eexists _, _. split.
    + apply (invoke_Throws (Part001.getStockPriceConfig host polygon)). exact Hrun.
    + apply failureEnvelope_shape.
Qed.

(** The statement above at a provider that has no bar at all. *)
Lemma no_bars_error_envelope_witness :
  first (Polygon.results (Polygon.mkAggs (Some []))) = @None Polygon.Bar /\
  (exists ev env,
     SDK.invoke (Index.getStockPriceConfig Sample.plainHost (Sample.serving []))
       Sample.AAPL Sample.agent = (ev, Returns env) /\
     isErrorEnvelope env /\
     text env = "No data available for AAPL").
Proof.
  split; [reflexivity |].
  exact (proj1 (no_bars_error_envelope Sample.plainHost (Sample.serving []) Sample.AAPL
                  Sample.agent (Polygon.mkAggs (Some [])) eq_refl) eq_refl).
Defined.

(** The widget of [index.ts], cut off from the provider, answers with a
    paragraph node. *)
Lemma widget_failure_is_a_paragraph :
  snd (Index.getMarketOverview_getWidget Sample.plainHost Sample.unreachable) =
    Returns Index.overviewFailure /\
  data Index.overviewFailure = JNull /\
  type (ui Index.overviewFailure) = "p" /\
  type (ui Index.overviewFailure) <> "alert".
Proof.
  repeat split. discriminate.
Qed.

(** A [try] block with a handler that returns always returns. *)
Lemma try_catch_total {A : Type} (body : Async A) handler :
  (forall e, exists ev a, handler e = (ev, Returns a)) ->
  exists ev a, try_catch body handler = (ev, Returns a).
Proof.
  intros Hhandler. destruct body as [ev [a | e]].
  - exists ev, a. reflexivity.
  - destruct (Hhandler e) as (ev' & a & H).
    exists (ev ++ ev')%list, a. cbn [try_catch]. rewrite H. reflexivity.
Qed.

(** C1 (amended): every failure outcome is still an envelope with a text
    that is not empty and [data: null], and neither the dispatcher nor the
    widget ever throws.  A fault thrown by a handler is turned by the
    dispatcher into an envelope whose text describes the fault (its message,
    when it has one) and whose [ui] is an alert; so is the upstream no-data
    case of the price tool, in its three variants.  The catch-all of the
    widget returns the text [Failed to load market overview] with
    [data: null]; its [ui] is an alert in [part_000], and in [index.ts] a [p]
    node holding the message. *)
Theorem failures_yield_envelopes host polygon :
  (forall (I : Type) (tool : ToolConfig I) input context,
     exists ev env, SDK.invoke tool input context = (ev, Returns env)) /\
  (exists ev env, Part000.getMarketOverview_getWidget host polygon = (ev, Returns env)) /\
  (exists ev env, Index.getMarketOverview_getWidget host polygon = (ev, Returns env)) /\
  (forall (I : Type) (tool : ToolConfig I) input context ev e,
     handler tool input context = (ev, Throws e) ->
     exists ev' env,
       SDK.invoke tool input context = (ev', Returns env) /\
       text env <> "" /\
       (message e <> "" -> text env = message e) /\
       isErrorEnvelope env) /\
  (forall input agent body,
     first (Polygon.results body) = None ->
     (Polygon.aggregates polygon (Index.priceRequest host (input_ticker input)) =
        Polygon.Resolves body ->
      exists ev env,
        SDK.invoke (Index.getStockPriceConfig host polygon) input agent = (ev, Returns env) /\
        text env <> "" /\
        isErrorEnvelope env) /\
     (Polygon.aggregates polygon (Part000.priceRequest host (input_ticker input)) =
        Polygon.Resolves body ->
      exists ev env,
        SDK.invoke (Part000.getStockPriceConfig host polygon) input agent =
          (ev, Returns env) /\
        text env <> "" /\
        isErrorEnvelope env) /\
     (Polygon.previousClose polygon (input_ticker input) = Polygon.Resolves body ->
      exists ev env,
        SDK.invoke (Part001.getStockPriceConfig host polygon) input agent =
          (ev, Returns env) /\
        text env <> "" /\
        isErrorEnvelope env)) /\
  (forall ev e,
     Part000.overviewBody host polygon = (ev, Throws e) ->
     exists ev' env,
       Part000.getMarketOverview_getWidget host polygon = (ev', Returns env) /\
       text env = "Failed to load market overview" /\
       text env <> "" /\
       isErrorEnvelope env) /\
  (forall ev e,
     Index.overviewBody host polygon = (ev, Throws e) ->
     exists ev' env,
       Index.getMarketOverview_getWidget host polygon = (ev', Returns env) /\
       text env = "Failed to load market overview" /\
       text env <> "" /\
       data env = JNull /\
       ui env =
         mkNode "p" JUndefined
           (ChildText "Unable to load market data at this time. Please check your Polygon.io API key and permissions.")).
Proof.
  assert (Hcaught : forall (I : Type) (tool : ToolConfig I) input context ev e,
            handler tool input context = (ev, Throws e) ->
            exists ev' env,
              SDK.invoke tool input context = (ev', Returns env) /\
              text env <> "" /\
              (message e <> "" -> text env = message e) /\
              isErrorEnvelope env).
  { intros I tool input context ev e Hrun.
    eexists _, (SDK.failureEnvelope e).
    split; [apply invoke_Throws; eassumption |].
    split; [apply describe_nonempty |].
    split; [apply describe_message | apply failureEnvelope_shape]. }
  split; [| split; [| split; [| split; [| split; [| split]]]]].
  - intros I tool input context. apply try_catch_total.
    intros e. eexists _, _. reflexivity.
  - apply try_catch_total. intros e. eexists _, _. reflexivity.
  - apply try_catch_total. intros e. eexists _, _. reflexivity.
  - exact Hcaught.
  - intros input agent body Hnone. split; [| split]; intros Hcall.
    + destruct (Index_price_no_data host polygon input agent body Hcall Hnone) as (ev & Hrun).
      destruct (Hcaught _ (Index.getStockPriceConfig host polygon) _ _ _ _ Hrun)
        as (ev' & env & Hinvoke & Htext & _ & Hshape).
      exists ev', env. repeat split; try assumption; apply Hshape.
    + destruct (Part000_price_no_data host polygon input agent body Hcall Hnone)
        as (ev & Hrun).
      destruct (Hcaught _ (Part000.getStockPriceConfig host polygon) _ _ _ _ Hrun)
        as (ev' & env & Hinvoke & Htext & _ & Hshape).
      exists ev', env. repeat split; try assumption; apply Hshape.
    + destruct (Part001_price_no_data host polygon input agent body Hcall Hnone)
        as (ev & e & Hrun).
      destruct (Hcaught _ (Part001.getStockPriceConfig host polygon) _ _ _ _ Hrun)
        as (ev' & env & Hinvoke & Htext & _ & Hshape).
      exists ev', env. repeat split; try assumption; apply Hshape.
  - intros ev e Hbody. unfold Part000.getMarketOverview_getWidget.
    rewrite (try_catch_Throws _ _ _ _ Hbody).
    eexists _, _. repeat split. discriminate.
  - intros ev e Hbody. unfold Index.getMarketOverview_getWidget.
    rewrite (try_catch_Throws _ _ _ _ Hbody).
    eexists _, _. repeat split. discriminate.
Qed.

(** The statement above at a provider that rejects every call, and at the
    price tool of [index.ts] on a provider without bars. *)
Lemma failures_yield_envelopes_witness :
  (exists ev e, Part000.overviewBody Sample.plainHost Sample.unreachable = (ev, Throws e)) /\
  (exists ev env,
     Part000.getMarketOverview_getWidget Sample.plainHost Sample.unreachable =
       (ev, Returns env) /\
     text env = "Failed to load market overview" /\
     isErrorEnvelope env) /\
  (exists ev e, Index.overviewBody Sample.plainHost Sample.unreachable = (ev, Throws e)) /\
  (exists ev env,
     Index.getMarketOverview_getWidget Sample.plainHost Sample.unreachable =
       (ev, Returns env) /\
     text env = "Failed to load market overview" /\
     data env = JNull /\
     type (ui env) = "p") /\
  (exists ev env,
     SDK.invoke (Index.getStockPriceConfig Sample.plainHost (Sample.serving []))
       Sample.AAPL Sample.agent = (ev, Returns env) /\
     text env <> "" /\
     isErrorEnvelope env).
Proof.
  assert (Hbody : Part000.overviewBody Sample.plainHost Sample.unreachable =
                    (map (fun index => Called (Polygon.stocks_previousClose (fst index))) indices,
                     Throws (mkError "Error" "Unknown API Key")))
    by (vm_compute; reflexivity).
  assert (Hbody' : Index.overviewBody Sample.plainHost Sample.unreachable =
                     (map (fun index => Called (Polygon.stocks_previousClose (fst index))) indices,
                      Throws (mkError "Error" "Unknown API Key")))
    by (vm_compute; reflexivity).
  destruct (failures_yield_envelopes Sample.plainHost Sample.unreachable)
    as (_ & _ & _ & _ & _ & Hbuilders & Hliterals).
  destruct (failures_yield_envelopes Sample.plainHost (Sample.serving []))
    as (_ & _ & _ & _ & Hnodata & _).
  split; [eexists _, _; exact Hbody |].
  split.
  { destruct (Hbuilders _ _ Hbody) as (ev & env & Hrun & Htext & _ & Hshape).
    exists ev, env. repeat split; try assumption; apply Hshape. }
  split; [eexists _, _; exact Hbody' |].
  split.
  { destruct (Hliterals _ _ Hbody') as (ev & env & Hrun & Htext & _ & Hdata & Hui).
    exists ev, env. rewrite Hui. repeat split; assumption. }
  exact (proj1 (Hnodata Sample.AAPL Sample.agent (Polygon.mkAggs (Some [])) eq_refl) eq_refl).
Defined.

(** ** The denominator of the percent change *)




(** ** The default of [limit] *)

Lemma fst_bind {A B : Type} (m : Async A) (k : A -> Async B) :
  fst (bind m k) =
    (fst m ++ match snd m with
              | Returns a => fst (k a)
              | Throws _ => []
              end)%list.
Proof.
  destruct m as [ev [a | e]]; simpl.
  - destruct (k a); reflexivity.
  - now rewrite app_nil_r.
Qed.

(** Mapping a callback that issues no request and writes no line is silent. *)
Lemma results_map_silent {A B : Type} (xs : option (list A)) (f : A -> Async B) :
  (forall x, fst (f x) = []) -> fst (results_map xs f) = [].
Proof.
  intros Hf. destruct xs as [items |]; [| reflexivity].
  unfold results_map. induction items as [| x items IH]; [reflexivity |].
  cbn [fold_right]. rewrite fst_bind, Hf.
  destruct (snd (f x)); [| reflexivity].
  rewrite fst_bind, IH.
  match goal with |- context [snd ?m] => destruct (snd m) end; reflexivity.
Qed.

(** A handler that logs one line, sends one request and then only formats
    the answer has sent exactly that request. *)
Lemma one_request {A B C : Type} line r (answer : Polygon.Outcome A)
    (xs : A -> option (list B)) (f : B -> Async C) (k : A -> list C -> Envelope) :
  (forall x, fst (f x) = []) ->
  requests
    (fst (console_log line ;;
          response <- await r answer ;;
          rows <- results_map (xs response) f ;;
          ret (k response rows))) = [r].
Proof.
  intros Hf. rewrite fst_bind. cbn [console_log fst snd].
  rewrite fst_bind. destruct answer as [body | reason]; cbn [await fst snd]; [| reflexivity].
  rewrite fst_bind, (results_map_silent _ _ Hf).
  match goal with |- context [snd ?m] => destruct (snd m) end; reflexivity.
Qed.

(** C6: in the news, dividends and splits tools an omitted [limit] is replaced
    by its default before anything else happens: the one request that an
    invocation sends to the provider carries [limit] 5 for the news, 10 for
    the dividends and 5 for the splits, and a [limit] that is given is sent
    as it is. *)
Theorem limit_defaults host polygon ticker agent :
  (requests (fst (Index.getStockNews_handler host polygon (mkLimitInput ticker None) agent)) =
     [Polygon.reference_tickerNews (Polygon.mkLimitQuery ticker (ofZ 5))] /\
   requests (fst (Index.getStockDividends_handler host polygon (mkLimitInput ticker None) agent)) =
     [Polygon.reference_dividends (Polygon.mkLimitQuery ticker (ofZ 10))] /\
   requests (fst (Index.getStockSplits_handler host polygon (mkLimitInput ticker None) agent)) =
     [Polygon.reference_stockSplits (Polygon.mkLimitQuery ticker (ofZ 5))]) /\
  (forall n,
     requests (fst (Index.getStockNews_handler host polygon (mkLimitInput ticker (Some n)) agent)) =
       [Polygon.reference_tickerNews (Polygon.mkLimitQuery ticker n)] /\
     requests (fst (Index.getStockDividends_handler host polygon (mkLimitInput ticker (Some n)) agent)) =
       [Polygon.reference_dividends (Polygon.mkLimitQuery ticker n)] /\
     requests (fst (Index.getStockSplits_handler host polygon (mkLimitInput ticker (Some n)) agent)) =
       [Polygon.reference_stockSplits (Polygon.mkLimitQuery ticker n)]).
Proof.
  assert (Harticle : forall x, fst (Index.article x) = []).
  { intros x. unfold Index.article. destruct (Polygon.publisher x); reflexivity. }
  assert (Hdividend : forall x, fst (Index.dividendRow host x) = []).
  { intros x. unfold Index.dividendRow. destruct (Polygon.cash_amount x); reflexivity. }
  assert (Hsplit : forall x, fst (Index.splitRow host x) = []) by reflexivity.
  split; [| intros n]; (split; [| split]).
  all: unfold Index.getStockNews_handler, Index.getStockDividends_handler,
         Index.getStockSplits_handler; cbv zeta;
       cbn [limit_ticker input_limit nullish].
  all: first [ exact (one_request _ _ _ Polygon.news_results _ _ Harticle)
             | exact (one_request _ _ _ Polygon.dividends_results _ _ Hdividend)
             | exact (one_request _ _ _ Polygon.splits_results _ _ Hsplit) ].
Qed.

(** ** The price tool on the bar of Apple *)

(** On the bar [{ o: 150, c: 157.5, h: 158, l: 149, v: 1000000 }] alone, the
    handlers of [index.ts] and [part_000] throw when they format the missing
    [vw], and the handler of [part_001] returns a chart without a table. *)
Lemma bar_without_vwap_has_no_table :
  snd (Index.getStockPrice_handler Sample.plainHost (Sample.serving [Sample.bar_AAPL])
         Sample.AAPL Sample.agent) = Throws (TypeError_undefined "toFixed") /\
  snd (Part000.getStockPrice_handler Sample.plainHost (Sample.serving [Sample.bar_AAPL])
         Sample.AAPL Sample.agent) = Throws (TypeError_undefined "toFixed") /\
  map type
    (childNodes
       (match snd (Part001.getStockPrice_handler Sample.plainHost
                     (Sample.serving [Sample.bar_AAPL]) Sample.AAPL Sample.agent) with
        | Returns env => ui env
        | Throws _ => mkNode "" JUndefined NoChildren
        end)) = ["chart"].
Proof.
  repeat split.
Qed.

(** C7 (amended): when the one bar that the provider returns for AAPL also
    carries a [vw] (open 150, close 157.5, high 158, low 149, volume 1000000),
    the price tool returns an envelope with [data.changePercent] equal to 5.
    In [index.ts] the root of [ui] is a [div], in [part_000] a [card]; its
    children are a chart and then a table whose rows are Volume, Open, High,
    Low and VWAP.  In [part_001] the root is a [div] whose only child is the
    chart. *)
Theorem price_of_one_bar host polygon input agent vwap time :
  let bar :=
    Polygon.mkBar (Some (ofZ 150)) (Some (parseFloat "157.5")) (Some (ofZ 158))
      (Some (ofZ 149)) (Some (ofZ 1000000)) (Some vwap) time in
  let metrics := [JStr "Volume"; JStr "Open"; JStr "High"; JStr "Low"; JStr "VWAP"] in
  input_ticker input = "AAPL" ->
  (Polygon.aggregates polygon (Index.priceRequest host "AAPL") =
     Polygon.Resolves (Polygon.mkAggs (Some [bar])) ->
   exists ev env,
     Index.getStockPrice_handler host polygon input agent = (ev, Returns env) /\
     get "changePercent" (data env) = JNum (ofZ 5) /\
     type (ui env) = "div" /\
     map type (childNodes (ui env)) = ["chart"; "table"] /\
     map (get "metric") (elements (get "rows" (uiData (child 1 (ui env))))) = metrics) /\
  (Polygon.aggregates polygon (Part000.priceRequest host "AAPL") =
     Polygon.Resolves (Polygon.mkAggs (Some [bar])) ->
   exists ev env,
     Part000.getStockPrice_handler host polygon input agent = (ev, Returns env) /\
     get "changePercent" (data env) = JNum (ofZ 5) /\
     type (ui env) = "card" /\
     map type (childNodes (ui env)) = ["chart"; "table"] /\
     map (get "metric") (elements (get "rows" (uiData (child 1 (ui env))))) = metrics) /\
  (forall aggs,
     Polygon.previousClose polygon "AAPL" = Polygon.Resolves (Polygon.mkAggs (Some [bar])) ->
     Polygon.aggregates polygon (Part001.priceRequest host "AAPL") = Polygon.Resolves aggs ->
     exists ev env,
       Part001.getStockPrice_handler host polygon input agent = (ev, Returns env) /\
       get "changePercent" (data env) = JNum (ofZ 5) /\
       type (ui env) = "div" /\
       map type (childNodes (ui env)) = ["chart"]).
Proof.
  intros bar metrics Hticker. destruct input as [ticker]. cbn in Hticker. subst ticker.
  subst bar metrics. split; [| split].
  - intros Hcall. unfold Index.getStockPrice_handler. cbv zeta. cbn [input_ticker].
    rewrite Hcall. run_handler.
    eexists _, _. split; [reflexivity |].
    split; [cbn [data get getProp]; vm_compute; reflexivity |].
    repeat split.
  - intros Hcall. unfold Part000.getStockPrice_handler. cbv zeta. cbn [input_ticker].
    rewrite Hcall. run_handler.
    eexists _, _. split; [reflexivity |].
    split; [cbn [data get getProp]; vm_compute; reflexivity |].
    repeat split.
  - intros aggs Hclose Hcall. unfold Part001.getStockPrice_handler. cbv zeta.
    cbn [input_ticker]. rewrite Hclose, Hcall. run_handler.
    eexists _, _. split; [reflexivity |].
    split; [cbn [data get getProp]; vm_compute; reflexivity |].
    repeat split.
Qed.

(** The statement above at a provider that serves the full bar of Apple. *)
Lemma price_of_one_bar_witness :
  exists ev env,
    Index.getStockPrice_handler Sample.plainHost (Sample.serving [Sample.bar_AAPL_full])
      Sample.AAPL Sample.agent = (ev, Returns env) /\
    get "changePercent" (data env) = JNum (ofZ 5) /\
    type (ui env) = "div" /\
    map type (childNodes (ui env)) = ["chart"; "table"] /\
    map (get "metric") (elements (get "rows" (uiData (child 1 (ui env))))) =
      [JStr "Volume"; JStr "Open"; JStr "High"; JStr "Low"; JStr "VWAP"].
Proof.
  refine (proj1 (price_of_one_bar Sample.plainHost (Sample.serving [Sample.bar_AAPL_full])
                   Sample.AAPL Sample.agent (parseFloat "155.2")
                   (Some (parseFloat "1767312000000")) eq_refl) _).
  vm_compute. reflexivity.
Defined.

(** ** Composition of nodes *)

(** C8: a composite node keeps its children in the order in which they were
    added.  For the card builder, adding [A] then [B] to a builder appends
    [A; B] to its children, so a fresh builder yields exactly [A; B], and
    adding any list of nodes in turn yields that list; the price handler of
    [part_000] so yields the chart and then the table.  The [div] of the
    widget of [index.ts] has for children an array that starts with the table
    and onto which the chart is pushed: [push] keeps what the array holds, in
    its order, and puts the new element last, so the children are the table
    alone when nothing is plotted, and otherwise the table and then the
    chart. *)
Theorem children_in_call_order host polygon :
  (forall b A B,
     childNodes (Utils.build_card (Utils.addChild B (Utils.addChild A b))) =
       (childNodes (Utils.build_card b) ++ [A; B])%list) /\
  (forall A B,
     childNodes (Utils.build_card
                   (Utils.addChild B (Utils.addChild A Utils.new_CardUIBuilder))) = [A; B]) /\
  (forall nodes,
     childNodes (Utils.build_card
                   (fold_left (fun b node => Utils.addChild node b) nodes
                      Utils.new_CardUIBuilder)) = nodes) /\
  (forall input agent ev env,
     Part000.getStockPrice_handler host polygon input agent = (ev, Returns env) ->
     exists chart table,
       type chart = "chart" /\ type table = "table" /\
       childNodes (ui env) = [chart; table]) /\
  (forall (arr : list UINode) node,
     firstn (List.length arr) (push arr node) = arr /\
     nth_error (push arr node) (List.length arr) = Some node /\
     List.length (push arr node) = S (List.length arr)) /\
  (forall ev env,
     Index.overviewBody host polygon = (ev, Returns env) ->
     exists results aggs,
       Polygon.aggregates polygon (Index.historyRequest host) = Polygon.Resolves aggs /\
       let table :=
         mkNode "table" (JSON_stringify (Index.overviewTable host results)) NoChildren in
       let chart :=
         mkNode "chart" (JSON_stringify (Index.overviewChart host aggs)) NoChildren in
       childNodes (ui env) =
         match Index.overviewSeries host aggs with
         | [] => [table]
         | _ :: _ => [table; chart]
         end).
Proof.
  split; [| split; [| split; [| split; [| split]]]].
  - intros b A B. cbn. now rewrite <- app_assoc.
  - reflexivity.
  - intros nodes.
    assert (H : forall b,
               childNodes (Utils.build_card
                             (fold_left (fun b node => Utils.addChild node b) nodes b)) =
                 (Utils.card_children b ++ nodes)%list).
    { induction nodes as [| node nodes IH]; intros b; cbn [fold_left].
      - cbn. now rewrite app_nil_r.
      - rewrite IH. cbn. now rewrite <- app_assoc. }
    apply H.
  - intros input agent ev env H.
    apply Part000_price_returns in H.
    destruct H as (aggs & bar & op & cl & hi & lo & vol & vwap & chart & table
                   & _ & _ & _ & H).
    cbv zeta in H. destruct H as (Hchart & Htable & _ & _ & Hui).
    exists chart, table. rewrite Hui. repeat split.
    + revert Hchart. unfold Utils.build_chart.
      destruct (Utils.chart_series _); [| destruct (_ && _)];
        unfold ret, throw; intros E; inversion E; reflexivity.
    + revert Htable. unfold Utils.build_table.
      destruct (Utils.table_columns _); unfold ret, throw; intros E; inversion E; reflexivity.
  - intros arr node. unfold push. split; [| split].
    + rewrite firstn_app, Nat.sub_diag, firstn_all. cbn [firstn]. apply app_nil_r.
    + rewrite nth_error_app2, Nat.sub_diag by lia. reflexivity.
    + rewrite length_app. cbn [List.length]. lia.
  - intros ev env H. unfold Index.overviewBody in H. cbv zeta in H.
    run_returns H.
    destruct (nth_error _ 1) as [sp500 |]; [| discriminate].
    apply ret_Returns in H. destruct H as [<- _].
    match goal with
    | Hhistory : Polygon.aggregates polygon _ = Polygon.Resolves ?aggs,
      Hall : Promise_all _ _ = (_, Returns ?results) |- _ =>
        exists results, aggs; split; [exact Hhistory |]
    end.
    cbv zeta. cbn [ui childNodes children].
    destruct (Index.overviewSeries host _) as [| point rest]; [reflexivity |].
    replace (0 <? Z.of_nat (List.length (point :: rest))) with true
      by (symmetry; apply Z.ltb_lt; cbn [List.length]; lia).
    reflexivity.
Qed.

(** The statement above at the full bar of Apple and at a provider without
    a previous close for one index. *)
Lemma children_in_call_order_witness :
  (exists ev env chart table,
     Part000.getStockPrice_handler Sample.plainHost (Sample.serving [Sample.bar_AAPL_full])
       Sample.AAPL Sample.agent = (ev, Returns env) /\
     type chart = "chart" /\ type table = "table" /\
     childNodes (ui env) = [chart; table]) /\
  (exists ev env,
     Index.overviewBody Sample.plainHost Sample.withoutQQQ = (ev, Returns env) /\
     map type (childNodes (ui env)) = ["table"; "chart"]).
Proof.
  destruct (children_in_call_order Sample.plainHost (Sample.serving [Sample.bar_AAPL_full]))
    as (_ & _ & _ & Hprice & _).
  destruct (children_in_call_order Sample.plainHost Sample.withoutQQQ)
    as (_ & _ & _ & _ & _ & Hwidget).
  split.
  - destruct (Part000.getStockPrice_handler Sample.plainHost
                (Sample.serving [Sample.bar_AAPL_full]) Sample.AAPL Sample.agent)
      as [ev [env | e]] eqn:Hrun; [| vm_compute in Hrun; discriminate].
    destruct (Hprice Sample.AAPL Sample.agent ev env Hrun) as (chart & table & H).
    exists ev, env, chart, table. split; [reflexivity | exact H].
  - destruct (Index.overviewBody Sample.plainHost Sample.withoutQQQ)
      as [ev [env | e]] eqn:Hrun; [| vm_compute in Hrun; discriminate].
    destruct (Hwidget ev env eq_refl) as (results & aggs & Hhistory & Hchildren).
    exists ev, env. split; [reflexivity |].
    vm_compute in Hhistory. inversion Hhistory; subst aggs.
    cbv zeta in Hchildren. rewrite Hchildren. reflexivity.
Defined.

(** ** Tables *)

(** [JSON.stringify] writes a plain value as it is. *)
Lemma JSON_stringify_plain : forall v, plain v = true -> JSON_stringify v = v.
Proof.
  fix IH 1. intros [| | b | x | s | items | props] Hp; cbn [JSON_stringify plain] in *;
    try reflexivity; try discriminate.
  - destruct x as [[|] | | |]; try discriminate; reflexivity.
  - f_equal. revert items Hp. fix IHitems 1. intros [| e items] Hp; [reflexivity |].
    cbn [map forallb] in *. apply andb_prop in Hp. destruct Hp as [He Hrest].
    rewrite (IHitems items Hrest). f_equal.
    rewrite (IH e He). destruct e; try reflexivity. discriminate.
  - f_equal. revert props Hp. fix IHprops 1. intros [| [k e] props] Hp; [reflexivity |].
    cbn [forallb snd] in *. apply andb_prop in Hp. destruct Hp as [He Hrest].
    rewrite (IHprops props Hrest).
    rewrite (IH e He). destruct e; try reflexivity. discriminate.
Qed.

(** C9: building a table from columns and rows and reading the payload of
    the built node back gives the same columns and the same rows, in the same
    order.  For the table builder this holds for every rows sequence and
    every columns sequence that the builder accepts (it refuses an empty
    one).  For a table node written as an object literal ([index.ts]), whose
    payload goes through [JSON.stringify], it holds for all columns and rows
    that JSON writes as they are, as those of the price tool are. *)
Theorem table_round_trip :
  (forall columns rows,
     columns <> [] ->
     exists node,
       Utils.build_table (Utils.rows rows (Utils.addColumns columns Utils.new_TableUIBuilder)) =
         ([], Returns node) /\
       type node = "table" /\
       Utils.table_payload node = (columns, rows)) /\
  (forall rows,
     exists e,
       Utils.build_table (Utils.rows rows (Utils.addColumns [] Utils.new_TableUIBuilder)) =
         ([], Throws e) /\
       error_name e = "SchemaError") /\
  (forall columns rows,
     forallb plain columns = true ->
     forallb plain rows = true ->
     Utils.table_payload
       (mkNode "table" (JSON_stringify (JObj [("columns", JArr columns); ("rows", JArr rows)]))
          NoChildren) = (columns, rows)) /\
  (forall volume open high low vwap,
     let tableData := Index.tableData volume open high low vwap in
     Utils.table_payload (mkNode "table" (JSON_stringify tableData) NoChildren) =
       (elements (get "columns" tableData), elements (get "rows" tableData)) /\
     List.length (elements (get "columns" tableData)) = 2%nat /\
     List.length (elements (get "rows" tableData)) = 5%nat).
Proof.
  split; [| split; [| split]].
  - intros columns rows Hcolumns. unfold Utils.build_table.
    cbn [Utils.rows Utils.addColumns Utils.new_TableUIBuilder Utils.table_columns
           Utils.table_rows app].
    destruct columns as [| column columns]; [contradiction |].
    eexists. repeat split.
  - intros rows. eexists. split; reflexivity.
  - intros columns rows Hcolumns Hrows.
    rewrite JSON_stringify_plain; [reflexivity |].
    cbn [plain forallb snd]. rewrite Hcolumns, Hrows. reflexivity.
  - intros volume open high low vwap tableData. repeat split.
Qed.

(** The statement above at a table of one column and one row. *)
Lemma table_round_trip_witness :
  [Part000.column "metric" "Metric" "text"] <> [] /\
  exists node,
    Utils.build_table
      (Utils.rows [Part000.metricRow "Open" "$150.00"]
         (Utils.addColumns [Part000.column "metric" "Metric" "text"]
            Utils.new_TableUIBuilder)) = ([], Returns node) /\
    type node = "table" /\
    Utils.table_payload node =
      ([Part000.column "metric" "Metric" "text"], [Part000.metricRow "Open" "$150.00"]).
Proof.
  assert (Hcolumns : [Part000.column "metric" "Metric" "text"] <> []) by discriminate.
  split; [exact Hcolumns |].
  exact (proj1 table_round_trip [Part000.column "metric" "Metric" "text"]
           [Part000.metricRow "Open" "$150.00"] Hcolumns).
Defined.

(** ** The market overview *)

(** When every previous-close call resolves, the four lookups go out in the
    order of [indices] and each yields its entry. *)
Lemma Index_lookups_resolved host polygon (answer : string -> Polygon.Aggs) :
  (forall ticker,
     In ticker (map fst indices) ->
     Polygon.previousClose polygon ticker = Polygon.Resolves (answer ticker)) ->
  Promise_all (settledAt host) (map (Index.indexResult host polygon) indices) =
    (map (fun index => Called (Polygon.stocks_previousClose (fst index))) indices,
     Returns (map (fun index => Index.quote host (snd index) (answer (fst index))) indices)).
Proof.
  intros H. unfold indices, Index.indexResult. cbn [map fst snd].
  rewrite !H by (cbn; tauto). reflexivity.
Qed.

Lemma Part000_lookups_resolved host polygon (answer : string -> Polygon.Aggs) :
  (forall ticker,
     In ticker (map fst indices) ->
     Polygon.previousClose polygon ticker = Polygon.Resolves (answer ticker)) ->
  Promise_all (settledAt host) (map (Part000.indexResult host polygon) indices) =
    (map (fun index => Called (Polygon.stocks_previousClose (fst index))) indices,
     Returns (map (fun index => Part000.quote host (snd index) (answer (fst index))) indices)).
Proof.
  intros H. unfold indices, Part000.indexResult. cbn [map fst snd].
  rewrite !H by (cbn; tauto). reflexivity.
Qed.

(** The chart builder of the widget of [part_000] always builds. *)
Lemma Part000_overview_chart_builds results :
  exists chart,
    Utils.build_chart (Part000.overviewChartBuilder results) = ([], Returns chart) /\
    type chart = "chart".
Proof.
  unfold Utils.build_chart, Part000.overviewChartBuilder.
  cbn [Utils.dataKeys Utils.chartData Utils.chart_set_description Utils.chart_set_title
         Utils.chart_set_type Utils.new_ChartUIBuilder Utils.chart_series Utils.chart_dataKeys
         Utils.chart_type Utils.chart_title Utils.chart_description Utils.chart_trend
         Utils.chart_footer].
  destruct (filter _ results) as [| result rest]; cbn [map].
  - eexists. split; reflexivity.
  - eexists. split; reflexivity.
Qed.


(** The table of the widget of [index.ts] holds strings only, so that
    [JSON.stringify] writes it as it is. *)
Lemma Index_overviewTable_plain host results :
  JSON_stringify (Index.overviewTable host results) = Index.overviewTable host results.
Proof.
  apply JSON_stringify_plain. unfold Index.overviewTable.
  cbn [plain forallb snd Index.column andb].
  rewrite andb_true_r.
  induction results as [| result results IH]; [reflexivity |].
  cbn [map forallb]. rewrite IH. reflexivity.
Qed.

(** What the widget of [index.ts] returns when its five requests resolve. *)
Lemma Index_overview_resolved host polygon (answer : string -> Polygon.Aggs) aggs :
  (forall t,
     In t (map fst indices) ->
     Polygon.previousClose polygon t = Polygon.Resolves (answer t)) ->
  Polygon.aggregates polygon (Index.historyRequest host) = Polygon.Resolves aggs ->
  let results := map (fun index => Index.quote host (snd index) (answer (fst index))) indices in
  exists charts,
    Index.getMarketOverview_getWidget host polygon =
      ((map (fun index => Called (Polygon.stocks_previousClose (fst index))) indices
          ++ [Called (Polygon.stocks_aggregates (Index.historyRequest host))])%list,
       Returns
         (mkEnvelope
            ("Market Overview - S&P 500: "
               ++ Result.changePercent (Index.quote host "S&P 500" (answer "SPY")) ++ "%")
            (JArr (map Result.toJs results))
            (mkNode "div" (JSON_stringify Index.overviewStyle)
               (ChildNodes
                  (mkNode "table" (Index.overviewTable host results) NoChildren :: charts))))).
Proof.
  intros Hcalls Hhistory results.
  unfold Index.getMarketOverview_getWidget, Index.overviewBody. cbv zeta.
  rewrite (Index_lookups_resolved host polygon answer Hcalls), Hhistory.
  cbn [bind await try_catch]. fold results. rewrite Index_overviewTable_plain.
  replace (nth_error results 1)
    with (Some (Index.quote host "S&P 500" (answer "SPY"))) by reflexivity.
  destruct (0 <? _); eexists; reflexivity.
Qed.

(** What the widget of [part_000] returns when its four requests resolve. *)
Lemma Part000_overview_resolved host polygon (answer : string -> Polygon.Aggs) :
  (forall t,
     In t (map fst indices) ->
     Polygon.previousClose polygon t = Polygon.Resolves (answer t)) ->
  let results :=
    map (fun index => Part000.quote host (snd index) (answer (fst index))) indices in
  exists chart,
    type chart = "chart" /\
    Part000.getMarketOverview_getWidget host polygon =
      (map (fun index => Called (Polygon.stocks_previousClose (fst index))) indices,
       Returns
         (mkEnvelope
            ("Market Overview - S&P 500: "
               ++ Result.changePercent (Part000.quote host "S&P 500" (answer "SPY")) ++ "%")
            (JArr (map Result.toJs results))
            (mkNode "card" (JObj [("title", JUndefined); ("content", JUndefined)])
               (ChildNodes
                  [mkNode "table"
                     (JObj [("columns",
                              JArr [Part000.column "name" "Index" "text";
                                    Part000.column "price" "Price" "text";
                                    Part000.column "change" "Change" "text";
                                    Part000.column "changePercent" "%" "text"]);
                            ("rows", JArr (map (Part000.overviewRow host) results))])
                     (ChildNodes []);
                   chart])))).
Proof.
  intros Hcalls results.
  unfold Part000.getMarketOverview_getWidget, Part000.overviewBody. cbv zeta.
  rewrite (Part000_lookups_resolved host polygon answer Hcalls).
  cbn [bind]. fold results.
  destruct (Part000_overview_chart_builds results) as (chart & Hchart & Hkind).
  exists chart. split; [exact Hkind |].
  rewrite Hchart.
  replace (nth_error results 1)
    with (Some (Part000.quote host "S&P 500" (answer "SPY"))) by reflexivity.
  reflexivity.
Qed.




(** * Further properties of the handlers *)

(** ** When the price tool returns *)

Lemma method_Some {A : Type} name x (f : number -> A) :
  method name (Some x) f = ([], Returns (f x)).
Proof.
  reflexivity.
Qed.

(** The price handler of [index.ts] sends one request and returns an envelope
    exactly when that request resolves with a first bar that has a volume, an
    open, a high, a low, a volume weighted price and a close; with a first
    bar that lacks one of them it throws a TypeError. *)
Theorem Index_price_returns_exactly host polygon input agent :
  requests (fst (Index.getStockPrice_handler host polygon input agent)) =
    [Polygon.stocks_aggregates (Index.priceRequest host (input_ticker input))] /\
  ((exists ev env,
      Index.getStockPrice_handler host polygon input agent = (ev, Returns env)) <->
   (exists aggs bar,
      Polygon.aggregates polygon (Index.priceRequest host (input_ticker input)) =
        Polygon.Resolves aggs /\
      first (Polygon.results aggs) = Some bar /\
      Polygon.v bar <> None /\ Polygon.o bar <> None /\ Polygon.h bar <> None /\
      Polygon.l bar <> None /\ Polygon.vw bar <> None /\ Polygon.c bar <> None)) /\
  (forall aggs bar ev e,
     Polygon.aggregates polygon (Index.priceRequest host (input_ticker input)) =
       Polygon.Resolves aggs ->
     first (Polygon.results aggs) = Some bar ->
     Index.getStockPrice_handler host polygon input agent = (ev, Throws e) ->
     error_name e = "TypeError").
Proof.
  split; [| split].
  - unfold Index.getStockPrice_handler. cbv zeta.
    destruct (Polygon.aggregates polygon _) as [aggs | reason]; run_handler; [| reflexivity].
    destruct (first (Polygon.results aggs)) as [[o c h l v vw t] |]; run_handler;
      [| reflexivity].
    destruct v, o, h, l, vw, c; reflexivity.
  - split.
    + intros (ev & env & H). apply Index_price_returns in H.
      destruct H as (aggs & bar & op & cl & hi & lo & vol & vwap & Hcall & Hfirst & Hbar & _).
      exists aggs, bar. split; [exact Hcall |]. split; [exact Hfirst |].
      rewrite Hbar. bar_fields. repeat split; discriminate.
    + intros (aggs & [o c h l v vw t] & Hcall & Hfirst & Hv & Ho & Hh & Hl & Hvw & Hc).
      bar_fields.
      destruct v; [| contradiction]. destruct o; [| contradiction].
      destruct h; [| contradiction]. destruct l; [| contradiction].
      destruct vw; [| contradiction]. destruct c; [| contradiction].
      unfold Index.getStockPrice_handler. cbv zeta. rewrite Hcall. run_handler.
      rewrite Hfirst. run_handler. eexists _, _. reflexivity.
  - intros aggs [o c h l v vw t] ev e Hcall Hfirst.
    unfold Index.getStockPrice_handler. cbv zeta. rewrite Hcall. run_handler.
    rewrite Hfirst. run_handler.
    destruct v, o, h, l, vw, c; run_handler; intros H; inversion H; reflexivity.
Qed.

(** The statement above on a bar with every field, and on the same bar
    without its volume weighted price. *)
Lemma Index_price_returns_exactly_witness :
  (exists ev env,
     Index.getStockPrice_handler Sample.plainHost (Sample.serving [Sample.bar_AAPL_full])
       Sample.AAPL Sample.agent = (ev, Returns env)) /\
  (exists ev e,
     Index.getStockPrice_handler Sample.plainHost (Sample.serving [Sample.bar_AAPL])
       Sample.AAPL Sample.agent = (ev, Throws e) /\
     error_name e = "TypeError").
Proof.
  split.
  - apply (proj1 (proj2 (Index_price_returns_exactly Sample.plainHost
                           (Sample.serving [Sample.bar_AAPL_full]) Sample.AAPL Sample.agent))).
    exists (Polygon.mkAggs (Some [Sample.bar_AAPL_full])), Sample.bar_AAPL_full.
    split; [reflexivity |]. split; [reflexivity |]. repeat split; discriminate.
  - destruct (Index.getStockPrice_handler Sample.plainHost (Sample.serving [Sample.bar_AAPL])
                Sample.AAPL Sample.agent) as [ev [env | e]] eqn:Hrun;
      [vm_compute in Hrun; discriminate |].
    exists ev, e. split; [reflexivity |].
    exact (proj2 (proj2 (Index_price_returns_exactly Sample.plainHost
                           (Sample.serving [Sample.bar_AAPL]) Sample.AAPL Sample.agent))
             (Polygon.mkAggs (Some [Sample.bar_AAPL])) Sample.bar_AAPL ev e
             eq_refl eq_refl Hrun).
Defined.

(** ** The chart of the price tool *)

Lemma last_map_rev {A B : Type} (f : A -> B) x xs d :
  last (map f (rev (x :: xs))) d = f x.
Proof.
  cbn [rev]. rewrite map_app. cbn [map]. apply last_last.
Qed.

(** In an envelope of the price handler of [index.ts], the series of the
    chart has one point per bar of the answer, in the reverse of the order of
    the answer (the oldest first when the provider sorts the latest first),
    and the price of its last point is the [price] of [data]. *)
Theorem price_chart_is_chronological host polygon input agent ev env :
  Index.getStockPrice_handler host polygon input agent = (ev, Returns env) ->
  exists aggs bars changePercent,
    Polygon.aggregates polygon (Index.priceRequest host (input_ticker input)) =
      Polygon.Resolves aggs /\
    Polygon.results aggs = Some bars /\
    let chartData := Index.chartData host (input_ticker input) aggs changePercent in
    child 0 (ui env) = mkNode "chart" (JSON_stringify chartData) NoChildren /\
    map (get "price") (elements (get "data" chartData)) =
      map (fun bar => optNum (Polygon.c bar)) (rev bars) /\
    map (get "time") (elements (get "data" chartData)) =
      map (fun bar => JStr (toLocaleDateString host (optNum (Polygon.t bar)))) (rev bars) /\
    get "price" (last (elements (get "data" chartData)) JUndefined) = get "price" (data env).
Proof.
  intros H. apply Index_price_returns in H.
  destruct H as (aggs & bar & op & cl & hi & lo & vol & vwap & Hcall & Hfirst & Hbar & H).
  cbv zeta in H. destruct H as (_ & Hdata & Hui).
  destruct (Polygon.results aggs) as [[| latest rest] |] eqn:Hresults;
    cbn [first] in Hfirst; try discriminate.
  inversion Hfirst; subst latest.
  exists aggs, (bar :: rest), (Index.changePercent host bar).
  split; [exact Hcall |]. split; [exact Hresults |].
  cbv zeta. split; [rewrite Hui; reflexivity |].
  unfold Index.chartData. rewrite Hresults.
  cbn [get getProp String.eqb Ascii.eqb Bool.eqb elements nullish].
  split; [rewrite map_map; reflexivity |].
  split; [rewrite map_map; reflexivity |].
  rewrite last_map_rev, Hdata, Hbar. reflexivity.
Qed.

(** The statement above at three bars. *)
Lemma price_chart_is_chronological_witness :
  exists ev env,
    Index.getStockPrice_handler Sample.plainHost (Sample.serving Sample2.threeBars)
      Sample.AAPL Sample.agent = (ev, Returns env) /\
    map (get "price") (elements (get "data" (uiData (child 0 (ui env))))) =
      [JNum (ofZ 95); JNum (ofZ 105); JNum (parseFloat "157.5")] /\
    get "price" (data env) = JNum (parseFloat "157.5").
Proof.
  destruct (Index.getStockPrice_handler Sample.plainHost (Sample.serving Sample2.threeBars)
              Sample.AAPL Sample.agent) as [ev [env | e]] eqn:Hrun;
    [| vm_compute in Hrun; discriminate].
  exists ev, env. split; [reflexivity |].
  destruct (price_chart_is_chronological _ _ _ _ _ _ Hrun)
    as (aggs & bars & cp & Hcall & Hresults & Hchild & Hprices & _ & Hlast).
  vm_compute in Hrun. inversion Hrun; subst. split; vm_compute; reflexivity.
Defined.

(** ** The price tool of [part_001] *)

(** The price handler of [part_001] returns an envelope exactly when the
    previous close resolves with a first bar and the history request
    resolves: no missing field of the bar makes it throw.  In the envelope
    every entry of [data] is a number, a missing price, high, low or volume
    counting as 0, and the only child of the root is the chart. *)
Theorem Part001_price_returns_exactly host polygon input agent :
  ((exists ev env,
      Part001.getStockPrice_handler host polygon input agent = (ev, Returns env)) <->
   (exists prevClose bar aggs,
      Polygon.previousClose polygon (input_ticker input) = Polygon.Resolves prevClose /\
      first (Polygon.results prevClose) = Some bar /\
      Polygon.aggregates polygon (Part001.priceRequest host (input_ticker input)) =
        Polygon.Resolves aggs)) /\
  (forall ev env,
     Part001.getStockPrice_handler host polygon input agent = (ev, Returns env) ->
     exists prevClose bar,
       Polygon.previousClose polygon (input_ticker input) = Polygon.Resolves prevClose /\
       first (Polygon.results prevClose) = Some bar /\
       requests ev =
         [Polygon.stocks_previousClose (input_ticker input);
          Polygon.stocks_aggregates (Part001.priceRequest host (input_ticker input))] /\
       get "price" (data env) = JNum (nullish (Polygon.c bar) (ofZ 0)) /\
       get "high" (data env) = JNum (nullish (Polygon.h bar) (ofZ 0)) /\
       get "low" (data env) = JNum (nullish (Polygon.l bar) (ofZ 0)) /\
       get "volume" (data env) = JNum (nullish (Polygon.v bar) (ofZ 0)) /\
       get "change" (data env) = JNum (Part001.change bar) /\
       get "changePercent" (data env) = JNum (parseFloat (Part001.changePercent host bar)) /\
       map type (childNodes (ui env)) = ["chart"]).
Proof.
  assert (Hrun : forall ev env,
            Part001.getStockPrice_handler host polygon input agent = (ev, Returns env) ->
            exists prevClose bar aggs,
              Polygon.previousClose polygon (input_ticker input) = Polygon.Resolves prevClose /\
              first (Polygon.results prevClose) = Some bar /\
              Polygon.aggregates polygon (Part001.priceRequest host (input_ticker input)) =
                Polygon.Resolves aggs /\
              Part001.getStockPrice_handler host polygon input agent =
                ([console_log_line
                    ("User / Agent " ++ AgentInfo.id agent ++ " requested price for "
                       ++ input_ticker input);
                  Called (Polygon.stocks_previousClose (input_ticker input));
                  Called (Polygon.stocks_aggregates
                            (Part001.priceRequest host (input_ticker input)))],
                 Returns env) /\
              data env =
                JObj [("price", JNum (nullish (Polygon.c bar) (ofZ 0)));
                      ("high", JNum (nullish (Polygon.h bar) (ofZ 0)));
                      ("low", JNum (nullish (Polygon.l bar) (ofZ 0)));
                      ("volume", JNum (nullish (Polygon.v bar) (ofZ 0)));
                      ("change", JNum (Part001.change bar));
                      ("changePercent", JNum (parseFloat (Part001.changePercent host bar)))] /\
              map type (childNodes (ui env)) = ["chart"]).
  { intros ev env. unfold Part001.getStockPrice_handler. cbv zeta.
    destruct (Polygon.previousClose polygon _) as [prevClose | reason]; run_handler;
      [| discriminate].
    destruct (Polygon.results prevClose) as [[| bar bars] |] eqn:Hresults; run_handler;
      try discriminate.
    - destruct (Polygon.aggregates polygon _); run_handler; discriminate.
    - destruct (Polygon.aggregates polygon _) as [aggs | reason]; run_handler;
        [| discriminate].
      intros H. inversion H; subst.
      exists prevClose, bar, aggs. rewrite Hresults. repeat split. }
  split; [split |].
  - intros (ev & env & H). destruct (Hrun ev env H) as (p & bar & aggs & Hp & Hb & Ha & _).
    exists p, bar, aggs. auto.
  - intros (prevClose & bar & aggs & Hp & Hb & Ha).
    unfold Part001.getStockPrice_handler. cbv zeta. rewrite Hp, Ha. run_handler.
    destruct (Polygon.results prevClose) as [[| bar' bars] |]; cbn [first] in Hb;
      try discriminate.
    run_handler. eexists _, _. reflexivity.
  - intros ev env H.
    destruct (Hrun ev env H) as (p & bar & aggs & Hp & Hb & Ha & Hfull & Hdata & Hkinds).
    exists p, bar. rewrite Hfull in H. inversion H; subst ev.
    rewrite Hdata. repeat split; assumption.
Qed.

(** The statement above at a bar that has a close price only. *)
Lemma Part001_price_returns_exactly_witness :
  exists ev env,
    Part001.getStockPrice_handler Sample.plainHost (Sample.serving [Sample2.bar_close_only])
      Sample.AAPL Sample.agent = (ev, Returns env) /\
    get "price" (data env) = JNum (ofZ 5) /\
    get "volume" (data env) = JNum (ofZ 0) /\
    text env = "AAPL is trading at $5.00. Today's change: NaN%".
Proof.
  destruct (Part001.getStockPrice_handler Sample.plainHost
              (Sample.serving [Sample2.bar_close_only]) Sample.AAPL Sample.agent)
    as [ev [env | e]] eqn:Hrun; [| vm_compute in Hrun; discriminate].
  exists ev, env. split; [reflexivity |].
  destruct (proj2 (Part001_price_returns_exactly Sample.plainHost
                     (Sample.serving [Sample2.bar_close_only]) Sample.AAPL Sample.agent)
              ev env Hrun)
    as (p & bar & Hp & Hb & _ & Hprice & _ & _ & Hvolume & _).
  vm_compute in Hp. inversion Hp; subst p.
  vm_compute in Hb. inversion Hb; subst bar.
  split; [rewrite Hprice; vm_compute; reflexivity |].
  split; [rewrite Hvolume; vm_compute; reflexivity |].
  vm_compute in Hrun. inversion Hrun. reflexivity.
Defined.

(** ** Tables made from the records of the provider *)

(** A mapped [results] returns exactly when it is there and the callback
    returns on every record; the values come in the order of the records. *)
Lemma results_map_Returns {A B : Type} (xs : option (list A)) (f : A -> Async B) ev ys :
  results_map xs f = (ev, Returns ys) ->
  exists items,
    xs = Some items /\ Forall2 (fun x y => exists ev', f x = (ev', Returns y)) items ys.
Proof.
  destruct xs as [items |]; [| discriminate].
  intros H. exists items. split; [reflexivity |].
  revert ev ys H. unfold results_map.
  induction items as [| x items IH]; intros ev ys H; cbn [fold_right] in H.
  - inversion H. constructor.
  - run_returns H. inversion H; subst. constructor.
    + eexists. eassumption.
    + eapply IH. eassumption.
Qed.

Lemma results_map_pure {A B : Type} (items : list A) (f : A -> Async B) (g : A -> B) :
  Forall (fun x => f x = ([], Returns (g x))) items ->
  results_map (Some items) f = ([], Returns (map g items)).
Proof.
  unfold results_map. induction 1 as [| x items Hx _ IH]; [reflexivity |].
  cbn [fold_right map]. rewrite Hx, IH. reflexivity.
Qed.

(** A mapped [results] throws when it is missing (a TypeError) or when the
    callback throws on a record. *)
Lemma results_map_Throws {A B : Type} (xs : option (list A)) (f : A -> Async B) ev e :
  results_map xs f = (ev, Throws e) ->
  (xs = None /\ e = TypeError_undefined "map") \/
  (exists items x ev', xs = Some items /\ In x items /\ f x = (ev', Throws e)).
Proof.
  destruct xs as [items |]; [| intros H; left; inversion H; split; reflexivity].
  intros H. right. exists items.
  revert ev H. unfold results_map.
  induction items as [| x items IH]; intros ev H; cbn [fold_right] in H.
  - discriminate.
  - destruct (f x) as [ev1 [y | e1]] eqn:Hx; cbn [bind] in H.
    + destruct (fold_right _ _ items) as [ev2 [ys | e2]] eqn:Hrest; cbn [bind ret] in H;
        [discriminate |].
      inversion H; subst.
      destruct (IH _ eq_refl) as (x' & ev' & _ & Hin & Hx').
      exists x', ev'. split; [reflexivity |]. split; [right; exact Hin | exact Hx'].
    + inversion H; subst. exists x, ev. split; [reflexivity |].
      split; [left; reflexivity | exact Hx].
Qed.

(** The news handler returns exactly when its request resolves with a list
    of articles that all have a publisher.  When the request resolves and
    the handler throws, because [results] is missing or because an article
    has no publisher, the fault is a TypeError. *)
Theorem news_returns_exactly host polygon input agent :
  ((exists ev env,
      Index.getStockNews_handler host polygon input agent = (ev, Returns env)) <->
   (exists items,
      Polygon.tickerNews polygon
        (Polygon.mkLimitQuery (limit_ticker input) (nullish (input_limit input) (ofZ 5))) =
        Polygon.Resolves (Polygon.mkNews (Some items)) /\
      Forall (fun item => Polygon.publisher item <> None) items)) /\
  (forall body ev e,
     Polygon.tickerNews polygon
       (Polygon.mkLimitQuery (limit_ticker input) (nullish (input_limit input) (ofZ 5))) =
       Polygon.Resolves body ->
     Index.getStockNews_handler host polygon input agent = (ev, Throws e) ->
     error_name e = "TypeError").
Proof.
  unfold Index.getStockNews_handler. cbv zeta. split; [split |].
  3: {
    intros body ev e Hcall H. rewrite Hcall in H. cbn [bind console_log await] in H.
    destruct (results_map (Polygon.news_results body) Index.article)
      as [evm [articles | e0]] eqn:Hmap; cbn [bind ret] in H; [discriminate |].
    inversion H; subst e0.
    apply results_map_Throws in Hmap.
    destruct Hmap as [(_ & ->) | (items & item & ev' & _ & _ & Hitem)]; [reflexivity |].
    unfold Index.article in Hitem.
    destruct (Polygon.publisher item); inversion Hitem; reflexivity.
  }
  - intros (ev & env & H). run_returns H.
    match goal with
    | Hmap : results_map _ _ = _ |- _ =>
        apply results_map_Returns in Hmap; destruct Hmap as (items & Hitems & Hall)
    end.
    exists items. split.
    + match goal with Hcall : Polygon.tickerNews _ _ = Polygon.Resolves ?r |- _ =>
        rewrite Hcall; destruct r as [rs]; cbn [Polygon.news_results] in Hitems; subst rs
      end.
      reflexivity.
    + clear - Hall. induction Hall as [| item a items articles (ev' & Ha) _ IH];
        constructor; [| exact IH].
      unfold Index.article in Ha. destruct (Polygon.publisher item); discriminate.
  - intros (items & Hcall & Hall). rewrite Hcall. run_handler.
    cbn [Polygon.news_results].
    rewrite (results_map_pure items Index.article
               (fun item =>
                  [("title", optStr (Polygon.title item));
                   ("publisher",
                     optStr (match Polygon.publisher item with
                             | Some p => Polygon.publisher_name p
                             | None => None
                             end));
                   ("timestamp", optStr (Polygon.published_utc item));
                   ("url", optStr (Polygon.article_url item))])).
    + run_handler. eexists _, _. reflexivity.
    + clear - Hall. induction Hall as [| item items Hitem _ IH]; constructor; [| exact IH].
      unfold Index.article. destruct (Polygon.publisher item); [reflexivity | contradiction].
Qed.

(** The statement above on an article with a publisher followed by one
    without: the handler throws. *)
Lemma news_returns_exactly_witness :
  exists ev e,
    Index.getStockNews_handler Sample.plainHost
      (Sample2.withNews (Some [Sample2.article1; Sample2.article_no_publisher]))
      Sample2.news_AAPL Sample.agent = (ev, Throws e) /\
    error_name e = "TypeError".
Proof.
  destruct (Index.getStockNews_handler Sample.plainHost
              (Sample2.withNews (Some [Sample2.article1; Sample2.article_no_publisher]))
              Sample2.news_AAPL Sample.agent) as [ev [env | e]] eqn:Hrun.
  - exfalso.
    destruct (proj1 (proj1 (news_returns_exactly Sample.plainHost
                              (Sample2.withNews
                                 (Some [Sample2.article1; Sample2.article_no_publisher]))
                              Sample2.news_AAPL Sample.agent))
                (ex_intro _ ev (ex_intro _ env Hrun))) as (items & Hcall & Hall).
    vm_compute in Hcall. inversion Hcall; subst items.
    inversion Hall as [| ? ? _ Hrest]. inversion Hrest as [| ? ? Hpublisher _].
    apply Hpublisher. reflexivity.
  - exists ev, e. split; [reflexivity |].
    exact (proj2 (news_returns_exactly Sample.plainHost
                    (Sample2.withNews
                       (Some [Sample2.article1; Sample2.article_no_publisher]))
                    Sample2.news_AAPL Sample.agent)
             (Polygon.mkNews (Some [Sample2.article1; Sample2.article_no_publisher]))
             ev e eq_refl Hrun).
Defined.

(** In an envelope of the news handler the text counts the articles, and
    [data.articles] and the rows of the table follow the articles of the
    answer one for one, in their order: an entry holds the title, the name of
    the publisher, the time stamp and the address of its article; a row
    holds the title, the date of the time stamp as the host prints it, and a
    link named [Read More] to the address, without an address when the
    article has none.  The columns are Source, Title, Link and Published. *)
Theorem news_table_follows_articles host polygon input agent ev env :
  Index.getStockNews_handler host polygon input agent = (ev, Returns env) ->
  exists items,
    Polygon.tickerNews polygon
      (Polygon.mkLimitQuery (limit_ticker input) (nullish (input_limit input) (ofZ 5))) =
      Polygon.Resolves (Polygon.mkNews (Some items)) /\
    text env =
      "Found " ++ decimal (Z.of_nat (List.length items)) ++ " news articles for "
        ++ limit_ticker input /\
    Forall2
      (fun item entry =>
         get "title" entry = optStr (Polygon.title item) /\
         get "timestamp" entry = optStr (Polygon.published_utc item) /\
         get "url" entry = optStr (Polygon.article_url item) /\
         exists p,
           Polygon.publisher item = Some p /\
           get "publisher" entry = optStr (Polygon.publisher_name p))
      items (elements (get "articles" (data env))) /\
    type (ui env) = "table" /\
    map (get "header") (elements (get "columns" (uiData (ui env)))) =
      [JStr "Source"; JStr "Title"; JStr "Link"; JStr "Published"] /\
    Forall2
      (fun item row =>
         get "title" row = optStr (Polygon.title item) /\
         get "timestamp" row =
           JStr (toLocaleDateString host (optStr (Polygon.published_utc item))) /\
         get "text" (get "url" row) = JStr "Read More" /\
         get "url" (get "url" row) = optStr (Polygon.article_url item))
      items (elements (get "rows" (uiData (ui env)))).
Proof.
  unfold Index.getStockNews_handler. cbv zeta. intros H. run_returns H.
  match goal with
  | Hmap : results_map _ _ = _ |- _ =>
      apply results_map_Returns in Hmap; destruct Hmap as (items & Hitems & Hall)
  end.
  match goal with Hcall : Polygon.tickerNews _ _ = Polygon.Resolves ?r |- _ =>
    destruct r as [rs]; cbn [Polygon.news_results] in Hitems; subst rs;
    rename Hcall into Hnews
  end.
  inversion H; subst; clear H.
  exists items. split; [exact Hnews |].
  cbn [text data ui type uiData].
  split; [rewrite (Forall2_length Hall); reflexivity |].
  split; [| split; [reflexivity | split; [reflexivity |]]].
  - cbn [get getProp String.eqb Ascii.eqb Bool.eqb elements].
    clear - Hall. induction Hall as [| item a items articles (ev' & Ha) _ IH];
      cbn [map]; constructor; [| exact IH].
    unfold Index.article in Ha. destruct (Polygon.publisher item) as [p |]; [| discriminate].
    inversion Ha; subst. repeat split. exists p. split; reflexivity.
  - cbn [get getProp String.eqb Ascii.eqb Bool.eqb elements].
    clear - Hall. induction Hall as [| item a items articles (ev' & Ha) _ IH];
      cbn [map]; constructor; [| exact IH].
    unfold Index.article in Ha. destruct (Polygon.publisher item) as [p |]; [| discriminate].
    inversion Ha; subst.
    destruct (Polygon.title item), (Polygon.publisher_name p), (Polygon.article_url item);
      repeat split.
Qed.

(** The statement above at one article. *)
Lemma news_table_follows_articles_witness :
  exists ev env,
    Index.getStockNews_handler Sample.plainHost (Sample2.withNews (Some [Sample2.article1]))
      Sample2.news_AAPL Sample.agent = (ev, Returns env) /\
    text env = "Found 1 news articles for AAPL" /\
    List.length (elements (get "rows" (uiData (ui env)))) = 1%nat.
Proof.
  destruct (Index.getStockNews_handler Sample.plainHost
              (Sample2.withNews (Some [Sample2.article1])) Sample2.news_AAPL Sample.agent)
    as [ev [env | e]] eqn:Hrun; [| vm_compute in Hrun; discriminate].
  exists ev, env. split; [reflexivity |].
  destruct (news_table_follows_articles _ _ _ _ _ _ Hrun)
    as (items & Hcall & Htext & _ & _ & _ & Hrows).
  vm_compute in Hcall. inversion Hcall; subst items.
  split; [rewrite Htext; reflexivity |].
  symmetry. exact (Forall2_length Hrows).
Defined.

(** The dividends handler returns exactly when its request resolves with
    records that all have a cash amount.  Its envelope then counts the
    records in the text, hands them out unchanged as [data], and has one row
    per record, in their order, with the two dates as the host prints them
    and the amount as a dollar sign and two decimals. *)
Theorem dividends_table_follows_records host polygon input agent :
  let q := Polygon.mkLimitQuery (limit_ticker input) (nullish (input_limit input) (ofZ 10)) in
  ((exists ev env,
      Index.getStockDividends_handler host polygon input agent = (ev, Returns env)) <->
   (exists records,
      Polygon.dividends polygon q = Polygon.Resolves (Polygon.mkDividends (Some records)) /\
      Forall (fun d => Polygon.cash_amount d <> None) records)) /\
  (forall ev env,
     Index.getStockDividends_handler host polygon input agent = (ev, Returns env) ->
     exists records,
       Polygon.dividends polygon q = Polygon.Resolves (Polygon.mkDividends (Some records)) /\
       text env =
         "Retrieved last " ++ decimal (Z.of_nat (List.length records))
           ++ " dividend records for " ++ limit_ticker input /\
       data env = JArr (map Index.dividendJs records) /\
       type (ui env) = "table" /\
       map (get "header") (elements (get "columns" (uiData (ui env)))) =
         [JStr "Ex-Dividend Date"; JStr "Amount"; JStr "Pay Date"] /\
       Forall2
         (fun d row =>
            get "date" row =
              JStr (toLocaleDateString host (optStr (Polygon.ex_dividend_date d))) /\
            get "payDate" row = JStr (toLocaleDateString host (optStr (Polygon.pay_date d))) /\
            exists amount,
              Polygon.cash_amount d = Some amount /\
              get "amount" row = JStr ("$" ++ toFixed host 2 amount))
         records (elements (get "rows" (uiData (ui env))))).
Proof.
  intros q. subst q. unfold Index.getStockDividends_handler. cbv zeta. split; [split |].
  - intros (ev & env & H). run_returns H.
    match goal with
    | Hmap : results_map _ _ = _ |- _ =>
        apply results_map_Returns in Hmap; destruct Hmap as (records & Hrecords & Hall)
    end.
    exists records. split.
    + match goal with Hcall : Polygon.dividends _ _ = Polygon.Resolves ?r |- _ =>
        rewrite Hcall; destruct r as [rs]; cbn [Polygon.dividends_results] in Hrecords; subst rs
      end.
      reflexivity.
    + clear - Hall. induction Hall as [| d row records rows (ev' & Hrow) _ IH];
        constructor; [| exact IH].
      unfold Index.dividendRow in Hrow. destruct (Polygon.cash_amount d); discriminate.
  - intros (records & Hcall & Hall). rewrite Hcall. run_handler.
    cbn [Polygon.dividends_results].
    rewrite (results_map_pure records (Index.dividendRow host)
               (fun d =>
                  JObj [("date",
                          JStr (toLocaleDateString host (optStr (Polygon.ex_dividend_date d))));
                        ("amount",
                          JStr ("$" ++ toFixed host 2 (toNumber (Polygon.cash_amount d))));
                        ("payDate",
                          JStr (toLocaleDateString host (optStr (Polygon.pay_date d))))])).
    + run_handler. eexists _, _. reflexivity.
    + clear - Hall. induction Hall as [| d records Hd _ IH]; constructor; [| exact IH].
      unfold Index.dividendRow. destruct (Polygon.cash_amount d); [reflexivity | contradiction].
  - intros ev env H. run_returns H.
    match goal with
    | Hmap : results_map _ _ = _ |- _ =>
        apply results_map_Returns in Hmap; destruct Hmap as (records & Hrecords & Hall)
    end.
    match goal with Hcall : Polygon.dividends _ _ = Polygon.Resolves ?r |- _ =>
      destruct r as [rs]; cbn [Polygon.dividends_results] in Hrecords; subst rs;
      rename Hcall into Hdividends
    end.
    inversion H; subst; clear H.
    exists records. split; [exact Hdividends |].
    cbn [text data ui type uiData Polygon.dividends_results nullish].
    split; [rewrite (Forall2_length Hall); reflexivity |].
    split; [reflexivity |]. split; [reflexivity |]. split; [reflexivity |].
    cbn [get getProp String.eqb Ascii.eqb Bool.eqb elements].
    clear - Hall. induction Hall as [| d row records rows (ev' & Hrow) _ IH];
      cbn [map]; constructor; [| exact IH].
    unfold Index.dividendRow in Hrow.
    destruct (Polygon.cash_amount d) as [amount |]; [| discriminate].
    inversion Hrow; subst. repeat split. exists amount. split; reflexivity.
Qed.

(** The statement above at one dividend of a quarter of a dollar. *)
Lemma dividends_table_follows_records_witness :
  exists ev env,
    Index.getStockDividends_handler Sample.plainHost
      (Sample2.withDividends (Some [Sample2.dividend1])) Sample2.news_AAPL Sample.agent =
      (ev, Returns env) /\
    text env = "Retrieved last 1 dividend records for AAPL" /\
    map (get "amount") (elements (get "rows" (uiData (ui env)))) = [JStr "$0.25"].
Proof.
  destruct (Index.getStockDividends_handler Sample.plainHost
              (Sample2.withDividends (Some [Sample2.dividend1])) Sample2.news_AAPL Sample.agent)
    as [ev [env | e]] eqn:Hrun; [| vm_compute in Hrun; discriminate].
  exists ev, env. split; [reflexivity |].
  destruct (proj2 (dividends_table_follows_records Sample.plainHost
                     (Sample2.withDividends (Some [Sample2.dividend1])) Sample2.news_AAPL
                     Sample.agent) ev env Hrun)
    as (records & Hcall & Htext & _).
  vm_compute in Hcall. inversion Hcall; subst records.
  split; [rewrite Htext; reflexivity |].
  vm_compute in Hrun. inversion Hrun. reflexivity.
Defined.

(** The splits handler returns exactly when its request resolves with a
    [results] list: no record makes it throw.  Its envelope counts the
    records, hands them out unchanged as [data], and has one row per record,
    in their order, whose ratio is [split_to], a colon and [split_from], each
    as a template literal prints it ([undefined] when missing). *)
Theorem splits_table_follows_records host polygon input agent :
  let q := Polygon.mkLimitQuery (limit_ticker input) (nullish (input_limit input) (ofZ 5)) in
  ((exists ev env,
      Index.getStockSplits_handler host polygon input agent = (ev, Returns env)) <->
   (exists records,
      Polygon.stockSplits polygon q = Polygon.Resolves (Polygon.mkSplits (Some records)))) /\
  (forall ev env,
     Index.getStockSplits_handler host polygon input agent = (ev, Returns env) ->
     exists records,
       Polygon.stockSplits polygon q = Polygon.Resolves (Polygon.mkSplits (Some records)) /\
       text env =
         "Retrieved last " ++ decimal (Z.of_nat (List.length records))
           ++ " stock splits for " ++ limit_ticker input /\
       data env = JArr (map Index.splitJs records) /\
       type (ui env) = "table" /\
       Forall2
         (fun s row =>
            get "date" row =
              JStr (toLocaleDateString host (optStr (Polygon.execution_date s))) /\
            get "ratio" row =
              JStr (interpolate host (Polygon.split_to s) ++ ":"
                      ++ interpolate host (Polygon.split_from s)))
         records (elements (get "rows" (uiData (ui env))))).
Proof.
  intros q. subst q. unfold Index.getStockSplits_handler. cbv zeta.
  assert (Hpure : forall records,
            results_map (Some records) (Index.splitRow host) =
              ([], Returns (map (fun s =>
                                   JObj [("date",
                                           JStr (toLocaleDateString host
                                                   (optStr (Polygon.execution_date s))));
                                         ("ratio",
                                           JStr (interpolate host (Polygon.split_to s) ++ ":"
                                                   ++ interpolate host (Polygon.split_from s)))])
                              records))).
  { intros records. apply results_map_pure. apply Forall_forall. reflexivity. }
  split; [split |].
  - intros (ev & env & H). run_returns H.
    match goal with
    | Hmap : results_map _ _ = _ |- _ =>
        apply results_map_Returns in Hmap; destruct Hmap as (records & Hrecords & _)
    end.
    exists records.
    match goal with Hcall : Polygon.stockSplits _ _ = Polygon.Resolves ?r |- _ =>
      rewrite Hcall; destruct r as [rs]; cbn [Polygon.splits_results] in Hrecords; subst rs
    end.
    reflexivity.
  - intros (records & Hcall). rewrite Hcall. run_handler.
    cbn [Polygon.splits_results]. rewrite Hpure. run_handler. eexists _, _. reflexivity.
  - intros ev env H. run_returns H.
    match goal with Hcall : Polygon.stockSplits _ _ = Polygon.Resolves ?r |- _ =>
      destruct r as [[records |]]; cbn [Polygon.splits_results] in *;
      rename Hcall into Hsplits
    end.
    + match goal with
      | Hmap : results_map _ _ = _ |- _ => rewrite Hpure in Hmap; inversion Hmap; subst
      end.
      inversion H; subst; clear H.
      exists records. split; [exact Hsplits |].
      cbn [text data ui type uiData Polygon.splits_results nullish].
      split; [rewrite length_map; reflexivity |].
      split; [reflexivity |]. split; [reflexivity |].
      cbn [get getProp String.eqb Ascii.eqb Bool.eqb elements].
      clear. induction records as [| s records IH]; cbn [map]; constructor; [| exact IH].
      split; reflexivity.
    + match goal with
      | Hmap : results_map None _ = _ |- _ => discriminate Hmap
      end.
Qed.

(** The statement above at a split of four for one and a record with no
    ratio. *)
Lemma splits_table_follows_records_witness :
  exists ev env,
    Index.getStockSplits_handler Sample2.wholeHost
      (Sample2.withSplits (Some [Sample2.split1; Sample2.split_empty])) Sample2.news_AAPL
      Sample.agent = (ev, Returns env) /\
    text env = "Retrieved last 2 stock splits for AAPL" /\
    map (get "ratio") (elements (get "rows" (uiData (ui env)))) =
      [JStr "4:1"; JStr "undefined:undefined"].
Proof.
  destruct (Index.getStockSplits_handler Sample2.wholeHost
              (Sample2.withSplits (Some [Sample2.split1; Sample2.split_empty]))
              Sample2.news_AAPL Sample.agent)
    as [ev [env | e]] eqn:Hrun; [| vm_compute in Hrun; discriminate].
  exists ev, env. split; [reflexivity |].
  destruct (proj2 (splits_table_follows_records Sample2.wholeHost
                     (Sample2.withSplits (Some [Sample2.split1; Sample2.split_empty]))
                     Sample2.news_AAPL Sample.agent) ev env Hrun)
    as (records & Hcall & Htext & _).
  vm_compute in Hcall. inversion Hcall; subst records.
  split; [rewrite Htext; reflexivity |].
  vm_compute in Hrun. inversion Hrun. reflexivity.
Defined.

(** ** The market overview: rejected lookups and the history chart *)

(** A rejection that [Promise.all] reports is the rejection of one of its
    tasks, and it reports one as soon as a task rejects. *)
Lemma first_rejection_In {A : Type} time (tasks : list (Async A)) t e :
  first_rejection time tasks = Some (t, e) -> exists ev, In (ev, Throws e) tasks.
Proof.
  revert t e. induction tasks as [| [ev [a | e0]] rest IH]; intros t e H;
    cbn [first_rejection] in H.
  - discriminate.
  - destruct (IH _ _ H) as (ev' & Hin). exists ev'. right. exact Hin.
  - destruct (first_rejection time rest) as [[t' e'] |].
    + destruct (Nat.ltb t' (settles time ev)); inversion H; subst.
      * destruct (IH _ _ eq_refl) as (ev' & Hin). exists ev'. right. exact Hin.
      * exists ev. left. reflexivity.
    + inversion H; subst. exists ev. left. reflexivity.
Qed.

Lemma first_rejection_None {A : Type} time (tasks : list (Async A)) ev e :
  first_rejection time tasks = None -> ~ In (ev, Throws e) tasks.
Proof.
  induction tasks as [| [ev0 [a | e0]] rest IH]; intros H Hin;
    cbn [first_rejection] in H.
  - destruct Hin.
  - destruct Hin as [Heq | Hin]; [discriminate Heq | exact (IH H Hin)].
  - destruct (first_rejection time rest) as [[t' e'] |];
      [destruct (Nat.ltb t' (settles time ev0)) |]; discriminate.
Qed.

(** No task rejects before the rejection that is reported. *)
Lemma first_rejection_earliest {A : Type} time (tasks : list (Async A)) t e :
  first_rejection time tasks = Some (t, e) ->
  forall ev' e', In (ev', Throws e') tasks -> (t <= settles time ev')%nat.
Proof.
  revert t e. induction tasks as [| [ev [a | e0]] rest IH]; intros t e H ev' e' Hin;
    cbn [first_rejection] in H.
  - destruct Hin.
  - destruct Hin as [Heq | Hin]; [discriminate Heq | exact (IH _ _ H _ _ Hin)].
  - destruct (first_rejection time rest) as [[t1 e1] |] eqn:Hrest.
    + destruct (Nat.ltb_spec t1 (settles time ev)) as [Hlt | Hge];
        inversion H; subst; destruct Hin as [Heq | Hin].
      * inversion Heq; subst. lia.
      * exact (IH _ _ eq_refl _ _ Hin).
      * inversion Heq; subst. lia.
      * pose proof (IH _ _ eq_refl _ _ Hin). lia.
    + inversion H; subst. destruct Hin as [Heq | Hin].
      * inversion Heq; subst. lia.
      * exfalso. exact (first_rejection_None _ _ _ _ Hrest Hin).
Qed.

Lemma Promise_all_rejected {A : Type} time (tasks : list (Async A)) ev e :
  In (ev, Throws e) tasks ->
  exists ev' e',
    In (ev', Throws e') tasks /\
    Promise_all time tasks = (concat (map fst tasks), Throws e').
Proof.
  intros Hin. unfold Promise_all.
  destruct (first_rejection time tasks) as [[t e'] |] eqn:Hfirst.
  - destruct (first_rejection_In _ _ _ _ Hfirst) as (ev' & Hin').
    exists ev', e'. split; [exact Hin' | reflexivity].
  - exfalso. exact (first_rejection_None _ _ _ _ Hfirst Hin).
Qed.

(** When the previous close of one of the four indices is rejected, both
    widgets answer with their failure envelope.  All four lookups have gone
    out, nothing is requested after them (in [index.ts], no price history),
    and the fault written to the console is the rejection of one of the
    lookups. *)
Theorem overview_rejected_lookup host polygon ticker reason :
  In ticker (map fst indices) ->
  Polygon.previousClose polygon ticker = Polygon.Rejects reason ->
  exists ticker' fault,
    In ticker' (map fst indices) /\
    Polygon.previousClose polygon ticker' = Polygon.Rejects fault /\
    Index.getMarketOverview_getWidget host polygon =
      ((map (fun index => Called (Polygon.stocks_previousClose (fst index))) indices
          ++ [console_error_line "Error fetching market overview:" fault])%list,
       Returns Index.overviewFailure) /\
    Part000.getMarketOverview_getWidget host polygon =
      ((map (fun index => Called (Polygon.stocks_previousClose (fst index))) indices
          ++ [console_error_line "Error fetching market overview:" fault])%list,
       Returns Part000.overviewFailure).
Proof.
  intros Hin Hrejected.
  assert (Htask : forall index,
            Index.indexResult host polygon index =
              ([Called (Polygon.stocks_previousClose (fst index))],
               match Polygon.previousClose polygon (fst index) with
               | Polygon.Resolves prevClose => Returns (Index.quote host (snd index) prevClose)
               | Polygon.Rejects fault => Throws fault
               end)).
  { intros [t n]. unfold Index.indexResult. cbn [fst snd].
    destruct (Polygon.previousClose polygon t); reflexivity. }
  assert (Hevents : concat (map fst (map (Index.indexResult host polygon) indices)) =
                      map (fun index => Called (Polygon.stocks_previousClose (fst index)))
                        indices).
  { unfold indices. cbn [map concat]. rewrite !Htask. reflexivity. }
  apply in_map_iff in Hin. destruct Hin as (index & Hticker & Hindex). subst ticker.
  assert (Hthrows : In ([Called (Polygon.stocks_previousClose (fst index))], Throws reason)
                      (map (Index.indexResult host polygon) indices)).
  { apply in_map_iff. exists index. split; [| exact Hindex].
    rewrite Htask, Hrejected. reflexivity. }
  destruct (Promise_all_rejected (settledAt host) _ _ _ Hthrows)
    as (ev' & fault & Hfirst & Hall).
  rewrite Hevents in Hall.
  apply in_map_iff in Hfirst. destruct Hfirst as (index' & Hrun & Hindex').
  rewrite Htask in Hrun.
  exists (fst index'), fault.
  split; [apply in_map; exact Hindex' |].
  split; [destruct (Polygon.previousClose polygon (fst index')); congruence |].
  split.
  - unfold Index.getMarketOverview_getWidget, Index.overviewBody. cbv zeta.
    rewrite Hall. reflexivity.
  - unfold Part000.getMarketOverview_getWidget, Part000.overviewBody. cbv zeta.
    change (Part000.indexResult host polygon) with (Index.indexResult host polygon).
    rewrite Hall. reflexivity.
Qed.

(** The statement above when the NASDAQ lookup times out. *)
Lemma overview_rejected_lookup_witness :
  requests (fst (Index.getMarketOverview_getWidget Sample.plainHost Sample2.rejectingQQQ)) =
    [Polygon.stocks_previousClose "DIA"; Polygon.stocks_previousClose "SPY";
     Polygon.stocks_previousClose "QQQ"; Polygon.stocks_previousClose "IWM"] /\
  snd (Index.getMarketOverview_getWidget Sample.plainHost Sample2.rejectingQQQ) =
    Returns Index.overviewFailure /\
  snd (Part000.getMarketOverview_getWidget Sample.plainHost Sample2.rejectingQQQ) =
    Returns Part000.overviewFailure.
Proof.
  destruct (overview_rejected_lookup Sample.plainHost Sample2.rejectingQQQ "QQQ"
              (mkError "Error" "timeout"))
    as (ticker' & fault & _ & _ & Hindex & Hpart000).
  - cbn. tauto.
  - reflexivity.
  - rewrite Hindex, Hpart000. repeat split; reflexivity.
Defined.

(** When its five requests resolve, the widget of [index.ts] plots the bars
    of the history whose close, rounded to two decimals, is a number other
    than zero, in the order of the provider: a bar with no close, a NaN close
    or a zero close is never plotted.  The chart node is there exactly when
    one bar at least is plotted; otherwise the table is the only child. *)
Theorem overview_chart_presence host polygon (answer : string -> Polygon.Aggs) aggs :
  (forall ticker,
     In ticker (map fst indices) ->
     Polygon.previousClose polygon ticker = Polygon.Resolves (answer ticker)) ->
  Polygon.aggregates polygon (Index.historyRequest host) = Polygon.Resolves aggs ->
  let plotted :=
    filter (fun bar => num_truthy (Index.roundedClose host bar))
      (nullish (Polygon.results aggs) []) in
  exists ev env,
    Index.getMarketOverview_getWidget host polygon = (ev, Returns env) /\
    requests ev =
      (map (fun index => Polygon.stocks_previousClose (fst index)) indices
         ++ [Polygon.stocks_aggregates (Index.historyRequest host)])%list /\
    Forall
      (fun bar =>
         exists close,
           Polygon.c bar = Some close /\ close <> NaN /\ forall s, close <> S754_zero s)
      plotted /\
    match plotted with
    | [] => map type (childNodes (ui env)) = ["table"]
    | _ :: _ =>
        exists table chart,
          childNodes (ui env) = [table; chart] /\
          type table = "table" /\
          type chart = "chart" /\
          map (get "time") (elements (get "data" (uiData chart))) =
            map (fun bar => JStr (toLocaleDateShort host (optNum (Polygon.t bar)))) plotted /\
          map (get "price") (elements (get "data" (uiData chart))) =
            map (fun bar => JSON_stringify (JNum (Index.roundedClose host bar))) plotted /\
          map (get "label") (elements (get "data" (uiData chart))) =
            map (fun bar => JStr ("$" ++ toLocaleString host (Index.roundedClose host bar)))
              plotted
    end.
Proof.
  intros Hcalls Hhistory plotted.
  assert (Hplotted :
            Forall (fun bar =>
                      exists close,
                        Polygon.c bar = Some close /\ close <> NaN /\
                        forall s, close <> S754_zero s) plotted).
  { apply Forall_forall. intros bar Hin. apply filter_In in Hin.
    destruct Hin as [_ Htruthy]. unfold Index.roundedClose in Htruthy.
    destruct (Polygon.c bar) as [[s | s | | s m e] |];
      [vm_compute in Htruthy; discriminate Htruthy
      | | vm_compute in Htruthy; discriminate Htruthy
      | | vm_compute in Htruthy; discriminate Htruthy];
      eexists; (split; [reflexivity |]); split; try intros ?; discriminate. }
  unfold Index.getMarketOverview_getWidget, Index.overviewBody. cbv zeta.
  rewrite (Index_lookups_resolved host polygon answer Hcalls), Hhistory.
  cbn [bind await try_catch].
  set (results := map (fun index => Index.quote host (snd index) (answer (fst index))) indices).
  replace (nth_error results 1)
    with (Some (Index.quote host "S&P 500" (answer "SPY"))) by reflexivity.
  unfold Index.overviewChart, Index.overviewSeries. fold plotted.
  clearbody plotted. destruct plotted as [| bar rest].
  - eexists _, _. split; [reflexivity |]. split; [reflexivity |].
    split; [exact Hplotted |]. reflexivity.
  - rewrite length_map. cbn [List.length]. rewrite Nat2Z.inj_succ.
    destruct (Z.ltb_spec 0 (Z.succ (Z.of_nat (List.length rest)))) as [_ | Hneg]; [| lia].
    eexists _, _. split; [reflexivity |]. split; [reflexivity |].
    split; [exact Hplotted |].
    cbn [ui childNodes children push app]. eexists _, _. split; [reflexivity |].
    split; [reflexivity |]. split; [reflexivity |].
    cbn [uiData JSON_stringify get getProp String.eqb Ascii.eqb Bool.eqb elements].
    rewrite !map_map. repeat split; apply map_ext; intros b; reflexivity.
Qed.

(** The statement above on a history of a bar without a close and a bar
    that closes at 105. *)
Lemma overview_chart_presence_witness :
  exists ev env,
    Index.getMarketOverview_getWidget Sample.plainHost
      (Sample.serving [Sample.bar_empty; Sample.bar_up]) = (ev, Returns env) /\
    map type (childNodes (ui env)) = ["table"; "chart"] /\
    map (get "price") (elements (get "data" (uiData (child 1 (ui env))))) =
      [JNum (parseFloat "105")].
Proof.
  destruct (overview_chart_presence Sample.plainHost
              (Sample.serving [Sample.bar_empty; Sample.bar_up])
              (fun _ => Polygon.mkAggs (Some [Sample.bar_empty; Sample.bar_up]))
              (Polygon.mkAggs (Some [Sample.bar_empty; Sample.bar_up]))
              (fun _ _ => eq_refl) eq_refl)
    as (ev & env & Hrun & _ & _ & Hchart).
  exists ev, env. split; [exact Hrun |].
  vm_compute in Hrun. inversion Hrun. split; reflexivity.
Defined.

(** ** The chart and the details tools *)

(** The chart handler returns exactly when its request resolves with a
    [results] list, and throws a TypeError when the answer has none.  The
    points of its chart follow the bars in the order of the provider (the
    price tool reverses them, this one does not): each has the date of its
    bar as the host prints it and the close of its bar, and [data.results]
    is the list of the bars. *)
Theorem chart_follows_bars host settled input agent :
  ((exists ev env,
      IndexTools.getStockChart_handler host settled input agent = (ev, Returns env)) <->
   (exists bars, settled = Polygon.Resolves (Polygon.mkAggs (Some bars)))) /\
  (forall ev e,
     settled = Polygon.Resolves (Polygon.mkAggs None) ->
     IndexTools.getStockChart_handler host settled input agent = (ev, Throws e) ->
     error_name e = "TypeError") /\
  (forall ev env,
     IndexTools.getStockChart_handler host settled input agent = (ev, Returns env) ->
     exists bars,
       settled = Polygon.Resolves (Polygon.mkAggs (Some bars)) /\
       text env =
         "Retrieved historical data for " ++ IndexTools.chart_ticker input ++ " from "
           ++ IndexTools.chart_from input ++ " to " ++ IndexTools.chart_to input /\
       get "results" (data env) = JArr (map IndexTools.barJs bars) /\
       type (ui env) = "chart" /\
       map (get "date") (elements (get "data" (uiData (ui env)))) =
         map (fun bar => JStr (toLocaleDateString host (optNum (Polygon.t bar)))) bars /\
       map (get "price") (elements (get "data" (uiData (ui env)))) =
         map (fun bar => JSON_stringify (optNum (Polygon.c bar))) bars).
Proof.
  assert (Hpure : forall bars,
            results_map (Some bars) (fun result => ret (IndexTools.chartPoint host result)) =
              ([], Returns (map (IndexTools.chartPoint host) bars))).
  { intros bars. apply results_map_pure. apply Forall_forall. reflexivity. }
  assert (Hrun : forall bars,
            settled = Polygon.Resolves (Polygon.mkAggs (Some bars)) ->
            exists ev,
              IndexTools.getStockChart_handler host settled input agent =
                (ev,
                 Returns
                   (mkEnvelope
                      ("Retrieved historical data for " ++ IndexTools.chart_ticker input
                         ++ " from " ++ IndexTools.chart_from input ++ " to "
                         ++ IndexTools.chart_to input)
                      (JObj [("results", JArr (map IndexTools.barJs bars))])
                      (mkNode "chart"
                         (JSON_stringify
                            (IndexTools.chartData host input
                               (map (IndexTools.chartPoint host) bars)))
                         NoChildren)))).
  { intros bars ->. unfold IndexTools.getStockChart_handler. cbv zeta.
    cbn [bind console_log IndexTools.settle Polygon.results]. rewrite Hpure.
    eexists. reflexivity. }
  split; [split | split].
  - intros (ev & env & H). destruct settled as [[[bars |]] | reason].
    + exists bars. reflexivity.
    + discriminate H.
    + discriminate H.
  - intros (bars & Hsettled). destruct (Hrun bars Hsettled) as (ev & H).
    eexists _, _. exact H.
  - intros ev e -> H. inversion H. reflexivity.
  - intros ev env H. destruct settled as [[[bars |]] | reason]; try discriminate H.
    exists bars. split; [reflexivity |].
    destruct (Hrun bars eq_refl) as (ev' & H'). rewrite H' in H.
    inversion H; subst; clear H H'.
    cbn [text data ui type uiData get getProp String.eqb Ascii.eqb Bool.eqb].
    split; [reflexivity |]. split; [reflexivity |]. split; [reflexivity |].
    unfold IndexTools.chartData.
    cbn [JSON_stringify get getProp String.eqb Ascii.eqb Bool.eqb elements].
    rewrite !map_map. split; apply map_ext; intros bar.
    + reflexivity.
    + unfold IndexTools.chartPoint. destruct (Polygon.c bar); reflexivity.
Qed.

(** The statement above on three bars, the latest first. *)
Lemma chart_follows_bars_witness :
  exists ev env,
    IndexTools.getStockChart_handler Sample2.wholeHost
      (Polygon.Resolves (Polygon.mkAggs (Some Sample2.threeBars))) Sample2.chart_AAPL
      Sample.agent = (ev, Returns env) /\
    text env = "Retrieved historical data for AAPL from 2026-01-01 to 2026-01-31" /\
    map (get "price") (elements (get "data" (uiData (ui env)))) =
      [JNum (parseFloat "157.5"); JNum (parseFloat "105"); JNum (parseFloat "95")] /\
    get "footer" (uiData (ui env)) = JStr "dayly price data with multiplier 1".
Proof.
  destruct (IndexTools.getStockChart_handler Sample2.wholeHost
              (Polygon.Resolves (Polygon.mkAggs (Some Sample2.threeBars))) Sample2.chart_AAPL
              Sample.agent) as [ev [env | e]] eqn:Hrun; [| vm_compute in Hrun; discriminate].
  exists ev, env. split; [reflexivity |].
  destruct (proj2 (proj2 (chart_follows_bars Sample2.wholeHost
                            (Polygon.Resolves (Polygon.mkAggs (Some Sample2.threeBars)))
                            Sample2.chart_AAPL Sample.agent)) ev env Hrun)
    as (bars & Hsettled & Htext & _ & _ & _ & Hprices).
  inversion Hsettled; subst bars.
  split; [rewrite Htext; reflexivity |].
  split; [rewrite Hprices; reflexivity |].
  vm_compute in Hrun. inversion Hrun. reflexivity.
Defined.

(** The details handler returns exactly when its request resolves with a
    [results] record, and throws a TypeError when the answer has none.  Its
    table always has the six rows Name, Description, Market Cap, Exchange,
    Industry and Homepage in this order, whatever the record holds: the value
    of a row is the field of the record (the market capitalisation as the
    host's locale prints it), and a missing field leaves the row without a
    value.  The text names a missing name or exchange [undefined]. *)
Theorem details_table_rows host settled input agent :
  ((exists ev env,
      IndexTools.getStockTickerDetails_handler host settled input agent =
        (ev, Returns env)) <->
   (exists details,
      settled = Polygon.Resolves (IndexTools.mkTickerDetails (Some details)))) /\
  (forall ev e,
     settled = Polygon.Resolves (IndexTools.mkTickerDetails None) ->
     IndexTools.getStockTickerDetails_handler host settled input agent = (ev, Throws e) ->
     error_name e = "TypeError") /\
  (forall ev env,
     IndexTools.getStockTickerDetails_handler host settled input agent = (ev, Returns env) ->
     exists details,
       settled = Polygon.Resolves (IndexTools.mkTickerDetails (Some details)) /\
       text env =
         input_ticker input ++ " ("
           ++ nullish (IndexTools.name details) "undefined" ++ ") is listed on "
           ++ nullish (IndexTools.primary_exchange details) "undefined" /\
       data env = IndexTools.detailsJs details /\
       type (ui env) = "table" /\
       map (get "field") (elements (get "rows" (uiData (ui env)))) =
         [JStr "Name"; JStr "Description"; JStr "Market Cap"; JStr "Exchange";
          JStr "Industry"; JStr "Homepage"] /\
       map (get "value") (elements (get "rows" (uiData (ui env)))) =
         [optStr (IndexTools.name details);
          optStr (IndexTools.description details);
          optStr (option_map (toLocaleString host) (IndexTools.market_cap details));
          optStr (IndexTools.primary_exchange details);
          optStr (IndexTools.sic_description details);
          optStr (IndexTools.homepage_url details)]).
Proof.
  unfold IndexTools.getStockTickerDetails_handler. cbv zeta.
  split; [split | split].
  - intros (ev & env & H). destruct settled as [[[details |]] | reason].
    + exists details. reflexivity.
    + discriminate H.
    + discriminate H.
  - intros (details & ->). eexists _, _. reflexivity.
  - intros ev e -> H. inversion H. reflexivity.
  - intros ev env H. destruct settled as [[[details |]] | reason]; try discriminate H.
    exists details. split; [reflexivity |].
    cbn [bind console_log IndexTools.settle IndexTools.details_results ret] in H.
    inversion H; subst; clear H.
    cbn [text data ui type uiData].
    split; [reflexivity |]. split; [reflexivity |]. split; [reflexivity |].
    unfold IndexTools.detailsTable, IndexTools.fieldRow.
    destruct details as [name description market_cap exchange industry homepage].
    cbn [IndexTools.name IndexTools.description IndexTools.market_cap
           IndexTools.primary_exchange IndexTools.sic_description IndexTools.homepage_url].
    destruct name, description, market_cap, exchange, industry, homepage;
      split; reflexivity.
Qed.

(** The statement above on a record that has a name and an exchange only. *)
Lemma details_table_rows_witness :
  exists ev env,
    IndexTools.getStockTickerDetails_handler Sample.plainHost
      (Polygon.Resolves (IndexTools.mkTickerDetails (Some Sample2.details_AAPL))) Sample.AAPL
      Sample.agent = (ev, Returns env) /\
    text env = "AAPL (Apple Inc.) is listed on XNAS" /\
    map (get "value") (elements (get "rows" (uiData (ui env)))) =
      [JStr "Apple Inc."; JUndefined; JUndefined; JStr "XNAS"; JUndefined; JUndefined].
Proof.
  destruct (IndexTools.getStockTickerDetails_handler Sample.plainHost
              (Polygon.Resolves (IndexTools.mkTickerDetails (Some Sample2.details_AAPL)))
              Sample.AAPL Sample.agent) as [ev [env | e]] eqn:Hrun;
    [| vm_compute in Hrun; discriminate].
  exists ev, env. split; [reflexivity |].
  destruct (proj2 (proj2 (details_table_rows Sample.plainHost
                            (Polygon.Resolves
                               (IndexTools.mkTickerDetails (Some Sample2.details_AAPL)))
                            Sample.AAPL Sample.agent)) ev env Hrun)
    as (details & Hsettled & Htext & _ & _ & _ & Hvalues).
  inversion Hsettled; subst details.
  split; [rewrite Htext; reflexivity |].
  rewrite Hvalues. reflexivity.
Defined.

(** ** The two market overviews side by side *)

(** When the four lookups resolve, the widget of [part_000] returns after
    these four requests alone, whatever the provider would answer to a
    history request; and when the history request of [index.ts] resolves as
    well, the widget of [index.ts] returns the same [text] and the same
    [data], after the same requests followed by that one. *)
Theorem overview_versions_agree host polygon (answer : string -> Polygon.Aggs) :
  (forall ticker,
     In ticker (map fst indices) ->
     Polygon.previousClose polygon ticker = Polygon.Resolves (answer ticker)) ->
  exists ev0 env0,
    Part000.getMarketOverview_getWidget host polygon = (ev0, Returns env0) /\
    requests ev0 = map (fun index => Polygon.stocks_previousClose (fst index)) indices /\
    forall aggs,
      Polygon.aggregates polygon (Index.historyRequest host) = Polygon.Resolves aggs ->
      exists ev env,
        Index.getMarketOverview_getWidget host polygon = (ev, Returns env) /\
        text env = text env0 /\
        data env = data env0 /\
        requests ev =
          (requests ev0 ++ [Polygon.stocks_aggregates (Index.historyRequest host)])%list.
Proof.
  intros Hcalls.
  destruct (Part000_overview_resolved host polygon answer Hcalls) as (chart & _ & Hpart000).
  eexists _, _. split; [exact Hpart000 |]. split; [reflexivity |].
  intros aggs Hhistory.
  destruct (Index_overview_resolved host polygon answer aggs Hcalls Hhistory)
    as (charts & Hindex).
  eexists _, _. split; [exact Hindex |]. repeat split; reflexivity.
Qed.

(** The statement above when the NASDAQ lookup has no bar. *)
Lemma overview_versions_agree_witness :
  exists ev0 env0 ev env,
    Part000.getMarketOverview_getWidget Sample.plainHost Sample.withoutQQQ =
      (ev0, Returns env0) /\
    Index.getMarketOverview_getWidget Sample.plainHost Sample.withoutQQQ = (ev, Returns env) /\
    text env = text env0 /\
    data env = data env0 /\
    text env0 = "Market Overview - S&P 500: 5.00%".
Proof.
  destruct (overview_versions_agree Sample.plainHost Sample.withoutQQQ
              Sample.answerWithoutQQQ (fun _ _ => eq_refl))
    as (ev0 & env0 & Hpart000 & _ & Hindex).
  destruct (Hindex (Polygon.mkAggs (Some [Sample.bar_AAPL_full])) eq_refl)
    as (ev & env & Hrun & Htext & Hdata & _).
  exists ev0, env0, ev, env.
  split; [exact Hpart000 |]. split; [exact Hrun |].
  split; [exact Htext |]. split; [exact Hdata |].
  vm_compute in Hpart000. inversion Hpart000. reflexivity.
Defined.
